(** * yawf: the workflow definition object ([yawf/base.py], [yawf/resources/base.py])

    A shallow embedding of [WorkflowBase]: its lookup tables, the way a
    derived definition ([inherit_behaviour=True]) binds them, the registry
    (register_handler, register_action, register_resource, register_message)
    and the query API (get_handler, get_action, ...), followed by the
    properties of the specification that concern them.

    Python objects that the code mutates in place live in a store
    ([World]); an operation reads and writes the store through the
    attribute of [self] it names, so that two definitions that hold the
    same dict see each other's writes. *)

From stdpp Require Import base option list strings gmap.

Set Default Proof Using "Type".
Open Scope string_scope.

(** ** Labels and callables *)

(** States, message ids and checker identities are opaque hashable labels. *)
Abbreviation state := string (only parsing).
Abbreviation message_id := string (only parsing).
(** [resource_id=None] is the default of register_resource and is a legal
    dict key. *)
Abbreviation resource_id := (option string) (only parsing).
(** A permission checker is a callable; the per-state indices hold checkers
    in Python sets, which compare them by identity. *)
Abbreviation checker := string (only parsing).

(** A handler, an action or a resource accessor: a callable with a
    [__name__]; two callables are the same object when both fields agree. *)
Record callable := Callable { __name__ : string; fn_id : nat }.

Record MessageSpec := { spec_id : message_id; verb : option string }.

(** The object [AndChecker] of [yawf.permissions], built from the
    resource's checkers and stored in [WorkflowResource.permission_checker]. *)
Inductive and_checker := AndChecker (cs : list checker).

(** [WorkflowResource] after [__init__]; [res_id] is the attribute [id]. *)
Record WorkflowResource := {
  _handler : callable;
  res_id : resource_id;
  checkers : list checker;
  permission_checker : and_checker;
  description : option string }.

(** [WorkflowResource.__init__(self, handler, resource_id,
    permission_checkers, description=None)] *)
Definition WorkflowResource_init (handler : callable) (rid : resource_id)
    (permission_checkers : list checker) (descr : option string) : WorkflowResource :=
  {| _handler := handler;
     res_id := rid;
     checkers := permission_checkers;
     permission_checker := AndChecker permission_checkers;
     description := descr |}.

(** ** Exceptions and outcomes *)

Inductive exn :=
| IllegalStateError (s : state)
| UnhandledMessageError (m : message_id) (handled : list message_id)
| MessageSpecNotRegisteredError (m : message_id)
| ValueError (msg : string)
| TypeError (msg : string)
| AttributeError (msg : string).

Inductive outcome (A : Type) :=
| Return (a : A)
| Raise (e : exn).
Arguments Return {A} a.
Arguments Raise {A} e.

(** ** Containers *)

(** The eleven containers of [WorkflowBase._containers]. *)
Record Containers := {
  _handlers : gmap state (gmap message_id (list checker * callable));
  _resources : gmap resource_id WorkflowResource;
  _resources_by_state : gmap state (gmap resource_id WorkflowResource);
  _resource_checkers_by_state : gmap state (gset checker);
  _actions : gmap (state * state * message_id) callable;
  _actions_any_destination : gmap (state * message_id) callable;
  _actions_any_startpoint : gmap (state * message_id) callable;
  _actions_for_possible : gmap (option state * message_id) (list callable);
  _valid_states : gset state;
  _message_specs : gmap message_id MessageSpec;
  _message_checkers_by_state : gmap state (gset checker) }.

Inductive fabric := dict | set.

Definition _containers : list (string * fabric) :=
  [ ("_handlers", dict);
    ("_resources", dict);
    ("_resources_by_state", dict);
    ("_resource_checkers_by_state", dict);
    ("_actions", dict);
    ("_actions_any_destination", dict);
    ("_actions_any_startpoint", dict);
    ("_actions_for_possible", dict);
    ("_valid_states", set);
    ("_message_specs", dict);
    ("_message_checkers_by_state", dict) ].

(** [container_fabric()] for every entry of [_containers]. *)
Definition fresh_containers : Containers :=
  {| _handlers := ∅; _resources := ∅; _resources_by_state := ∅;
     _resource_checkers_by_state := ∅; _actions := ∅;
     _actions_any_destination := ∅; _actions_any_startpoint := ∅;
     _actions_for_possible := ∅; _valid_states := ∅; _message_specs := ∅;
     _message_checkers_by_state := ∅ |}.

(** Attribute assignment on a record of containers. *)
Definition set_handlers v (c : Containers) : Containers :=
  {| _handlers := v; _resources := _resources c;
     _resources_by_state := _resources_by_state c;
     _resource_checkers_by_state := _resource_checkers_by_state c;
     _actions := _actions c;
     _actions_any_destination := _actions_any_destination c;
     _actions_any_startpoint := _actions_any_startpoint c;
     _actions_for_possible := _actions_for_possible c;
     _valid_states := _valid_states c; _message_specs := _message_specs c;
     _message_checkers_by_state := _message_checkers_by_state c |}.

Definition set_resources v (c : Containers) : Containers :=
  {| _handlers := _handlers c; _resources := v;
     _resources_by_state := _resources_by_state c;
     _resource_checkers_by_state := _resource_checkers_by_state c;
     _actions := _actions c;
     _actions_any_destination := _actions_any_destination c;
     _actions_any_startpoint := _actions_any_startpoint c;
     _actions_for_possible := _actions_for_possible c;
     _valid_states := _valid_states c; _message_specs := _message_specs c;
     _message_checkers_by_state := _message_checkers_by_state c |}.

Definition set_resources_by_state v (c : Containers) : Containers :=
  {| _handlers := _handlers c; _resources := _resources c;
     _resources_by_state := v;
     _resource_checkers_by_state := _resource_checkers_by_state c;
     _actions := _actions c;
     _actions_any_destination := _actions_any_destination c;
     _actions_any_startpoint := _actions_any_startpoint c;
     _actions_for_possible := _actions_for_possible c;
     _valid_states := _valid_states c; _message_specs := _message_specs c;
     _message_checkers_by_state := _message_checkers_by_state c |}.

Definition set_resource_checkers_by_state v (c : Containers) : Containers :=
  {| _handlers := _handlers c; _resources := _resources c;
     _resources_by_state := _resources_by_state c;
     _resource_checkers_by_state := v;
     _actions := _actions c;
     _actions_any_destination := _actions_any_destination c;
     _actions_any_startpoint := _actions_any_startpoint c;
     _actions_for_possible := _actions_for_possible c;
     _valid_states := _valid_states c; _message_specs := _message_specs c;
     _message_checkers_by_state := _message_checkers_by_state c |}.

Definition set_actions v (c : Containers) : Containers :=
  {| _handlers := _handlers c; _resources := _resources c;
     _resources_by_state := _resources_by_state c;
     _resource_checkers_by_state := _resource_checkers_by_state c;
     _actions := v;
     _actions_any_destination := _actions_any_destination c;
     _actions_any_startpoint := _actions_any_startpoint c;
     _actions_for_possible := _actions_for_possible c;
     _valid_states := _valid_states c; _message_specs := _message_specs c;
     _message_checkers_by_state := _message_checkers_by_state c |}.

Definition set_actions_any_destination v (c : Containers) : Containers :=
  {| _handlers := _handlers c; _resources := _resources c;
     _resources_by_state := _resources_by_state c;
     _resource_checkers_by_state := _resource_checkers_by_state c;
     _actions := _actions c;
     _actions_any_destination := v;
     _actions_any_startpoint := _actions_any_startpoint c;
     _actions_for_possible := _actions_for_possible c;
     _valid_states := _valid_states c; _message_specs := _message_specs c;
     _message_checkers_by_state := _message_checkers_by_state c |}.

Definition set_actions_any_startpoint v (c : Containers) : Containers :=
  {| _handlers := _handlers c; _resources := _resources c;
     _resources_by_state := _resources_by_state c;
     _resource_checkers_by_state := _resource_checkers_by_state c;
     _actions := _actions c;
     _actions_any_destination := _actions_any_destination c;
     _actions_any_startpoint := v;
     _actions_for_possible := _actions_for_possible c;
     _valid_states := _valid_states c; _message_specs := _message_specs c;
     _message_checkers_by_state := _message_checkers_by_state c |}.

Definition set_actions_for_possible v (c : Containers) : Containers :=
  {| _handlers := _handlers c; _resources := _resources c;
     _resources_by_state := _resources_by_state c;
     _resource_checkers_by_state := _resource_checkers_by_state c;
     _actions := _actions c;
     _actions_any_destination := _actions_any_destination c;
     _actions_any_startpoint := _actions_any_startpoint c;
     _actions_for_possible := v;
     _valid_states := _valid_states c; _message_specs := _message_specs c;
     _message_checkers_by_state := _message_checkers_by_state c |}.

Definition set_valid_states v (c : Containers) : Containers :=
  {| _handlers := _handlers c; _resources := _resources c;
     _resources_by_state := _resources_by_state c;
     _resource_checkers_by_state := _resource_checkers_by_state c;
     _actions := _actions c;
     _actions_any_destination := _actions_any_destination c;
     _actions_any_startpoint := _actions_any_startpoint c;
     _actions_for_possible := _actions_for_possible c;
     _valid_states := v; _message_specs := _message_specs c;
     _message_checkers_by_state := _message_checkers_by_state c |}.

Definition set_message_specs v (c : Containers) : Containers :=
  {| _handlers := _handlers c; _resources := _resources c;
     _resources_by_state := _resources_by_state c;
     _resource_checkers_by_state := _resource_checkers_by_state c;
     _actions := _actions c;
     _actions_any_destination := _actions_any_destination c;
     _actions_any_startpoint := _actions_any_startpoint c;
     _actions_for_possible := _actions_for_possible c;
     _valid_states := _valid_states c; _message_specs := v;
     _message_checkers_by_state := _message_checkers_by_state c |}.

Definition set_message_checkers_by_state v (c : Containers) : Containers :=
  {| _handlers := _handlers c; _resources := _resources c;
     _resources_by_state := _resources_by_state c;
     _resource_checkers_by_state := _resource_checkers_by_state c;
     _actions := _actions c;
     _actions_any_destination := _actions_any_destination c;
     _actions_any_startpoint := _actions_any_startpoint c;
     _actions_for_possible := _actions_for_possible c;
     _valid_states := _valid_states c; _message_specs := _message_specs c;
     _message_checkers_by_state := v |}.

(** ** The store and the definition object *)

(** The mutable objects a definition reaches: [cls] holds the containers
    bound as class attributes by [init_containers]; [basic] holds what
    [init_inherited_containers] creates for a derived instance, the
    [basic_container] of every dict container and the instance's own
    [_valid_states] set. *)
Record World := { cls : Containers; basic : Containers }.

(** The class attributes a definition declares, and the flag [__init__]
    stores on the instance. *)
Record WorkflowBase := {
  valid_states : list state;
  extra_valid_states : list state;
  default_permission_checker : checker;
  inherit_behaviour : bool }.

(** What [merge_container] returns: the parent's own object, or a
    [NewMergeDict(basic_container, parent_container)] whose [__setitem__]
    is [basic_container.__setitem__]. *)
Inductive container_ref := parent_container | NewMergeDict.

Definition issubclass_dict (container_fabric : fabric) : bool :=
  match container_fabric with dict => true | set => false end.

Definition merge_container (container_name : string) (container_fabric : fabric)
    : container_ref :=
  if issubclass_dict container_fabric then
    if String.eqb container_name "_message_specs" then NewMergeDict
    else parent_container
  else parent_container.

(** A container of [_containers] seen as an attribute: its name, its
    fabric and the field that holds it. *)
Record attribute (A : Type) := Attribute {
  container_name : string;
  container_fabric : fabric;
  aget : Containers → A;
  aset : A → Containers → Containers }.
Arguments Attribute {A} _ _ _ _.
Arguments container_name {A} _.
Arguments container_fabric {A} _.
Arguments aget {A} _ _.
Arguments aset {A} _ _ _.

Definition HANDLERS := Attribute "_handlers" dict _handlers set_handlers.
Definition RESOURCES := Attribute "_resources" dict _resources set_resources.
Definition RESOURCES_BY_STATE :=
  Attribute "_resources_by_state" dict _resources_by_state set_resources_by_state.
Definition RESOURCE_CHECKERS_BY_STATE :=
  Attribute "_resource_checkers_by_state" dict
    _resource_checkers_by_state set_resource_checkers_by_state.
Definition ACTIONS := Attribute "_actions" dict _actions set_actions.
Definition ACTIONS_ANY_DESTINATION :=
  Attribute "_actions_any_destination" dict
    _actions_any_destination set_actions_any_destination.
Definition ACTIONS_ANY_STARTPOINT :=
  Attribute "_actions_any_startpoint" dict
    _actions_any_startpoint set_actions_any_startpoint.
Definition ACTIONS_FOR_POSSIBLE :=
  Attribute "_actions_for_possible" dict
    _actions_for_possible set_actions_for_possible.
Definition MESSAGE_SPECS :=
  Attribute "_message_specs" dict _message_specs set_message_specs.
Definition MESSAGE_CHECKERS_BY_STATE :=
  Attribute "_message_checkers_by_state" dict
    _message_checkers_by_state set_message_checkers_by_state.

(** [self.<name>]: an instance made with [inherit_behaviour=False] has no
    instance attribute and reads the class attribute;
    [init_inherited_containers] binds the instance attribute to
    [merge_container(name, fabric, getattr(cls, name))]. *)
Definition bound {A} (self : WorkflowBase) (a : attribute A) : container_ref :=
  if inherit_behaviour self
  then merge_container (container_name a) (container_fabric a)
  else parent_container.

(** [cls.init_containers()] *)
Definition init_containers (self : WorkflowBase) (w : World) : World :=
  {| cls := set_valid_states
              (list_to_set (valid_states self) ∪ list_to_set (extra_valid_states self))
              fresh_containers;
     basic := basic w |}.

(** [self.init_inherited_containers()] *)
Definition init_inherited_containers (self : WorkflowBase) (w : World) : World :=
  {| cls := cls w;
     basic := set_valid_states
                (_valid_states (cls w) ∪ list_to_set (extra_valid_states self))
                fresh_containers |}.

(** [WorkflowBase.__init__] *)
Definition __init__ (self : WorkflowBase) (w : World) : World :=
  if negb (inherit_behaviour self) then init_containers self w
  else init_inherited_containers self w.

(** [self._valid_states] *)
Definition self_valid_states (self : WorkflowBase) (w : World) : gset state :=
  if inherit_behaviour self then _valid_states (basic w) else _valid_states (cls w).

(** ** Statements that read or write the store *)

Definition Py (A : Type) : Type := World → outcome A * World.

Definition ret {A} (a : A) : Py A := λ w, (Return a, w).
Definition raise {A} (e : exn) : Py A := λ w, (Raise e, w).
Definition bind {A B} (m : Py A) (k : A → Py B) : Py B :=
  λ w, match m w with
       | (Return a, w') => k a w'
       | (Raise e, w') => (Raise e, w')
       end.

Declare Scope py_scope.
Delimit Scope py_scope with py.
Notation "'do' x <- m ; k" := (bind m (λ x, k))
  (at level 10, x name, m at level 100, k at level 200) : py_scope.
Notation "'exec' m ; k" := (bind m (λ _, k))
  (at level 10, m at level 100, k at level 200) : py_scope.

(** An expression that only reads the store. *)
Definition read {A} (f : World → A) : Py A := λ w, (Return (f w), w).

(** A call that does not touch the store and may raise. *)
Definition lift {A} (o : outcome A) : Py A := λ w, (o, w).

(** [for x in xs: body(x)] *)
Fixpoint for_each {A} (xs : list A) (body : A → Py unit) : Py unit :=
  match xs with
  | [] => ret ()
  | x :: xs' => (exec body x; for_each xs' body)%py
  end.

(** The dict methods the code calls on a container attribute. For a
    [NewMergeDict] they are those of Django's [MergeDict(basic, parent)]:
    [get] and [in] try the dicts in order, [__setitem__] is the one of the
    basic dict, and there is no [setdefault]. *)
Section dict_methods.
Context {K : Type} `{Countable K} {V : Type}.
Implicit Types (a : attribute (gmap K V)) (k : K).

(** [self.<a>.get(k)]; on a MergeDict the layers are tried in order. *)
Definition dict_get (self : WorkflowBase) a k (w : World) : option V :=
  match bound self a with
  | parent_container => aget a (cls w) !! k
  | NewMergeDict =>
      match aget a (basic w) !! k with
      | Some v => Some v
      | None => aget a (cls w) !! k
      end
  end.

(** [k in self.<a>] *)
Definition dict_contains (self : WorkflowBase) a k (w : World) : bool :=
  match bound self a with
  | parent_container => bool_decide (is_Some (aget a (cls w) !! k))
  | NewMergeDict =>
      bool_decide (is_Some (aget a (basic w) !! k))
      || bool_decide (is_Some (aget a (cls w) !! k))
  end.

(** [self.<a>[k] = v] *)
Definition dict_setitem (self : WorkflowBase) a k (v : V) : Py unit :=
  λ w, match bound self a with
       | parent_container =>
           (Return (), {| cls := aset a (<[k := v]> (aget a (cls w))) (cls w);
                          basic := basic w |})
       | NewMergeDict =>
           (Return (), {| cls := cls w;
                          basic := aset a (<[k := v]> (aget a (basic w))) (basic w) |})
       end.

(** [x = self.<a>.setdefault(k, dflt)] followed by an in-place update
    [upd] of [x]. MergeDict defines no [setdefault]. *)
Definition dict_setdefault_update (self : WorkflowBase) a k (dflt : V)
    (upd : V → V) : Py unit :=
  λ w, match bound self a with
       | parent_container =>
           let d := aget a (cls w) in
           (Return (), {| cls := aset a (<[k := upd (default dflt (d !! k))]> d) (cls w);
                          basic := basic w |})
       | NewMergeDict =>
           (Raise (AttributeError "'NewMergeDict' object has no attribute 'setdefault'"), w)
       end.
End dict_methods.

(** ** Permission checkers *)

(** [permission_checker=None], a single callable, or an iterable of
    callables. *)
Inductive checker_arg := single (c : checker) | iterable (cs : list checker).

(** The normalisation at the head of register_resource and
    register_handler. *)
Definition normalize_checkers (self : WorkflowBase)
    (permission_checker : option checker_arg) : list checker :=
  let permission_checker :=
    match permission_checker with
    | None => iterable [default_permission_checker self]
    | Some p => p
    end in
  match permission_checker with
  | single c => [c]
  | iterable cs => cs
  end.

(** What a resource call does: the accessor's value, or
    [ResourcePermissionDeniedError(self.id, obj, sender)]. *)
Inductive resource_outcome (Obj Sender Value : Type) :=
| Delegated (v : Value)
| ResourcePermissionDeniedError (rid : resource_id) (obj : Obj) (sender : Sender).
Arguments Delegated {Obj Sender Value} v.
Arguments ResourcePermissionDeniedError {Obj Sender Value} rid obj sender.

Section evaluation.
(** The governed object, the sender, the request and the accessor's
    value are opaque to the core; so is what a checker or an accessor
    computes. *)
Context {Obj Sender Request Value : Type}.
Variable call_checker : checker → Obj → Sender → bool.
Variable call_handler : callable → Request → Obj → Sender → Value.

(** [WorkflowBase._join_checkers] *)
Definition _join_checkers (permission_checkers : list checker)
    : Obj → Sender → bool :=
  λ obj sender, existsb (λ p, call_checker p obj sender) permission_checkers.

(** Modelled from the spec: [yawf.permissions.AndChecker] is not among
    the sources; section 4.3 gives [joinAnd(checkers)]: true iff all
    checkers evaluate true. *)
Definition call_AndChecker (c : and_checker) (obj : Obj) (sender : Sender) : bool :=
  match c with
  | AndChecker cs => forallb (λ p, call_checker p obj sender) cs
  end.

(** [WorkflowResource.__call__] *)
Definition __call__ (self : WorkflowResource) (request : Request) (obj : Obj)
    (sender : Sender) : resource_outcome Obj Sender Value :=
  if call_AndChecker (permission_checker self) obj sender
  then Delegated (call_handler (_handler self) request obj sender)
  else ResourcePermissionDeniedError (res_id self) obj sender.
End evaluation.

(** ** Query API *)

Definition is_valid_state (self : WorkflowBase) (s : state) (w : World) : bool :=
  bool_decide (s ∈ self_valid_states self w).

Definition is_valid_message (self : WorkflowBase) (s : state) (m : message_id)
    (w : World) : outcome bool :=
  match dict_get self HANDLERS s w with
  | None =>
      if negb (is_valid_state self s w) then Raise (IllegalStateError s)
      else Return false
  | Some lookup_result => Return (bool_decide (is_Some (lookup_result !! m)))
  end.

Definition get_message_checkers_by_state (self : WorkflowBase) (s : state)
    (w : World) : gset checker :=
  default ∅ (dict_get self MESSAGE_CHECKERS_BY_STATE s w).

Definition get_resource_checkers_by_state (self : WorkflowBase) (s : state)
    (w : World) : gset checker :=
  default ∅ (dict_get self RESOURCE_CHECKERS_BY_STATE s w).

Definition get_checkers_by_state (self : WorkflowBase) (s : state) (w : World)
    : outcome (gset checker) :=
  Return (get_message_checkers_by_state self s w
          ∪ get_resource_checkers_by_state self s w).

(** The generator of [(permission_checkers, message_id)] pairs, as the list
    of what it yields. *)
Definition get_available_messages (self : WorkflowBase) (s : state) (w : World)
    : outcome (list (list checker * message_id)) :=
  match dict_get self HANDLERS s w with
  | None =>
      if negb (is_valid_state self s w) then Raise (IllegalStateError s)
      else Return []
  | Some lookup_result =>
      Return ((λ '(m, (permission_checkers, _handler)), (permission_checkers, m))
                <$> map_to_list lookup_result)
  end.

Definition get_available_resources (self : WorkflowBase) (s : state) (w : World)
    : outcome (list WorkflowResource) :=
  match dict_get self RESOURCES_BY_STATE s w with
  | None =>
      if negb (is_valid_state self s w) then Raise (IllegalStateError s)
      else Return []
  | Some lookup_result => Return ((map_to_list lookup_result).*2)
  end.

Definition get_resource (self : WorkflowBase) (s : state) (rid : resource_id)
    (w : World) : outcome (option WorkflowResource) :=
  match dict_get self RESOURCES_BY_STATE s w with
  | None =>
      if negb (is_valid_state self s w) then Raise (IllegalStateError s)
      else Return None
  | Some lookup_result => Return (lookup_result !! rid)
  end.

(** [lookup_result.keys()] *)
Definition keys {K} `{Countable K} {V} (d : gmap K V) : list K := (map_to_list d).*1.

Definition get_handler {Obj Sender} (call_checker : checker → Obj → Sender → bool)
    (self : WorkflowBase) (s : state) (m : message_id) (w : World)
    : outcome ((Obj → Sender → bool) * callable) :=
  match dict_get self HANDLERS s w with
  | None => Raise (IllegalStateError s)
  | Some lookup_result =>
      match lookup_result !! m with
      | None => Raise (UnhandledMessageError m (keys lookup_result))
      | Some (permission_checkers, handler) =>
          Return (_join_checkers call_checker permission_checkers, handler)
      end
  end.

(** [callable(x)] on the result of a [.get]: Python's None is not
    callable, every registered action is. *)
Definition is_callable (x : option callable) : bool :=
  match x with Some _ => true | None => false end.

Definition get_action (self : WorkflowBase) (from_state to_state : state)
    (m : message_id) (w : World) : outcome (option callable) :=
  let first_try := dict_get self ACTIONS (from_state, to_state, m) w in
  if is_callable first_try then Return first_try else
  let second_try := dict_get self ACTIONS_ANY_STARTPOINT (to_state, m) w in
  if is_callable second_try then Return second_try else
  let last_try := dict_get self ACTIONS_ANY_DESTINATION (from_state, m) w in
  if is_callable last_try then Return last_try else
  Return None.

(** [if first_try:] and [last_try or []] test the truth value of the
    result of a [.get] on a dict of lists: None and the empty list are
    false. *)
Definition get_possible_actions (self : WorkflowBase) (from_state : state)
    (m : message_id) (w : World) : outcome (list callable) :=
  let first_try := dict_get self ACTIONS_FOR_POSSIBLE (Some from_state, m) w in
  match first_try with
  | Some (a :: l) => Return (a :: l)
  | _ =>
      let last_try := dict_get self ACTIONS_FOR_POSSIBLE (None, m) w in
      match last_try with
      | Some (a :: l) => Return (a :: l)
      | _ => Return []
      end
  end.

Definition get_message_spec (self : WorkflowBase) (m : message_id) (w : World)
    : outcome MessageSpec :=
  match dict_get self MESSAGE_SPECS m w with
  | None => Raise (MessageSpecNotRegisteredError m)
  | Some message_spec => Return message_spec
  end.

(** ** Registry *)

(** [@decorator def f] is [f = decorator(f)]: the registration call builds
    the registrator, which is then applied to the callable. *)
Definition decorate {A} (decorator : Py (A → Py A)) (f : A) : Py A :=
  (do registrator <- decorator; registrator f)%py.

Section registry.
(** register_resource instantiates the name [WorkflowResource] imported
    from the package [yawf.resources], whose [__init__] module is not
    among the sources, with the keywords [resource_id], [description],
    [permission_checkers] and [slug]; the class of [resources/base.py]
    declares no [slug] parameter. The instantiation is therefore taken as
    a parameter: it touches no container and returns a resource or
    raises. *)
Variable WorkflowResource_new :
  callable → resource_id → option string → list checker → option string →
  outcome WorkflowResource.

Definition register_resource (self : WorkflowBase) (rid : resource_id)
    (descr : option string) (available_in_states : option (list state))
    (permission_checker : option checker_arg) (slug : option string)
    : Py (callable → Py callable) :=
  let permission_checkers := normalize_checkers self permission_checker in
  (do available_in_states <-
     read (λ w, match available_in_states with
                | None => elements (self_valid_states self w)
                | Some l => l
                end);
   if bool_decide (available_in_states = [])
   then raise (ValueError "available_in_states cannot be empty")
   else ret (λ handler,
     do present <- read (dict_contains self RESOURCES rid);
     if (present : bool)
     then raise (ValueError "Resource with that name already registered")
     else
       do resource <-
         lift (WorkflowResource_new handler rid descr permission_checkers slug);
       exec dict_setitem self RESOURCES rid resource;
       exec for_each available_in_states (λ s,
         exec dict_setdefault_update self RESOURCES_BY_STATE s ∅
                (λ resources, <[rid := resource]> resources);
         dict_setdefault_update self RESOURCE_CHECKERS_BY_STATE s ∅
           (λ checkers_set, checkers_set ∪ list_to_set permission_checkers));
       ret handler))%py.

Definition register_message (self : WorkflowBase) (message_spec : MessageSpec)
    : Py MessageSpec :=
  (do present <- read (dict_contains self MESSAGE_SPECS (spec_id message_spec));
   if (present : bool)
   then raise (ValueError ("Message spec already registered for message '"
                           ++ spec_id message_spec ++ "'"))
   else
     exec dict_setitem self MESSAGE_SPECS (spec_id message_spec) message_spec;
     ret message_spec)%py.

Definition register_handler (self : WorkflowBase) (m : option message_id)
    (states_from : option (list state))
    (permission_checker : option checker_arg) : Py (callable → Py callable) :=
  let permission_checkers := normalize_checkers self permission_checker in
  let states_from :=
    match states_from with
    | None => valid_states self
    | Some l => l
    end in
  (ret (λ handler,
     let m := match m with None => __name__ handler | Some m => m end in
     exec for_each states_from (λ s,
       exec dict_setdefault_update self HANDLERS s ∅
              (λ handlers, <[m := (permission_checkers, handler)]> handlers);
       dict_setdefault_update self MESSAGE_CHECKERS_BY_STATE s ∅
         (λ checkers_set, checkers_set ∪ list_to_set permission_checkers));
     ret handler))%py.

(** [for x in None] *)
Definition iterate_None {A} : Py A :=
  raise (TypeError "'NoneType' object is not iterable").

Definition register_action (self : WorkflowBase) (m : option message_id)
    (states_from states_to : option (list state)) : Py (callable → Py callable) :=
  match states_from, states_to with
  | None, None =>
      raise (ValueError "Must specify at least one of states_from or states_to.")
  | _, _ =>
    (ret (λ action,
       let m := match m with None => __name__ action | Some m => m end in
       exec
         match states_to with
         | None =>
             match states_from with
             | None => iterate_None
             | Some states_from =>
                 for_each states_from (λ state_from,
                   let key := (state_from, m) in
                   exec dict_setitem self ACTIONS_ANY_DESTINATION key action;
                   dict_setdefault_update self ACTIONS_FOR_POSSIBLE
                     (Some state_from, m) [] (λ tmp, (tmp ++ [action])%list))
             end
         | Some states_to =>
             match states_from with
             | None =>
                 exec for_each states_to (λ state_to,
                        let key := (state_to, m) in
                        dict_setitem self ACTIONS_ANY_STARTPOINT key action);
                 dict_setdefault_update self ACTIONS_FOR_POSSIBLE
                   (None, m) [] (λ tmp, (tmp ++ [action])%list)
             | Some states_from =>
                 for_each states_to (λ state_to,
                   for_each states_from (λ state_from,
                     let key := (state_from, state_to, m) in
                     exec dict_setitem self ACTIONS key action;
                     dict_setdefault_update self ACTIONS_FOR_POSSIBLE
                       (Some state_from, m) [] (λ tmp, (tmp ++ [action])%list)))
             end
         end;
       ret action))%py
  end.
End registry.

(** The spec's tiered lookup: the first hit of an ordered list of lookups,
    or null when no tier matches. *)
Fixpoint first_hit {A} (tiers : list (option A)) : option A :=
  match tiers with
  | [] => None
  | Some a :: _ => Some a
  | None :: rest => first_hit rest
  end.

(** The spec's enumeration fallback: the first list that exists and is
    non-empty, else the empty list. *)
Fixpoint first_nonempty {A} (lists : list (option (list A))) : list A :=
  match lists with
  | [] => []
  | Some (a :: l) :: _ => a :: l
  | _ :: rest => first_nonempty rest
  end.

(** ** Concrete definitions used as test inputs *)

Module Sample.
(** [class Base(WorkflowBase): valid_states = ['init'];
    extra_valid_states = ('archived',)] and its instance [Base()]. *)
Definition base : WorkflowBase :=
  {| valid_states := ["init"]; extra_valid_states := ["archived"];
     default_permission_checker := "allow_to_all";
     inherit_behaviour := false |}.

(** [Base(inherit_behaviour=True)] *)
Definition derived : WorkflowBase :=
  {| valid_states := ["init"]; extra_valid_states := ["archived"];
     default_permission_checker := "allow_to_all";
     inherit_behaviour := true |}.

Definition empty_world : World :=
  {| cls := fresh_containers; basic := fresh_containers |}.

(** The store after [Base()] and then [Base(inherit_behaviour=True)]. *)
Definition loaded : World := __init__ derived (__init__ base empty_world).

Definition start : callable := Callable "start" 1.
Definition notify : callable := Callable "notify" 2.
Definition audit : callable := Callable "audit" 3.
Definition log : callable := Callable "log" 4.

(** Checkers over a unit object and a sender name. *)
Definition call_checker (c : checker) (_ : unit) (sender : string) : bool :=
  if String.eqb c "allow_to_all" then true
  else if String.eqb c "is_admin" then String.eqb sender "admin"
  else false.

Definition call_handler (f : callable) (_ : unit) (_ : unit) (sender : string)
    : string := __name__ f.

(** An instantiation that builds the resource of [resources/base.py]. *)
Definition new_resource (handler : callable) (rid : resource_id)
    (descr : option string) (permission_checkers : list checker)
    (slug : option string) : outcome WorkflowResource :=
  Return (WorkflowResource_init handler rid permission_checkers descr).

Definition minimize : MessageSpec :=
  {| spec_id := "minimize"; verb := Some "Minimize window" |}.

(** [loaded] after [@base.register_handler(message_id='start')] on
    [start], with statesFrom omitted. *)
Definition with_start : World :=
  (decorate (register_handler base (Some "start") None None) start loaded).2.

(** [loaded] after [@base.register_resource(resource_id='history')] on
    [audit]. *)
Definition with_history : World :=
  (decorate (register_resource new_resource base (Some "history") None None
               None None) audit loaded).2.

(** [loaded] after [derived.register_message(minimize)]. *)
Definition with_minimize : World := (register_message derived minimize loaded).2.

(** The three tiers of the action table for message [edit]: an exact
    registration init -> normal, an any-startpoint registration for
    destination normal and an any-destination registration for source
    init. *)
Definition with_actions : World :=
  let w1 := (decorate (register_action base (Some "edit") (Some ["init"])
                         (Some ["normal"])) notify loaded).2 in
  let w2 := (decorate (register_action base (Some "edit") None
                         (Some ["normal"])) audit w1).2 in
  (decorate (register_action base (Some "edit") (Some ["init"]) None) log w2).2.
End Sample.

(** ** Registration calls *)

(** One use of a registration entry point, with the callable it decorates
    where it is a decorator. *)
Inductive registration :=
| Register_resource (rid : resource_id) (descr : option string)
    (available_in_states : option (list state))
    (permission_checker : option checker_arg) (slug : option string)
    (handler : callable)
| Register_message (message_spec : MessageSpec)
| Register_handler (m : option message_id) (states_from : option (list state))
    (permission_checker : option checker_arg) (handler : callable)
| Register_action (m : option message_id) (states_from states_to : option (list state))
    (action : callable).

Definition register
    (WorkflowResource_new :
       callable → resource_id → option string → list checker → option string →
       outcome WorkflowResource)
    (self : WorkflowBase) (r : registration) : Py unit :=
  match r with
  | Register_resource rid descr available_in_states permission_checker slug handler =>
      (exec decorate (register_resource WorkflowResource_new self rid descr
                        available_in_states permission_checker slug) handler;
       ret ())%py
  | Register_message message_spec =>
      (exec register_message self message_spec; ret ())%py
  | Register_handler m states_from permission_checker handler =>
      (exec decorate (register_handler self m states_from permission_checker) handler;
       ret ())%py
  | Register_action m states_from states_to action =>
      (exec decorate (register_action self m states_from states_to) action;
       ret ())%py
  end.

(** The states register_resource iterates over: [available_in_states],
    or [self._valid_states] when it is None. *)
Definition resource_states (self : WorkflowBase)
    (available_in_states : option (list state)) (w : World) : list state :=
  match available_in_states with
  | None => elements (self_valid_states self w)
  | Some l => l
  end.

(** ** Predicates on containers *)

(** The handler table holds [(permission_checkers, handler)] at [(s, m)]. *)
Definition handler_at (c : Containers) (s : state) (m : message_id)
    (entry : list checker * callable) : Prop :=
  ∃ handlers, _handlers c !! s = Some handlers ∧ handlers !! m = Some entry.

(** ** Further methods of the definition object *)

(** [self.<a>.keys()]; on a MergeDict the keys of the layers in order,
    each key once. *)
Definition dict_keys {K} `{Countable K} {V} (self : WorkflowBase)
    (a : attribute (gmap K V)) (w : World) : list K :=
  match bound self a with
  | parent_container => keys (aget a (cls w))
  | NewMergeDict =>
      keys (aget a (basic w))
      ++ filter (λ k, aget a (basic w) !! k = None) (keys (aget a (cls w)))
  end.

(** [WorkflowBase.get_nonfinal_states] *)
Definition get_nonfinal_states (self : WorkflowBase) (w : World) : list state :=
  dict_keys self HANDLERS w.

(** ** The writes of a registration *)

(** [d[k] = v] and [d.setdefault(k, dflt)] followed by an update, on a
    container held by the class. *)
Definition cls_setitem {K} `{Countable K} {V} (a : attribute (gmap K V))
    (k : K) (v : V) (w : World) : World :=
  {| cls := aset a (<[k := v]> (aget a (cls w))) (cls w); basic := basic w |}.

Definition cls_setdefault_update {K} `{Countable K} {V} (a : attribute (gmap K V))
    (k : K) (dflt : V) (upd : V → V) (w : World) : World :=
  {| cls := aset a (<[k := upd (default dflt (aget a (cls w) !! k))]>
                      (aget a (cls w))) (cls w);
     basic := basic w |}.

(** One round of the loop of register_handler. *)
Definition handler_step (m : message_id) (permission_checkers : list checker)
    (handler : callable) (w : World) (s : state) : World :=
  cls_setdefault_update MESSAGE_CHECKERS_BY_STATE s ∅
    (λ checkers_set, checkers_set ∪ list_to_set permission_checkers)
    (cls_setdefault_update HANDLERS s ∅
       (λ handlers, <[m := (permission_checkers, handler)]> handlers) w).

(** One round of the loop of register_resource. *)
Definition resource_step (rid : resource_id) (resource : WorkflowResource)
    (permission_checkers : list checker) (w : World) (s : state) : World :=
  cls_setdefault_update RESOURCE_CHECKERS_BY_STATE s ∅
    (λ checkers_set, checkers_set ∪ list_to_set permission_checkers)
    (cls_setdefault_update RESOURCES_BY_STATE s ∅
       (λ resources, <[rid := resource]> resources) w).

(** One round of each of the three loops of register_action. *)
Definition any_destination_step (m : message_id) (action : callable)
    (w : World) (state_from : state) : World :=
  cls_setdefault_update ACTIONS_FOR_POSSIBLE (Some state_from, m) []
    (λ tmp, (tmp ++ [action])%list)
    (cls_setitem ACTIONS_ANY_DESTINATION (state_from, m) action w).

Definition any_startpoint_step (m : message_id) (action : callable)
    (w : World) (state_to : state) : World :=
  cls_setitem ACTIONS_ANY_STARTPOINT (state_to, m) action w.

Definition exact_step (m : message_id) (action : callable) (state_to : state)
    (w : World) (state_from : state) : World :=
  cls_setdefault_update ACTIONS_FOR_POSSIBLE (Some state_from, m) []
    (λ tmp, (tmp ++ [action])%list)
    (cls_setitem ACTIONS (state_from, state_to, m) action w).

(** The store after the registrator of register_action ran. *)
Definition action_writes (m : message_id) (action : callable)
    (states_from states_to : option (list state)) (w : World) : World :=
  match states_to with
  | None =>
      match states_from with
      | None => w
      | Some states_from => fold_left (any_destination_step m action) states_from w
      end
  | Some states_to =>
      match states_from with
      | None =>
          cls_setdefault_update ACTIONS_FOR_POSSIBLE (None, m) []
            (λ tmp, (tmp ++ [action])%list)
            (fold_left (any_startpoint_step m action) states_to w)
      | Some states_from =>
          fold_left (λ w state_to,
                       fold_left (exact_step m action state_to) states_from w)
            states_to w
      end
  end.

(** The store after a registration returned. *)
Definition registration_writes
    (WorkflowResource_new :
       callable → resource_id → option string → list checker → option string →
       outcome WorkflowResource)
    (self : WorkflowBase) (r : registration) (w : World) : World :=
  match r with
  | Register_resource rid descr available_in_states permission_checker slug handler =>
      let permission_checkers := normalize_checkers self permission_checker in
      match WorkflowResource_new handler rid descr permission_checkers slug with
      | Return resource =>
          fold_left (resource_step rid resource permission_checkers)
            (resource_states self available_in_states w)
            (cls_setitem RESOURCES rid resource w)
      | Raise _ => w
      end
  | Register_message message_spec =>
      (dict_setitem self MESSAGE_SPECS (spec_id message_spec) message_spec w).2
  | Register_handler m states_from permission_checker handler =>
      fold_left
        (handler_step (default (__name__ handler) m)
           (normalize_checkers self permission_checker) handler)
        (default (valid_states self) states_from) w
  | Register_action m states_from states_to action =>
      action_writes (default (__name__ action) m) action states_from states_to w
  end.

(** The four kinds of registration. *)
Inductive kind := resource_kind | message_kind | handler_kind | action_kind.

#[global] Instance kind_eq_dec : EqDecision kind.
Proof. solve_decision. Defined.

Definition kind_of (r : registration) : kind :=
  match r with
  | Register_resource _ _ _ _ _ _ => resource_kind
  | Register_message _ => message_kind
  | Register_handler _ _ _ _ => handler_kind
  | Register_action _ _ _ _ => action_kind
  end.

(** Two stores agree on the containers of one kind. *)
Definition same_handlers (w w' : World) : Prop :=
  _handlers (cls w') = _handlers (cls w) ∧
  _message_checkers_by_state (cls w') = _message_checkers_by_state (cls w).

Definition same_resources (w w' : World) : Prop :=
  _resources (cls w') = _resources (cls w) ∧
  _resources_by_state (cls w') = _resources_by_state (cls w) ∧
  _resource_checkers_by_state (cls w') = _resource_checkers_by_state (cls w).

Definition same_actions (w w' : World) : Prop :=
  _actions (cls w') = _actions (cls w) ∧
  _actions_any_destination (cls w') = _actions_any_destination (cls w) ∧
  _actions_any_startpoint (cls w') = _actions_any_startpoint (cls w) ∧
  _actions_for_possible (cls w') = _actions_for_possible (cls w).

Definition same_message_specs (w w' : World) : Prop :=
  _message_specs (cls w') = _message_specs (cls w) ∧
  _message_specs (basic w') = _message_specs (basic w).

Definition same_valid_states (w w' : World) : Prop :=
  _valid_states (cls w') = _valid_states (cls w) ∧
  _valid_states (basic w') = _valid_states (basic w).

(** ** Load phase *)

(** A load phase: registrations made one after the other, each through
    some definition; a registration that raises is skipped over. *)
Definition run_registrations
    (WorkflowResource_new :
       callable → resource_id → option string → list checker → option string →
       outcome WorkflowResource)
    (rs : list (WorkflowBase * registration)) (w : World) : World :=
  fold_left (λ w sr, (register WorkflowResource_new sr.1 sr.2 w).2) rs w.

(** Every checker of a stored handler entry is in the message-checker
    index of its state. *)
Definition checkers_indexed (w : World) : Prop :=
  ∀ s m permission_checkers handler p,
    handler_at (cls w) s m (permission_checkers, handler) →
    p ∈ permission_checkers →
    p ∈ default ∅ (_message_checkers_by_state (cls w) !! s).

(** Every resource of the per-state resource table is the one the
    resource table holds under that id. *)
Definition resources_indexed (w : World) : Prop :=
  ∀ s resources rid resource,
    _resources_by_state (cls w) !! s = Some resources →
    resources !! rid = Some resource →
    _resources (cls w) !! rid = Some resource.

(** The per-state resource table agrees with the resource table, and
    its entry [(s0, rid0)] holds [resource0]. *)
Definition resource_kept (s0 : state) (rid0 : resource_id)
    (resource0 : WorkflowResource) (w : World) : Prop :=
  resources_indexed w ∧
  ∃ resources, _resources_by_state (cls w) !! s0 = Some resources ∧
               resources !! rid0 = Some resource0.

(** The list the possible-actions index holds under a key, empty when the
    key is absent. *)
Definition possible_list (w : World) (key : option state * message_id)
    : list callable :=
  default [] (_actions_for_possible (cls w) !! key).

(** ** The version index of a revision ([yawf/revision/utils.py]) *)

Module Revision.
(** The attributes of a content type and of a version row that
    [DeserializedRevision] reads. *)
Record ContentType := { app_label : string; model : string }.

Record Version := {
  pk : Z;
  content_type : ContentType;
  object_id_int : Z }.

(** ['.'.join([ct.app_label, ct.model])], which is also
    ['%s.%s' % (ct.app_label, ct.model)]. *)
Definition dotted_model_name (ct : ContentType) : string :=
  app_label ct ++ "." ++ model ct.

(** [itertools.groupby(iterable, key)]: the runs of consecutive elements
    with equal keys, each with its key. *)
Fixpoint groupby {A K} `{EqDecision K} (key : A → K) (l : list A)
    : list (K * list A) :=
  match l with
  | [] => []
  | x :: l' =>
      match groupby key l' with
      | (k, group) :: rest =>
          if decide (key x = k) then (k, x :: group) :: rest
          else (key x, [x]) :: (k, group) :: rest
      | [] => [(key x, [x])]
      end
  end.

(** [dict(pairs)]: a later pair replaces an earlier one with the same
    key. *)
Definition dict_of {K} `{Countable K} {V} (pairs : list (K * V)) : gmap K V :=
  fold_left (λ d kv, <[kv.1 := kv.2]> d) pairs ∅.

(** [DeserializedRevision.__init__]: the index built from the versions of
    the revision, in the order the query returns them. *)
Definition _index (versions : list Version) : gmap string (gmap Z Version) :=
  let grouped := groupby (λ v, dotted_model_name (content_type v)) versions in
  dict_of ((λ '(grouper, group),
              (grouper, dict_of ((λ o, (object_id_int o, o)) <$> group)))
             <$> grouped).

(** [DeserializedRevision.get_version_for_object] *)
Definition get_version_for_object (versions : list Version) (ct : ContentType)
    (object_id : Z) : option Version :=
  default ∅ (_index versions !! dotted_model_name ct) !! object_id.

(** [DeserializedRevision.get_versions_for_content_type] *)
Definition get_versions_for_content_type (versions : list Version)
    (ct : ContentType) : list Version :=
  (map_to_list (default ∅ (_index versions !! dotted_model_name ct))).*2.

(** Versions of one model follow one another in the list, as in the
    result of a query ordered by content type. *)
Definition grouped {K} (key : Version → K) (versions : list Version) : Prop :=
  ∀ l1 x l2 y l3,
    versions = (l1 ++ x :: l2 ++ y :: l3)%list →
    key x = key y → ∀ z, z ∈ l2 → key z = key x.
End Revision.

(** ** Running statements *)

(** The statement returns from every store. *)
Definition returns {A} (m : Py A) : Prop := ∀ w, ∃ a w', m w = (Return a, w').



Lemma bind_run {A B} (m : Py A) (k : A → Py B) (w : World) (a : A) (w' : World) :
  m w = (Return a, w') → bind m k w = k a w'.
Proof. unfold bind. by intros ->. Qed.

Lemma bind_ret {A B} (a : A) (k : A → Py B) (w : World) :
  bind (ret a) k w = k a w.
Proof. reflexivity. Qed.

Lemma bind_raise {A B} (m : Py A) (k : A → Py B) (w : World) (e : exn) (w' : World) :
  m w = (Raise e, w') → bind m k w = (Raise e, w').
Proof. unfold bind. by intros ->. Qed.

(** ** Attribute resolution *)

Lemma bound_base {A} (self : WorkflowBase) (a : attribute A) :
  inherit_behaviour self = false → bound self a = parent_container.
Proof. unfold bound. by intros ->. Qed.

Lemma bound_not_message_specs {A} (self : WorkflowBase) (a : attribute A) :
  container_name a ≠ "_message_specs" → bound self a = parent_container.
Proof.
  intros Hne. unfold bound, merge_container.
  destruct (inherit_behaviour self); [|done].
  destruct (issubclass_dict (container_fabric a)); [|done].
  destruct (String.eqb_spec (container_name a) "_message_specs"); done.
Qed.

Lemma bound_message_specs (self : WorkflowBase) :
  inherit_behaviour self = true → bound self MESSAGE_SPECS = NewMergeDict.
Proof. unfold bound. by intros ->. Qed.

Section dict_lemmas.
Context {K : Type} `{Countable K} {V : Type}.
Implicit Types (a : attribute (gmap K V)) (k : K).

Lemma dict_get_parent self a k w :
  bound self a = parent_container → dict_get self a k w = aget a (cls w) !! k.
Proof. unfold dict_get. by intros ->. Qed.

Lemma dict_contains_get self a k w :
  dict_contains self a k w = bool_decide (is_Some (dict_get self a k w)).
Proof.
  unfold dict_contains, dict_get. destruct (bound self a); [done|].
  destruct (aget a (basic w) !! k) as [v|] eqn:E.
  - by rewrite (bool_decide_eq_true_2 (is_Some (Some v))).
  - by rewrite (bool_decide_eq_false_2 (is_Some None)); [|by intros [??]].
Qed.

Lemma dict_setdefault_update_parent self a k (dflt : V) upd w :
  bound self a = parent_container →
  dict_setdefault_update self a k dflt upd w =
    (Return (),
     {| cls := aset a (<[k := upd (default dflt (aget a (cls w) !! k))]>
                         (aget a (cls w))) (cls w);
        basic := basic w |}).
Proof. unfold dict_setdefault_update. by intros ->. Qed.

Lemma dict_setitem_parent self a k (v : V) w :
  bound self a = parent_container →
  dict_setitem self a k v w =
    (Return (), {| cls := aset a (<[k := v]> (aget a (cls w))) (cls w);
                   basic := basic w |}).
Proof. unfold dict_setitem. by intros ->. Qed.
End dict_lemmas.

(** ** Lookups that check no state *)

Lemma get_action_returns (self : WorkflowBase) (from_state to_state : state)
    (m : message_id) (w : World) :
  ∃ r, get_action self from_state to_state m w = Return r.
Proof.
  unfold get_action.
  repeat match goal with
         | |- context [is_callable ?x] => destruct x; cbn [is_callable]
         end; by eexists.
Qed.

Lemma get_possible_actions_returns (self : WorkflowBase) (from_state : state)
    (m : message_id) (w : World) :
  ∃ l, get_possible_actions self from_state m w = Return l.
Proof.
  unfold get_possible_actions.
  destruct (dict_get self ACTIONS_FOR_POSSIBLE (Some from_state, m) w)
    as [[|a l]|];
    try destruct (dict_get self ACTIONS_FOR_POSSIBLE (None, m) w) as [[|b l']|];
    by eexists.
Qed.

(** ** Tiered action lookup *)

(** C3: get_action tries the exact tier keyed (fromState, toState,
    messageId), then the any-startpoint tier keyed (toState, messageId),
    then the any-destination tier keyed (fromState, messageId); it returns
    the first registered action found, and returns null, not an error, when
    no tier matches. *)
Theorem get_action_tiered (self : WorkflowBase) (from_state to_state : state)
    (m : message_id) (w : World) :
  get_action self from_state to_state m w =
    Return (first_hit
              [ dict_get self ACTIONS (from_state, to_state, m) w;
                dict_get self ACTIONS_ANY_STARTPOINT (to_state, m) w;
                dict_get self ACTIONS_ANY_DESTINATION (from_state, m) w ]).
Proof.
  unfold get_action; cbn [first_hit].
  destruct (dict_get self ACTIONS _ w) as [a|]; [done|]; cbn [is_callable].
  destruct (dict_get self ACTIONS_ANY_STARTPOINT _ w) as [a|]; [done|];
    cbn [is_callable].
  by destruct (dict_get self ACTIONS_ANY_DESTINATION _ w) as [a|].
Qed.

(** ** Enumeration of possible actions *)

(** C7: get_possible_actions returns the list registered under (fromState,
    messageId) when it exists and is non-empty, otherwise the list under
    the wildcard key (None, messageId) when that exists and is non-empty,
    otherwise the empty list; it never raises. *)
Theorem get_possible_actions_fallback (self : WorkflowBase) (from_state : state)
    (m : message_id) (w : World) :
  get_possible_actions self from_state m w =
    Return (first_nonempty
              [ dict_get self ACTIONS_FOR_POSSIBLE (Some from_state, m) w;
                dict_get self ACTIONS_FOR_POSSIBLE (None, m) w ]).
Proof.
  unfold get_possible_actions; cbn [first_nonempty].
  destruct (dict_get self ACTIONS_FOR_POSSIBLE (Some from_state, m) w)
    as [[|a l]|]; [|done|];
    by destruct (dict_get self ACTIONS_FOR_POSSIBLE (None, m) w) as [[|b l']|].
Qed.

(** ** Handler lookup errors *)

Lemma elem_of_keys {K} `{Countable K} {V} (d : gmap K V) (k : K) :
  k ∈ keys d ↔ is_Some (d !! k).
Proof.
  unfold keys. rewrite list_elem_of_fmap. split.
  - intros [[k' v] [-> Hin]]. apply elem_of_map_to_list in Hin. by eexists.
  - intros [v Hv]. exists (k, v). split; [done|]. by apply elem_of_map_to_list.
Qed.

(** C5: get_handler raises IllegalState when the state has no handler
    table at all, and raises UnhandledMessage, carrying the offending
    message id and the message ids that have handlers at that state, when
    the state's handler table exists but has no entry for the message id. *)
Theorem get_handler_errors {Obj Sender} (call_checker : checker → Obj → Sender → bool)
    (self : WorkflowBase) (s : state) (m : message_id) (w : World) :
  (dict_get self HANDLERS s w = None →
   get_handler call_checker self s m w = Raise (IllegalStateError s)) ∧
  (∀ lookup_result,
     dict_get self HANDLERS s w = Some lookup_result →
     lookup_result !! m = None →
     ∃ handled,
       get_handler call_checker self s m w = Raise (UnhandledMessageError m handled) ∧
       ∀ m', m' ∈ handled ↔ is_Some (lookup_result !! m')).
Proof.
  unfold get_handler. split.
  - by intros ->.
  - intros lookup_result -> ->. exists (keys lookup_result).
    split; [done|]. intros m'. apply elem_of_keys.
Qed.

(** ** Queries at a state outside the valid-state set *)

(** C2, as the code has it: for a state outside the valid-state set,
    is_valid_message, get_available_messages and get_handler raise
    IllegalState when the state has no handler table, and
    get_available_resources and get_resource raise IllegalState when the
    state has no resource table. get_action, get_possible_actions and
    get_checkers_by_state check no state: they return, without raising,
    what the tables hold for the state, that is the first action found in
    the exact, any-startpoint and any-destination tiers or null, the first
    non-empty list among the from-specific and the wildcard one or the
    empty list, and the union of the message and resource checkers indexed
    for the state; so the null or empty result when nothing is registered
    for it. *)
Theorem invalid_state_queries {Obj Sender}
    (call_checker : checker → Obj → Sender → bool)
    (self : WorkflowBase) (s : state) (w : World) :
  is_valid_state self s w = false →
  (dict_get self HANDLERS s w = None →
     (∀ m, is_valid_message self s m w = Raise (IllegalStateError s)) ∧
     get_available_messages self s w = Raise (IllegalStateError s) ∧
     (∀ m, get_handler call_checker self s m w = Raise (IllegalStateError s))) ∧
  (dict_get self RESOURCES_BY_STATE s w = None →
     get_available_resources self s w = Raise (IllegalStateError s) ∧
     (∀ rid, get_resource self s rid w = Raise (IllegalStateError s))) ∧
  (∀ other m,
     get_action self s other m w
       = Return (first_hit
                   [ dict_get self ACTIONS (s, other, m) w;
                     dict_get self ACTIONS_ANY_STARTPOINT (other, m) w;
                     dict_get self ACTIONS_ANY_DESTINATION (s, m) w ]) ∧
     get_action self other s m w
       = Return (first_hit
                   [ dict_get self ACTIONS (other, s, m) w;
                     dict_get self ACTIONS_ANY_STARTPOINT (s, m) w;
                     dict_get self ACTIONS_ANY_DESTINATION (other, m) w ])) ∧
  (∀ m,
     get_possible_actions self s m w
       = Return (first_nonempty
                   [ dict_get self ACTIONS_FOR_POSSIBLE (Some s, m) w;
                     dict_get self ACTIONS_FOR_POSSIBLE (None, m) w ])) ∧
  get_checkers_by_state self s w
    = Return (default ∅ (dict_get self MESSAGE_CHECKERS_BY_STATE s w)
              ∪ default ∅ (dict_get self RESOURCE_CHECKERS_BY_STATE s w)) ∧
  (∀ other m,
     dict_get self ACTIONS (s, other, m) w = None →
     dict_get self ACTIONS_ANY_STARTPOINT (other, m) w = None →
     dict_get self ACTIONS_ANY_DESTINATION (s, m) w = None →
     get_action self s other m w = Return None) ∧
  (∀ m,
     dict_get self ACTIONS_FOR_POSSIBLE (Some s, m) w = None →
     dict_get self ACTIONS_FOR_POSSIBLE (None, m) w = None →
     get_possible_actions self s m w = Return []) ∧
  (dict_get self MESSAGE_CHECKERS_BY_STATE s w = None →
   dict_get self RESOURCE_CHECKERS_BY_STATE s w = None →
   get_checkers_by_state self s w = Return ∅).
Proof.
  intros Hinvalid.
  assert (Haction : ∀ from_state to_state m,
    get_action self from_state to_state m w
      = Return (first_hit
                  [ dict_get self ACTIONS (from_state, to_state, m) w;
                    dict_get self ACTIONS_ANY_STARTPOINT (to_state, m) w;
                    dict_get self ACTIONS_ANY_DESTINATION (from_state, m) w ])).
  { intros from_state to_state m. unfold get_action; cbn [first_hit].
    destruct (dict_get self ACTIONS _ w) as [a|]; [done|]; cbn [is_callable].
    destruct (dict_get self ACTIONS_ANY_STARTPOINT _ w) as [a|]; [done|];
      cbn [is_callable].
    by destruct (dict_get self ACTIONS_ANY_DESTINATION _ w) as [a|]. }
  assert (Hpossible : ∀ m,
    get_possible_actions self s m w
      = Return (first_nonempty
                  [ dict_get self ACTIONS_FOR_POSSIBLE (Some s, m) w;
                    dict_get self ACTIONS_FOR_POSSIBLE (None, m) w ])).
  { intros m. unfold get_possible_actions; cbn [first_nonempty].
    destruct (dict_get self ACTIONS_FOR_POSSIBLE (Some s, m) w) as [[|a l]|];
      [|done|];
      by destruct (dict_get self ACTIONS_FOR_POSSIBLE (None, m) w) as [[|b l']|]. }
  split; [|split; [|split; [|split; [|split; [|split; [|split]]]]]].
  - intros Hnone. split; [|split].
    + intros m. unfold is_valid_message. by rewrite Hnone, Hinvalid.
    + unfold get_available_messages. by rewrite Hnone, Hinvalid.
    + intros m. unfold get_handler. by rewrite Hnone.
  - intros Hnone. split.
    + unfold get_available_resources. by rewrite Hnone, Hinvalid.
    + intros rid. unfold get_resource. by rewrite Hnone, Hinvalid.
  - intros other m. by rewrite !Haction.
  - done.
  - done.
  - intros other m Hexact Hstart Hdest.
    by rewrite Haction, Hexact, Hstart, Hdest.
  - intros m Hspecific Hwildcard. by rewrite Hpossible, Hspecific, Hwildcard.
  - intros Hmessages Hresources.
    unfold get_checkers_by_state, get_message_checkers_by_state,
      get_resource_checkers_by_state.
    rewrite Hmessages, Hresources. cbn [from_option]. by f_equal.
Qed.

(** ** Handler registration and lookup *)

Lemma bound_HANDLERS self : bound self HANDLERS = parent_container.
Proof. by apply bound_not_message_specs. Qed.

Lemma bound_MESSAGE_CHECKERS_BY_STATE self :
  bound self MESSAGE_CHECKERS_BY_STATE = parent_container.
Proof. by apply bound_not_message_specs. Qed.

Lemma register_handler_loop self m permission_checkers handler states w :
  ∃ w',
    for_each states (λ s,
      exec dict_setdefault_update self HANDLERS s ∅
             (λ handlers, <[m := (permission_checkers, handler)]> handlers);
      dict_setdefault_update self MESSAGE_CHECKERS_BY_STATE s ∅
        (λ checkers_set, checkers_set ∪ list_to_set permission_checkers))%py w
    = (Return (), w') ∧
    basic w' = basic w ∧
    ∀ s, s ∈ states ∨ handler_at (cls w) s m (permission_checkers, handler) →
         handler_at (cls w') s m (permission_checkers, handler).
Proof.
  revert w. induction states as [|s0 states IH]; intros w.
  - exists w. split; [done|]. split; [done|].
    intros s [Hin|Hat]; [by apply elem_of_nil in Hin|done].
  - cbn [for_each]. unfold bind at 1. unfold bind at 1.
    rewrite (dict_setdefault_update_parent self HANDLERS) by apply bound_HANDLERS.
    rewrite (dict_setdefault_update_parent self MESSAGE_CHECKERS_BY_STATE)
      by apply bound_MESSAGE_CHECKERS_BY_STATE.
    match goal with |- context [for_each states _ ?w1] =>
      destruct (IH w1) as (w' & Hrun & Hbasic & Hat) end.
    exists w'. split; [exact Hrun|]. split; [by rewrite Hbasic|].
    intros s Hs. apply Hat. cbn.
    destruct (decide (s = s0)) as [->|Hne].
    + right. eexists. split; [apply lookup_insert_eq|apply lookup_insert_eq].
    + destruct Hs as [Hin|(handlers & Hs & Hm)].
      * apply elem_of_cons in Hin as [?|Hin]; [done|by left].
      * right. exists handlers. cbn. split; [|done]. by rewrite lookup_insert_ne.
Qed.

Lemma _join_checkers_any {Obj Sender} (call_checker : checker → Obj → Sender → bool)
    (permission_checkers : list checker) (obj : Obj) (sender : Sender) :
  _join_checkers call_checker permission_checkers obj sender = true ↔
  ∃ p, p ∈ permission_checkers ∧ call_checker p obj sender = true.
Proof.
  unfold _join_checkers. rewrite existsb_exists.
  split; intros (p & Hin & Hp); exists p; split; try done;
    by apply list_elem_of_In.
Qed.

(** C4: after a handler is registered with register_handler at (state,
    messageId) with checker list C, get_handler(state, messageId) returns
    that handler together with a predicate that is true on (object, sender)
    if and only if at least one checker of C is true on (object, sender). *)
Theorem get_handler_registered {Obj Sender}
    (call_checker : checker → Obj → Sender → bool) (self : WorkflowBase)
    (m : option message_id) (states_from : option (list state))
    (permission_checker : option checker_arg) (handler : callable)
    (s : state) (w : World) :
  s ∈ default (valid_states self) states_from →
  ∃ w' predicate,
    decorate (register_handler self m states_from permission_checker) handler w
      = (Return handler, w') ∧
    get_handler call_checker self s (default (__name__ handler) m) w'
      = Return (predicate, handler) ∧
    ∀ obj sender,
      predicate obj sender = true ↔
      ∃ p, p ∈ normalize_checkers self permission_checker ∧
           call_checker p obj sender = true.
Proof.
  intros Hs.
  set (message := default (__name__ handler) m).
  set (C := normalize_checkers self permission_checker).
  destruct (register_handler_loop self message C handler
              (default (valid_states self) states_from) w)
    as (w' & Hrun & _ & Hat).
  exists w', (_join_checkers call_checker C). split; [|split].
  - unfold decorate, register_handler.
    rewrite bind_ret.
    erewrite bind_run; [reflexivity|].
    destruct m, states_from; exact Hrun.
  - destruct (Hat s (or_introl Hs)) as (handlers & Hstate & Hentry).
    unfold get_handler.
    rewrite (dict_get_parent self HANDLERS) by apply bound_HANDLERS.
    change (aget HANDLERS (cls w')) with (_handlers (cls w')).
    by rewrite Hstate, Hentry.
  - intros obj sender. apply _join_checkers_any.
Qed.

(** ** Containers of a derived definition *)

Lemma register_message_run (self : WorkflowBase) (spec : MessageSpec) (w : World) :
  register_message self spec w =
    if dict_contains self MESSAGE_SPECS (spec_id spec) w
    then (Raise (ValueError ("Message spec already registered for message '"
                             ++ spec_id spec ++ "'")), w)
    else (Return spec, (dict_setitem self MESSAGE_SPECS (spec_id spec) spec w).2).
Proof.
  unfold register_message, bind, read.
  destruct (dict_contains self MESSAGE_SPECS (spec_id spec) w); [done|].
  unfold dict_setitem. by destruct (bound self MESSAGE_SPECS).
Qed.

(** C1 does not hold as stated: a handler registered through the derived
    definition is written into the parent's handler table, no child layer
    receives it, and the parent definition resolves it. *)
Lemma derived_handlers_shared_counterexample :
  let w := (decorate (register_handler Sample.derived (Some "start")
                        (Some ["init"]) None) Sample.start Sample.loaded).2 in
  _handlers (cls Sample.loaded) !! "init" = None ∧
  _handlers (cls w) !! "init"
    = Some {[ "start" := (["allow_to_all"], Sample.start) ]} ∧
  _handlers (basic w) !! "init" = None ∧
  (get_handler Sample.call_checker Sample.base "init" "start" Sample.loaded
     = Raise (IllegalStateError "init")) ∧
  ∃ predicate,
    get_handler Sample.call_checker Sample.base "init" "start" w
      = Return (predicate, Sample.start).
Proof.
  cbv zeta. split; [|split; [|split; [|split]]]; try by vm_compute.
  eexists. by vm_compute.
Qed.

(** C1, as the code has it: of the mapping-typed containers of a derived
    definition only the message-spec table is a layered view. A message
    spec registered on the derived definition is written into the child
    layer and leaves every container of the parent as it was; a read falls
    back to the parent layer when the id is absent from the child layer; a
    registration on the parent leaves the child layer as it was. Every
    other mapping-typed container of the derived definition is the
    parent's own container. *)
Theorem derived_message_specs_layered (parent child : WorkflowBase) (w : World) :
  inherit_behaviour parent = false →
  inherit_behaviour child = true →
  (∀ spec o w',
     register_message child spec w = (o, w') →
     cls w' = cls w ∧
     (o = Return spec → _message_specs (basic w') !! spec_id spec = Some spec)) ∧
  (∀ m spec,
     _message_specs (basic w) !! m = Some spec →
     dict_get child MESSAGE_SPECS m w = Some spec) ∧
  (∀ m,
     _message_specs (basic w) !! m = None →
     dict_get child MESSAGE_SPECS m w = dict_get parent MESSAGE_SPECS m w) ∧
  (∀ spec o w', register_message parent spec w = (o, w') → basic w' = basic w) ∧
  (bound child HANDLERS = parent_container ∧
   bound child RESOURCES = parent_container ∧
   bound child RESOURCES_BY_STATE = parent_container ∧
   bound child RESOURCE_CHECKERS_BY_STATE = parent_container ∧
   bound child ACTIONS = parent_container ∧
   bound child ACTIONS_ANY_DESTINATION = parent_container ∧
   bound child ACTIONS_ANY_STARTPOINT = parent_container ∧
   bound child ACTIONS_FOR_POSSIBLE = parent_container ∧
   bound child MESSAGE_CHECKERS_BY_STATE = parent_container).
Proof.
  intros Hparent Hchild. split; [|split; [|split; [|split]]].
  - intros spec o w'. rewrite register_message_run.
    destruct (dict_contains child MESSAGE_SPECS (spec_id spec) w).
    + intros [= <- <-]. by split.
    + unfold dict_setitem. rewrite (bound_message_specs child Hchild).
      intros [= <- <-]. cbn. split; [done|]. intros _. apply lookup_insert_eq.
  - intros m spec Hm. unfold dict_get.
    rewrite (bound_message_specs child Hchild). cbn. by rewrite Hm.
  - intros m Hm. unfold dict_get.
    rewrite (bound_message_specs child Hchild), (bound_base parent _ Hparent).
    cbn. by rewrite Hm.
  - intros spec o w'. rewrite register_message_run.
    destruct (dict_contains parent MESSAGE_SPECS (spec_id spec) w).
    + by intros [= <- <-].
    + unfold dict_setitem. rewrite (bound_base parent _ Hparent).
      by intros [= <- <-].
  - repeat split; by apply bound_not_message_specs.
Qed.

Lemma derived_message_specs_layered_witness :
  let spec := {| spec_id := "minimize"; verb := Some "Minimize window" |} in
  let w := (register_message Sample.base spec Sample.loaded).2 in
  dict_get Sample.derived MESSAGE_SPECS "minimize" w
    = dict_get Sample.base MESSAGE_SPECS "minimize" w ∧
  cls (register_message Sample.derived spec Sample.loaded).2 = cls Sample.loaded.
Proof.
  cbv zeta.
  set (spec := {| spec_id := "minimize"; verb := Some "Minimize window" |}).
  split.
  - destruct (derived_message_specs_layered Sample.base Sample.derived
                (register_message Sample.base spec Sample.loaded).2
                eq_refl eq_refl) as (_ & _ & Hfallback & _).
    apply Hfallback. by vm_compute.
  - destruct (derived_message_specs_layered Sample.base Sample.derived
                Sample.loaded eq_refl eq_refl) as (Hwrite & _).
    apply (Hwrite spec (Return spec)). by vm_compute.
Defined.

(** ** Resources *)

(** C8: a WorkflowResource combines its checkers with AND: called on
    (request, object, sender) it delegates to the wrapped accessor when
    every checker accepts (object, sender) and raises
    ResourcePermissionDenied otherwise; a resource that is absent for a
    valid state is a different matter, get_resource then returns null
    without error. *)
Theorem resource_call_and {Obj Sender Request Value : Type}
    (call_checker : checker → Obj → Sender → bool)
    (call_handler : callable → Request → Obj → Sender → Value)
    (handler : callable) (rid : resource_id) (permission_checkers : list checker)
    (descr : option string) (request : Request) (obj : Obj) (sender : Sender) :
  let resource := WorkflowResource_init handler rid permission_checkers descr in
  ((∀ p, p ∈ permission_checkers → call_checker p obj sender = true) →
   __call__ call_checker call_handler resource request obj sender
     = Delegated (call_handler handler request obj sender)) ∧
  (¬ (∀ p, p ∈ permission_checkers → call_checker p obj sender = true) →
   __call__ call_checker call_handler resource request obj sender
     = ResourcePermissionDeniedError rid obj sender) ∧
  (∀ self s rid' w,
     is_valid_state self s w = true →
     match dict_get self RESOURCES_BY_STATE s w with
     | None => True
     | Some resources => resources !! rid' = None
     end →
     get_resource self s rid' w = Return None).
Proof.
  cbv zeta. unfold __call__; cbn.
  destruct (forallb (λ p, call_checker p obj sender) permission_checkers) eqn:Hall.
  - split; [done|]. split.
    + intros Hnot. destruct Hnot. intros p Hp.
      rewrite forallb_forall in Hall. by apply Hall, list_elem_of_In.
    + intros self s rid' w Hvalid. unfold get_resource. rewrite Hvalid.
      by destruct (dict_get self RESOURCES_BY_STATE s w); [intros ->|].
  - split; [|split; [done|]].
    + intros Hyes. assert (Htrue :
        forallb (λ p, call_checker p obj sender) permission_checkers = true);
        [|congruence].
      apply forallb_forall. intros p Hp. by apply Hyes, list_elem_of_In.
    + intros self s rid' w Hvalid. unfold get_resource. rewrite Hvalid.
      by destruct (dict_get self RESOURCES_BY_STATE s w); [intros ->|].
Qed.

Lemma resource_call_and_witness :
  let resource :=
    WorkflowResource_init Sample.audit (Some "history")
      ["allow_to_all"; "is_admin"] None in
  __call__ Sample.call_checker Sample.call_handler resource () () "admin"
    = Delegated "audit" ∧
  __call__ Sample.call_checker Sample.call_handler resource () () "guest"
    = ResourcePermissionDeniedError (Some "history") () "guest" ∧
  get_resource Sample.base "archived" (Some "history") Sample.loaded = Return None.
Proof.
  cbv zeta. split; [|split].
  - apply (resource_call_and Sample.call_checker Sample.call_handler
             Sample.audit (Some "history") ["allow_to_all"; "is_admin"] None
             () () "admin").
    intros p Hp. repeat (apply elem_of_cons in Hp as [->|Hp]; [reflexivity|]).
    by apply elem_of_nil in Hp.
  - apply (resource_call_and Sample.call_checker Sample.call_handler
             Sample.audit (Some "history") ["allow_to_all"; "is_admin"] None
             () () "guest").
    intros Hall. specialize (Hall "is_admin"). discriminate Hall.
    apply elem_of_cons. right. apply elem_of_cons. by left.
  - apply (resource_call_and Sample.call_checker Sample.call_handler
             Sample.audit (Some "history") ["allow_to_all"; "is_admin"] None
             () () "guest"); by vm_compute.
Defined.

(** ** Statements that cannot raise *)

Lemma returns_ret {A} (a : A) : returns (ret a).
Proof. intros w. by exists a, w. Qed.

Lemma returns_bind {A B} (m : Py A) (k : A → Py B) :
  returns m → (∀ a, returns (k a)) → returns (bind m k).
Proof.
  intros Hm Hk w. destruct (Hm w) as (a & w1 & Hrun).
  destruct (Hk a w1) as (b & w2 & Hrun2).
  exists b, w2. by rewrite (bind_run _ _ _ _ _ Hrun).
Qed.

Lemma returns_for_each {A} (xs : list A) (body : A → Py unit) :
  (∀ x, returns (body x)) → returns (for_each xs body).
Proof.
  intros Hbody. induction xs as [|x xs IH]; cbn [for_each].
  - apply returns_ret.
  - apply returns_bind; [apply Hbody|by intros _].
Qed.

Lemma returns_dict_setitem {K} `{Countable K} {V} self
    (a : attribute (gmap K V)) (k : K) (v : V) :
  returns (dict_setitem self a k v).
Proof. intros w. unfold dict_setitem. destruct (bound self a); by eexists _, _. Qed.

Lemma returns_dict_setdefault_update {K} `{Countable K} {V} self
    (a : attribute (gmap K V)) (k : K) (dflt : V) (upd : V → V) :
  container_name a ≠ "_message_specs" →
  returns (dict_setdefault_update self a k dflt upd).
Proof.
  intros Hname w. rewrite dict_setdefault_update_parent; [by eexists _, _|].
  by apply bound_not_message_specs.
Qed.

Lemma returns_not_raise {A} (m : Py A) (w : World) (e : exn) (w' : World) :
  returns m → m w ≠ (Raise e, w').
Proof. intros Hm Hrun. destruct (Hm w) as (a & w1 & Heq). congruence. Qed.

Lemma returns_decorate_ret {A} (registrator : A → Py A) (f : A) :
  returns (registrator f) → returns (decorate (ret registrator) f).
Proof. intros Hf w. apply Hf. Qed.

Create HintDb returns discriminated.
#[local] Hint Resolve returns_ret returns_for_each returns_dict_setitem : returns.
#[local] Hint Extern 1 (returns (bind _ _)) =>
  apply returns_bind; [|intros ?] : returns.
#[local] Hint Extern 1 (returns (dict_setdefault_update _ _ _ _ _)) =>
  apply returns_dict_setdefault_update; discriminate : returns.
#[local] Hint Extern 2 (returns (match ?x with _ => _ end)) => destruct x : returns.
#[local] Hint Extern 3 (returns _) => progress cbv beta zeta : returns.

Lemma returns_register_handler self m states_from permission_checker handler :
  returns (decorate (register_handler self m states_from permission_checker) handler).
Proof.
  unfold register_handler. cbv zeta. apply returns_decorate_ret.
  apply returns_bind; [|intros ?; apply returns_ret].
  apply returns_for_each. intros s. auto with returns.
Qed.

(** ** Registration errors *)

Section registration_errors.
Variable WorkflowResource_new :
  callable → resource_id → option string → list checker → option string →
  outcome WorkflowResource.

Lemma register_resource_run self rid descr available_in_states
    permission_checker slug handler w :
  let states := resource_states self available_in_states w in
  let permission_checkers := normalize_checkers self permission_checker in
  decorate (register_resource WorkflowResource_new self rid descr
              available_in_states permission_checker slug) handler w =
  if bool_decide (states = [])
  then (Raise (ValueError "available_in_states cannot be empty"), w)
  else if dict_contains self RESOURCES rid w
  then (Raise (ValueError "Resource with that name already registered"), w)
  else
    match WorkflowResource_new handler rid descr permission_checkers slug with
    | Raise e => (Raise e, w)
    | Return resource =>
        (exec dict_setitem self RESOURCES rid resource;
         exec for_each states (λ s,
           exec dict_setdefault_update self RESOURCES_BY_STATE s ∅
                  (λ resources, <[rid := resource]> resources);
           dict_setdefault_update self RESOURCE_CHECKERS_BY_STATE s ∅
             (λ checkers_set, checkers_set ∪ list_to_set permission_checkers));
         ret handler)%py w
    end.
Proof.
  cbv zeta. unfold decorate, register_resource.
  unfold bind at 1. unfold bind at 1. unfold read at 1.
  fold (resource_states self available_in_states w).
  destruct (bool_decide (resource_states self available_in_states w = []));
    [done|].
  unfold ret at 1. unfold bind at 1. unfold read at 1.
  destruct (dict_contains self RESOURCES rid w); [done|].
  unfold bind at 1. unfold lift at 1.
  by destruct (WorkflowResource_new handler rid descr
                 (normalize_checkers self permission_checker) slug).
Qed.

Lemma returns_resource_writes self rid resource states permission_checkers
    (handler : callable) :
  returns
    (exec dict_setitem self RESOURCES rid resource;
     exec for_each states (λ s,
       exec dict_setdefault_update self RESOURCES_BY_STATE s ∅
              (λ resources, <[rid := resource]> resources);
       dict_setdefault_update self RESOURCE_CHECKERS_BY_STATE s ∅
         (λ checkers_set : gset checker,
            checkers_set ∪ list_to_set permission_checkers));
     ret handler)%py.
Proof.
  apply returns_bind; [apply returns_dict_setitem|intros _].
  apply returns_bind; [|intros ?; apply returns_ret].
  apply returns_for_each. intros s. auto with returns.
Qed.

Lemma returns_register_action self m states_from states_to action :
  is_Some states_from ∨ is_Some states_to →
  returns (decorate (register_action self m states_from states_to) action).
Proof.
  intros Hsome.
  destruct states_from as [states_from|], states_to as [states_to|];
    try (destruct Hsome as [[? [=]]|[? [=]]]; fail);
    unfold register_action; apply returns_decorate_ret;
    (apply returns_bind; [|intros ?; apply returns_ret]).
  - apply returns_for_each. intros state_to.
    apply returns_for_each. intros state_from. cbv zeta. auto with returns.
  - apply returns_for_each. intros state_from. cbv zeta. auto with returns.
  - apply returns_bind.
    + apply returns_for_each. intros state_to. apply returns_dict_setitem.
    + intros _. auto with returns.
Qed.

(** C9: registering a resource whose id is already in the resource table
    raises a registration error (ValueError), and so does registering a
    message spec whose id is already in the message-spec table; both are
    raised by the registration itself, before anything is written. *)
Theorem duplicate_registration_raises (self : WorkflowBase) (w : World) :
  (∀ rid descr available_in_states permission_checker slug handler,
     is_Some (dict_get self RESOURCES rid w) →
     ∃ msg,
       decorate (register_resource WorkflowResource_new self rid descr
                   available_in_states permission_checker slug) handler w
         = (Raise (ValueError msg), w) ∧
       (resource_states self available_in_states w ≠ [] →
        msg = "Resource with that name already registered")) ∧
  (∀ message_spec,
     is_Some (dict_get self MESSAGE_SPECS (spec_id message_spec) w) →
     ∃ msg, register_message self message_spec w = (Raise (ValueError msg), w)).
Proof.
  split.
  - intros rid descr available_in_states permission_checker slug handler Hdup.
    rewrite register_resource_run. cbv zeta.
    rewrite dict_contains_get, (bool_decide_eq_true_2 _ Hdup).
    case_bool_decide as Hempty; eexists; (split; [reflexivity|]); [|done].
    by intros [].
  - intros message_spec Hdup. rewrite register_message_run.
    rewrite dict_contains_get, (bool_decide_eq_true_2 _ Hdup). by eexists.
Qed.

Lemma exec_raise {A B} (m : Py A) (b : B) (w : World) (e : exn) (w' : World) :
  (exec m; ret b)%py w = (Raise e, w') → m w = (Raise e, w').
Proof. unfold bind, ret. destruct (m w) as [[a|e0] w1]; congruence. Qed.

(** C10: a registration call that fails leaves every container of the
    definition exactly as it was before the call. This covers
    register_resource with an empty list of states or an id already
    registered, register_message with an id already registered, and
    register_action with neither statesFrom nor statesTo. *)
Theorem failed_registration_leaves_store (self : WorkflowBase)
    (r : registration) (w : World) (e : exn) (w' : World) :
  register WorkflowResource_new self r w = (Raise e, w') → w' = w.
Proof.
  destruct r as [rid descr available_in_states permission_checker slug handler
                |message_spec
                |m states_from permission_checker handler
                |m states_from states_to action];
    cbn [register]; intros Hfail%exec_raise.
  - rewrite register_resource_run in Hfail. cbv zeta in Hfail.
    case_bool_decide; [congruence|].
    destruct (dict_contains self RESOURCES rid w); [congruence|].
    destruct (WorkflowResource_new handler rid descr _ slug) as [resource|e0];
      [|congruence].
    by apply returns_not_raise in Hfail; [|apply returns_resource_writes].
  - rewrite register_message_run in Hfail.
    destruct (dict_contains self MESSAGE_SPECS (spec_id message_spec) w);
      congruence.
  - by apply returns_not_raise in Hfail; [|apply returns_register_handler].
  - destruct states_from as [froms|], states_to as [tos|].
    4: { unfold decorate, register_action, bind, raise in Hfail. congruence. }
    all: apply returns_not_raise in Hfail; [done|].
    all: apply returns_register_action; eauto.
Qed.
End registration_errors.

(** ** The properties on the sample definition *)

Lemma get_handler_registered_witness :
  ∃ w' predicate,
    decorate (register_handler Sample.base (Some "start") None
                (Some (iterable ["is_admin"; "is_owner"]))) Sample.start Sample.loaded
      = (Return Sample.start, w') ∧
    get_handler Sample.call_checker Sample.base "init" "start" w'
      = Return (predicate, Sample.start) ∧
    ∀ obj sender,
      predicate obj sender = true ↔
      ∃ p, p ∈ ["is_admin"; "is_owner"] ∧ Sample.call_checker p obj sender = true.
Proof.
  apply (get_handler_registered Sample.call_checker Sample.base (Some "start")
           None (Some (iterable ["is_admin"; "is_owner"])) Sample.start "init"
           Sample.loaded).
  apply elem_of_cons. by left.
Defined.

Lemma get_handler_errors_witness :
  get_handler Sample.call_checker Sample.base "archived" "start" Sample.with_start
    = Raise (IllegalStateError "archived") ∧
  ∃ handled,
    get_handler Sample.call_checker Sample.base "init" "stop" Sample.with_start
      = Raise (UnhandledMessageError "stop" handled) ∧
    ∀ m', m' ∈ handled ↔
          is_Some (({[ "start" := (["allow_to_all"], Sample.start) ]}
                      : gmap message_id (list checker * callable)) !! m').
Proof.
  split.
  - apply (get_handler_errors Sample.call_checker Sample.base "archived" "start"
             Sample.with_start).
    by vm_compute.
  - apply (get_handler_errors Sample.call_checker Sample.base "init" "stop"
             Sample.with_start); by vm_compute.
Defined.

(** C2 does not hold as stated: at a state outside the valid-state set
    get_action, get_possible_actions and get_checkers_by_state return
    instead of raising, the null or empty result when nothing is registered
    for the state and the registered action once one is; and once a handler
    has been registered from such a state, is_valid_message answers for
    it. *)
Lemma invalid_state_queries_counterexample :
  is_valid_state Sample.base "ghost" Sample.loaded = false ∧
  get_action Sample.base "ghost" "init" "start" Sample.loaded = Return None ∧
  get_possible_actions Sample.base "ghost" "start" Sample.loaded = Return [] ∧
  get_checkers_by_state Sample.base "ghost" Sample.loaded = Return ∅ ∧
  (let w := (decorate (register_handler Sample.base (Some "start")
                         (Some ["ghost"]) None) Sample.start Sample.loaded).2 in
   is_valid_state Sample.base "ghost" w = false ∧
   is_valid_message Sample.base "ghost" "start" w = Return true) ∧
  (let w := (decorate (register_action Sample.base (Some "start")
                         (Some ["ghost"]) None) Sample.log Sample.loaded).2 in
   is_valid_state Sample.base "ghost" w = false ∧
   get_action Sample.base "ghost" "init" "start" w = Return (Some Sample.log) ∧
   get_possible_actions Sample.base "ghost" "start" w = Return [Sample.log]).
Proof. cbv zeta. repeat split; by vm_compute. Qed.

Lemma invalid_state_queries_witness :
  is_valid_message Sample.base "ghost" "start" Sample.with_history
    = Raise (IllegalStateError "ghost") ∧
  get_available_messages Sample.base "ghost" Sample.with_history
    = Raise (IllegalStateError "ghost") ∧
  get_resource Sample.base "ghost" (Some "history") Sample.with_history
    = Raise (IllegalStateError "ghost") ∧
  get_action Sample.base "ghost" "init" "start" Sample.with_history = Return None ∧
  get_possible_actions Sample.base "ghost" "start" Sample.with_history = Return [] ∧
  get_checkers_by_state Sample.base "ghost" Sample.with_history = Return ∅.
Proof.
  destruct (invalid_state_queries Sample.call_checker Sample.base "ghost"
              Sample.with_history eq_refl)
    as (Hhandlers & Hresources & _ & _ & _ & Haction & Hpossible & Hcheckers).
  destruct (Hhandlers eq_refl) as (Hvalid & Hmessages & _).
  destruct (Hresources eq_refl) as (_ & Hresource).
  split; [apply Hvalid|]. split; [apply Hmessages|].
  split; [apply Hresource|].
  split; [by apply Haction|]. split; [by apply Hpossible|].
  by apply Hcheckers.
Defined.

Lemma duplicate_registration_raises_witness :
  (∃ msg,
     decorate (register_resource Sample.new_resource Sample.base (Some "history")
                 None None None None) Sample.log Sample.with_history
       = (Raise (ValueError msg), Sample.with_history) ∧
     msg = "Resource with that name already registered") ∧
  (∃ msg,
     register_message Sample.derived Sample.minimize Sample.with_minimize
       = (Raise (ValueError msg), Sample.with_minimize)).
Proof.
  destruct (duplicate_registration_raises Sample.new_resource Sample.base
              Sample.with_history) as (Hresource & _).
  destruct (duplicate_registration_raises Sample.new_resource Sample.derived
              Sample.with_minimize) as (_ & Hmessage).
  split.
  - destruct (Hresource (Some "history") None None None None Sample.log)
      as (msg & Hrun & Hmsg).
    + eexists. by vm_compute.
    + exists msg. split; [exact Hrun|]. apply Hmsg. by vm_compute.
  - apply Hmessage. eexists. by vm_compute.
Defined.

Lemma failed_registration_leaves_store_witness :
  (register Sample.new_resource Sample.base
     (Register_action (Some "edit") None None Sample.notify) Sample.with_start).2
    = Sample.with_start ∧
  (register Sample.new_resource Sample.base
     (Register_resource (Some "history") None (Some []) None None Sample.audit)
     Sample.with_start).2
    = Sample.with_start.
Proof.
  split.
  - apply (failed_registration_leaves_store Sample.new_resource Sample.base
             (Register_action (Some "edit") None None Sample.notify)
             Sample.with_start
             (ValueError "Must specify at least one of states_from or states_to.")).
    by vm_compute.
  - apply (failed_registration_leaves_store Sample.new_resource Sample.base
             (Register_resource (Some "history") None (Some []) None None
                Sample.audit)
             Sample.with_start
             (ValueError "available_in_states cannot be empty")).
    by vm_compute.
Defined.

(** C6 fails on the code: with statesFrom omitted register_handler
    iterates over the declared [valid_states], not over the definition's
    valid-state set, so a handler registered that way is missing at the
    extra valid state [archived]: the state is valid and get_handler raises
    IllegalState for it. *)
Lemma register_handler_default_misses_extra_state :
  Sample.with_start
    = (decorate (register_handler Sample.base (Some "start") None None)
         Sample.start Sample.loaded).2 ∧
  is_valid_state Sample.base "archived" Sample.with_start = true ∧
  (∃ predicate,
     get_handler Sample.call_checker Sample.base "init" "start" Sample.with_start
       = Return (predicate, Sample.start)) ∧
  get_handler Sample.call_checker Sample.base "archived" "start" Sample.with_start
    = Raise (IllegalStateError "archived").
Proof.
  split; [done|]. split; [by vm_compute|]. split; [|by vm_compute].
  eexists. by vm_compute.
Qed.

(** The action-tiering scenario of the specification: with an exact
    registration (init, normal, edit), an any-startpoint registration for
    normal and an any-destination registration for init, the exact tier
    wins for (init, normal), the any-startpoint tier answers for another
    source, the any-destination tier answers for another destination, and
    an unregistered message has no action. *)
Example action_tiering :
  get_action Sample.base "init" "normal" "edit" Sample.with_actions
    = Return (Some Sample.notify) ∧
  get_action Sample.base "minimized" "normal" "edit" Sample.with_actions
    = Return (Some Sample.audit) ∧
  get_action Sample.base "init" "maximized" "edit" Sample.with_actions
    = Return (Some Sample.log) ∧
  get_action Sample.base "init" "normal" "resize" Sample.with_actions
    = Return None.
Proof. repeat split; by vm_compute. Qed.

(** The enumeration scenario: the from-specific list when present, the
    wildcard list when only that exists, the empty list otherwise. *)
Example possible_actions_enumeration :
  get_possible_actions Sample.base "init" "edit" Sample.with_actions
    = Return [Sample.notify; Sample.log] ∧
  get_possible_actions Sample.base "minimized" "edit" Sample.with_actions
    = Return [Sample.audit] ∧
  get_possible_actions Sample.base "minimized" "resize" Sample.with_actions
    = Return [].
Proof. repeat split; by vm_compute. Qed.

(** The inheritance scenario: the parent registers a handler for (init,
    start), the derived definition registers nothing, and get_handler on
    the derived definition resolves to the parent's handler. *)
Example inherited_handler_resolves :
  ∃ predicate,
    get_handler Sample.call_checker Sample.derived "init" "start" Sample.with_start
      = Return (predicate, Sample.start).
Proof. eexists. by vm_compute. Qed.

(** ** What a registration writes *)

Lemma for_each_fold {A} (body : A → Py unit) (step : World → A → World)
    (xs : list A) (w : World) :
  (∀ x w, body x w = (Return (), step w x)) →
  for_each xs body w = (Return (), fold_left step xs w).
Proof.
  intros Hbody. revert w. induction xs as [|x xs IH]; intros w; [done|].
  cbn [for_each fold_left]. by rewrite (bind_run _ _ _ _ _ (Hbody x w)).
Qed.

Lemma fold_left_preserves {A} (P : World → Prop) (step : World → A → World)
    (xs : list A) (w : World) :
  (∀ w x, P w → P (step w x)) → P w → P (fold_left step xs w).
Proof.
  intros Hstep. revert w. induction xs as [|x xs IH]; intros w Hw; [done|].
  cbn [fold_left]. by apply IH, Hstep.
Qed.

Lemma fold_left_establishes {A} (Q : World → Prop) (step : World → A → World)
    (xs : list A) (x : A) (w : World) :
  x ∈ xs →
  (∀ w, Q (step w x)) → (∀ w y, Q w → Q (step w y)) →
  Q (fold_left step xs w).
Proof.
  intros Hin Hx Hstep. revert w.
  induction xs as [|y xs IH]; intros w; [by apply elem_of_nil in Hin|].
  cbn [fold_left]. apply elem_of_cons in Hin as [->|Hin].
  - by apply fold_left_preserves.
  - by apply IH.
Qed.

Lemma dict_setitem_cls {K} `{Countable K} {V} self (a : attribute (gmap K V))
    (k : K) (v : V) (w : World) :
  container_name a ≠ "_message_specs" →
  dict_setitem self a k v w = (Return (), cls_setitem a k v w).
Proof. intros Hne. by rewrite dict_setitem_parent by by apply bound_not_message_specs. Qed.

Lemma dict_setdefault_update_cls {K} `{Countable K} {V} self
    (a : attribute (gmap K V)) (k : K) (dflt : V) (upd : V → V) (w : World) :
  container_name a ≠ "_message_specs" →
  dict_setdefault_update self a k dflt upd w
    = (Return (), cls_setdefault_update a k dflt upd w).
Proof.
  intros Hne.
  by rewrite dict_setdefault_update_parent by by apply bound_not_message_specs.
Qed.

Lemma dict_get_cls {K} `{Countable K} {V} self (a : attribute (gmap K V))
    (k : K) (w : World) :
  container_name a ≠ "_message_specs" →
  dict_get self a k w = aget a (cls w) !! k.
Proof. intros Hne. by apply dict_get_parent, bound_not_message_specs. Qed.

Lemma register_handler_run self m states_from permission_checker handler w :
  decorate (register_handler self m states_from permission_checker) handler w
    = (Return handler,
       fold_left
         (handler_step (default (__name__ handler) m)
            (normalize_checkers self permission_checker) handler)
         (default (valid_states self) states_from) w).
Proof.
  unfold decorate, register_handler. rewrite bind_ret.
  erewrite bind_run; [reflexivity|].
  destruct m as [m0|], states_from as [froms|]; cbn [default];
    (apply for_each_fold; intros s w0; unfold handler_step;
     erewrite bind_run by (by apply dict_setdefault_update_cls);
     by apply dict_setdefault_update_cls).
Qed.

Lemma register_action_run self m states_from states_to action w :
  decorate (register_action self m states_from states_to) action w
    = match states_from, states_to with
      | None, None =>
          (Raise (ValueError "Must specify at least one of states_from or states_to."),
           w)
      | _, _ =>
          (Return action,
           action_writes (default (__name__ action) m) action states_from states_to w)
      end.
Proof.
  assert (Hdest : ∀ m0 state_from w0,
    (exec dict_setitem self ACTIONS_ANY_DESTINATION (state_from, m0) action;
     dict_setdefault_update self ACTIONS_FOR_POSSIBLE (Some state_from, m0) []
       (λ tmp, (tmp ++ [action])%list))%py w0
    = (Return (), any_destination_step m0 action w0 state_from)).
  { intros m0 state_from w0. unfold any_destination_step.
    erewrite bind_run by (by apply dict_setitem_cls).
    by apply dict_setdefault_update_cls. }
  assert (Hexact : ∀ m0 state_to state_from w0,
    (exec dict_setitem self ACTIONS (state_from, state_to, m0) action;
     dict_setdefault_update self ACTIONS_FOR_POSSIBLE (Some state_from, m0) []
       (λ tmp, (tmp ++ [action])%list))%py w0
    = (Return (), exact_step m0 action state_to w0 state_from)).
  { intros m0 state_to state_from w0. unfold exact_step.
    erewrite bind_run by (by apply dict_setitem_cls).
    by apply dict_setdefault_update_cls. }
  destruct states_from as [froms|], states_to as [tos|];
    unfold register_action; [| | |done];
    unfold decorate; rewrite bind_ret; cbv zeta;
    (erewrite bind_run; [reflexivity|]); cbn [action_writes].
  - apply for_each_fold. intros state_to w0.
    destruct m as [m0|]; cbn [default]; by apply for_each_fold.
  - destruct m as [m0|]; cbn [default]; by apply for_each_fold.
  - erewrite bind_run.
    + by apply dict_setdefault_update_cls.
    + apply for_each_fold. intros state_to w0. unfold any_startpoint_step.
      destruct m as [m0|]; by apply dict_setitem_cls.
Qed.

Section registration_run.
Variable WorkflowResource_new :
  callable → resource_id → option string → list checker → option string →
  outcome WorkflowResource.

Lemma resource_writes_run self rid resource states permission_checkers
    (handler : callable) w :
  (exec dict_setitem self RESOURCES rid resource;
   exec for_each states (λ s,
     exec dict_setdefault_update self RESOURCES_BY_STATE s ∅
            (λ resources, <[rid := resource]> resources);
     dict_setdefault_update self RESOURCE_CHECKERS_BY_STATE s ∅
       (λ checkers_set : gset checker,
          checkers_set ∪ list_to_set permission_checkers));
   ret handler)%py w
  = (Return handler,
     fold_left (resource_step rid resource permission_checkers) states
       (cls_setitem RESOURCES rid resource w)).
Proof.
  erewrite bind_run by (by apply dict_setitem_cls).
  erewrite bind_run; [reflexivity|].
  apply for_each_fold. intros s w0. unfold resource_step.
  erewrite bind_run by (by apply dict_setdefault_update_cls).
  by apply dict_setdefault_update_cls.
Qed.

(** A registration either raises and leaves the store as it was, or
    returns and leaves the store [registration_writes] describes. *)
Lemma register_run self r w o w' :
  register WorkflowResource_new self r w = (o, w') →
  (∃ e, o = Raise e ∧ w' = w) ∨
  (o = Return () ∧ w' = registration_writes WorkflowResource_new self r w).
Proof.
  destruct r as [rid descr available_in_states permission_checker slug handler
                |message_spec
                |m states_from permission_checker handler
                |m states_from states_to action];
    cbn [register registration_writes]; unfold bind at 1.
  - rewrite register_resource_run. cbv zeta.
    fold (resource_states self available_in_states w).
    case_bool_decide; [intros [= <- <-]; left; by eexists|].
    destruct (dict_contains self RESOURCES rid w);
      [intros [= <- <-]; left; by eexists|].
    destruct (WorkflowResource_new handler rid descr _ slug) as [resource|e0];
      [|intros [= <- <-]; left; by eexists].
    rewrite resource_writes_run. intros [= <- <-]. by right.
  - rewrite register_message_run.
    destruct (dict_contains self MESSAGE_SPECS (spec_id message_spec) w);
      intros [= <- <-]; [left; by eexists|by right].
  - rewrite register_handler_run. intros [= <- <-]. by right.
  - rewrite register_action_run.
    destruct states_from as [froms|], states_to as [tos|];
      intros [= <- <-]; try (by right). left; by eexists.
Qed.
End registration_run.

(** ** What a registration leaves alone *)

Ltac frame_step :=
  repeat match goal with
         | H : _ ∧ _ |- _ => destruct H
         end;
  repeat split; cbn; assumption.

Lemma handler_step_frame m pcs h w0 w s :
  (same_valid_states w0 w → same_valid_states w0 (handler_step m pcs h w s)) ∧
  (same_resources w0 w → same_resources w0 (handler_step m pcs h w s)) ∧
  (same_actions w0 w → same_actions w0 (handler_step m pcs h w s)) ∧
  (same_message_specs w0 w → same_message_specs w0 (handler_step m pcs h w s)).
Proof.
  unfold same_valid_states, same_resources, same_actions, same_message_specs.
  repeat split; intros; frame_step.
Qed.

Lemma resource_step_frame rid resource pcs w0 w s :
  (same_valid_states w0 w → same_valid_states w0 (resource_step rid resource pcs w s)) ∧
  (same_handlers w0 w → same_handlers w0 (resource_step rid resource pcs w s)) ∧
  (same_actions w0 w → same_actions w0 (resource_step rid resource pcs w s)) ∧
  (same_message_specs w0 w →
   same_message_specs w0 (resource_step rid resource pcs w s)).
Proof.
  unfold same_valid_states, same_handlers, same_actions, same_message_specs.
  repeat split; intros; frame_step.
Qed.

Lemma action_writes_frame m action states_from states_to w :
  same_valid_states w (action_writes m action states_from states_to w) ∧
  same_handlers w (action_writes m action states_from states_to w) ∧
  same_resources w (action_writes m action states_from states_to w) ∧
  same_message_specs w (action_writes m action states_from states_to w).
Proof.
  set (P := λ w', same_valid_states w w' ∧ same_handlers w w' ∧
                  same_resources w w' ∧ same_message_specs w w').
  assert (HP : P w) by (by repeat split).
  assert (Hexact : ∀ state_to w' state_from,
            P w' → P (exact_step m action state_to w' state_from)).
  { intros state_to w' state_from (?&?&?&?).
    unfold P, same_valid_states, same_handlers, same_resources,
      same_message_specs in *.
    frame_step. }
  assert (Hdest : ∀ w' state_from,
            P w' → P (any_destination_step m action w' state_from)).
  { intros w' state_from (?&?&?&?).
    unfold P, same_valid_states, same_handlers, same_resources,
      same_message_specs in *.
    frame_step. }
  assert (Hstart : ∀ w' state_to,
            P w' → P (any_startpoint_step m action w' state_to)).
  { intros w' state_to (?&?&?&?).
    unfold P, same_valid_states, same_handlers, same_resources,
      same_message_specs in *.
    frame_step. }
  assert (Hdefault : ∀ k w',
            P w' →
            P (cls_setdefault_update ACTIONS_FOR_POSSIBLE k []
                 (λ tmp, (tmp ++ [action])%list) w')).
  { intros k w' (?&?&?&?).
    unfold P, same_valid_states, same_handlers, same_resources,
      same_message_specs in *.
    frame_step. }
  change (P (action_writes m action states_from states_to w)).
  destruct states_from as [froms|], states_to as [tos|]; cbn [action_writes];
    [| | |done].
  - apply fold_left_preserves; [|done]. intros w1 state_to Hw1.
    apply fold_left_preserves; [|done]. intros w2 state_from Hw2.
    by apply Hexact.
  - by apply fold_left_preserves.
  - apply Hdefault. by apply fold_left_preserves.
Qed.

Lemma registration_writes_frame new self r w :
  same_valid_states w (registration_writes new self r w) ∧
  (kind_of r ≠ handler_kind → same_handlers w (registration_writes new self r w)) ∧
  (kind_of r ≠ resource_kind → same_resources w (registration_writes new self r w)) ∧
  (kind_of r ≠ action_kind → same_actions w (registration_writes new self r w)) ∧
  (kind_of r ≠ message_kind →
   same_message_specs w (registration_writes new self r w)).
Proof.
  destruct r as [rid descr available_in_states permission_checker slug handler
                |message_spec
                |m states_from permission_checker handler
                |m states_from states_to action];
    cbn [registration_writes kind_of].
  - destruct (new handler rid descr _ slug) as [resource|e]; [|by repeat split].
    split; [|split; [|split; [done|split]]]; intros;
      (apply fold_left_preserves;
       [intros w1 s; apply resource_step_frame|by repeat split]).
  - unfold dict_setitem.
    destruct (bound self MESSAGE_SPECS); by repeat split.
  - split; [|split; [done|split; [|split]]]; intros;
      (apply fold_left_preserves;
       [intros w1 s; apply handler_step_frame|by repeat split]).
  - destruct (action_writes_frame (default (__name__ action) m) action
                states_from states_to w) as (?&?&?&?).
    split; [done|]. split; [done|]. split; [done|]. split; [by intros []|done].
Qed.

Lemma same_valid_states_query w w' other s :
  same_valid_states w w' → is_valid_state other s w' = is_valid_state other s w.
Proof.
  intros [Hcls Hbasic]. unfold is_valid_state, self_valid_states.
  by rewrite Hcls, Hbasic.
Qed.

Lemma same_handlers_query {Obj Sender}
    (call_checker : checker → Obj → Sender → bool) w w' other s m :
  same_handlers w w' → same_valid_states w w' →
  get_handler call_checker other s m w' = get_handler call_checker other s m w ∧
  is_valid_message other s m w' = is_valid_message other s m w ∧
  get_available_messages other s w' = get_available_messages other s w.
Proof.
  intros [Hh _] Hvalid.
  unfold get_handler, is_valid_message, get_available_messages.
  rewrite (same_valid_states_query _ _ other s Hvalid).
  rewrite !(dict_get_cls other HANDLERS) by done. cbn [aget HANDLERS].
  by rewrite Hh.
Qed.

Lemma same_actions_query w w' other from_state to_state m :
  same_actions w w' →
  get_action other from_state to_state m w' = get_action other from_state to_state m w ∧
  get_possible_actions other from_state m w' = get_possible_actions other from_state m w.
Proof.
  intros (Ha & Hd & Hs & Hp). unfold get_action, get_possible_actions.
  rewrite !(dict_get_cls other ACTIONS), !(dict_get_cls other ACTIONS_ANY_STARTPOINT),
    !(dict_get_cls other ACTIONS_ANY_DESTINATION),
    !(dict_get_cls other ACTIONS_FOR_POSSIBLE) by done.
  cbn [aget ACTIONS ACTIONS_ANY_STARTPOINT ACTIONS_ANY_DESTINATION
         ACTIONS_FOR_POSSIBLE].
  by rewrite Ha, Hd, Hs, Hp.
Qed.

Lemma same_resources_query w w' other s rid :
  same_resources w w' → same_valid_states w w' →
  get_resource other s rid w' = get_resource other s rid w ∧
  get_available_resources other s w' = get_available_resources other s w.
Proof.
  intros (_ & Hr & _) Hvalid. unfold get_resource, get_available_resources.
  rewrite (same_valid_states_query _ _ other s Hvalid).
  rewrite !(dict_get_cls other RESOURCES_BY_STATE) by done.
  cbn [aget RESOURCES_BY_STATE]. by rewrite Hr.
Qed.

Lemma same_message_specs_query w w' other m :
  same_message_specs w w' → get_message_spec other m w' = get_message_spec other m w.
Proof.
  intros [Hcls Hbasic]. unfold get_message_spec, dict_get.
  cbn [aget MESSAGE_SPECS]. by rewrite Hcls, Hbasic.
Qed.

(** X1: no registration changes which states are valid: whatever is
    registered through a definition, whether the call returns or raises,
    is_valid_state answers as before for every definition and state. *)
Theorem registration_keeps_valid_states new (self other : WorkflowBase)
    (r : registration) (w : World) (s : state) :
  is_valid_state other s (register new self r w).2 = is_valid_state other s w.
Proof.
  destruct (register new self r w) as [o w'] eqn:Hrun. cbn [snd].
  apply register_run in Hrun as [(e & _ & ->)|[_ ->]]; [done|].
  apply same_valid_states_query, registration_writes_frame.
Qed.

(** X2: the four kinds of registration write disjoint tables. A
    registration that is not a handler registration changes no answer of
    get_handler, is_valid_message and get_available_messages; one that is
    not an action registration changes no answer of get_action and
    get_possible_actions; one that is not a resource registration changes
    no answer of get_resource and get_available_resources; one that is not
    a message-spec registration changes no answer of get_message_spec. *)
Theorem registration_independence {Obj Sender}
    (call_checker : checker → Obj → Sender → bool) new
    (self other : WorkflowBase) (r : registration) (w : World) :
  let w' := (register new self r w).2 in
  (kind_of r ≠ handler_kind →
   ∀ s m,
     get_handler call_checker other s m w' = get_handler call_checker other s m w ∧
     is_valid_message other s m w' = is_valid_message other s m w ∧
     get_available_messages other s w' = get_available_messages other s w) ∧
  (kind_of r ≠ action_kind →
   ∀ from_state to_state m,
     get_action other from_state to_state m w'
       = get_action other from_state to_state m w ∧
     get_possible_actions other from_state m w'
       = get_possible_actions other from_state m w) ∧
  (kind_of r ≠ resource_kind →
   ∀ s rid,
     get_resource other s rid w' = get_resource other s rid w ∧
     get_available_resources other s w' = get_available_resources other s w) ∧
  (kind_of r ≠ message_kind →
   ∀ m, get_message_spec other m w' = get_message_spec other m w).
Proof.
  cbv zeta. destruct (register new self r w) as [o w'] eqn:Hrun. cbn [snd].
  apply register_run in Hrun as [(e & _ & ->)|[_ ->]]; [done|].
  destruct (registration_writes_frame new self r w)
    as (Hvalid & Hhandlers & Hresources & Hactions & Hspecs).
  split; [|split; [|split]].
  - intros Hkind s m. by apply same_handlers_query; [apply Hhandlers|].
  - intros Hkind from_state to_state m. by apply same_actions_query, Hactions.
  - intros Hkind s rid. by apply same_resources_query; [apply Hresources|].
  - intros Hkind m. by apply same_message_specs_query, Hspecs.
Qed.

Lemma registration_independence_witness :
  let r := Register_action (Some "edit") (Some ["init"]) None Sample.log in
  let w' := (register Sample.new_resource Sample.base r Sample.with_start).2 in
  get_handler Sample.call_checker Sample.derived "init" "start" w'
    = get_handler Sample.call_checker Sample.derived "init" "start" Sample.with_start ∧
  get_resource Sample.base "init" (Some "history") w'
    = get_resource Sample.base "init" (Some "history") Sample.with_start.
Proof.
  cbv zeta.
  destruct (registration_independence Sample.call_checker Sample.new_resource
              Sample.base Sample.derived
              (Register_action (Some "edit") (Some ["init"]) None Sample.log)
              Sample.with_start) as (Hhandlers & _).
  destruct (registration_independence Sample.call_checker Sample.new_resource
              Sample.base Sample.base
              (Register_action (Some "edit") (Some ["init"]) None Sample.log)
              Sample.with_start) as (_ & _ & Hresources & _).
  split.
  - apply Hhandlers. discriminate.
  - apply Hresources. discriminate.
Defined.

(** ** Handlers: lookups, enumeration and the checker index *)

Lemma fold_left_preserves_in {A} (P : World → Prop) (step : World → A → World)
    (xs : list A) (w : World) :
  (∀ w x, x ∈ xs → P w → P (step w x)) → P w → P (fold_left step xs w).
Proof.
  revert w. induction xs as [|x xs IH]; intros w Hstep Hw; [done|].
  cbn [fold_left]. apply IH.
  - intros w1 y Hy. apply Hstep. by apply elem_of_cons; right.
  - apply Hstep; [|done]. by apply elem_of_cons; left.
Qed.

Lemma handler_step_handlers m pcs h w s :
  _handlers (cls (handler_step m pcs h w s))
    = <[s := <[m := (pcs, h)]> (default ∅ (_handlers (cls w) !! s))]>
        (_handlers (cls w)).
Proof. reflexivity. Qed.

Lemma handler_step_checkers m pcs h w s :
  _message_checkers_by_state (cls (handler_step m pcs h w s))
    = <[s := default ∅ (_message_checkers_by_state (cls w) !! s) ∪ list_to_set pcs]>
        (_message_checkers_by_state (cls w)).
Proof. reflexivity. Qed.

Lemma handler_steps_other_state m pcs h states w s' :
  s' ∉ states →
  _handlers (cls (fold_left (handler_step m pcs h) states w)) !! s'
    = _handlers (cls w) !! s'.
Proof.
  intros Hnotin.
  apply (fold_left_preserves_in
           (λ w1, _handlers (cls w1) !! s' = _handlers (cls w) !! s'));
    [|done].
  intros w1 s Hs Hw1. rewrite handler_step_handlers, lookup_insert_ne; [done|].
  by intros ->.
Qed.

Lemma handler_steps_other_message m pcs h states w s' m' entry :
  m' ≠ m →
  handler_at (cls w) s' m' entry →
  handler_at (cls (fold_left (handler_step m pcs h) states w)) s' m' entry.
Proof.
  intros Hne.
  apply (fold_left_preserves (λ w1, handler_at (cls w1) s' m' entry)).
  intros w1 s (handlers & Hs' & Hm'). unfold handler_at.
  destruct (decide (s = s')) as [->|Hs].
  - exists (<[m := (pcs, h)]> handlers). rewrite handler_step_handlers.
    rewrite lookup_insert_eq, Hs'. split; [done|].
    by rewrite lookup_insert_ne.
  - exists handlers. rewrite handler_step_handlers.
    by rewrite lookup_insert_ne.
Qed.

Lemma get_handler_handler_at {Obj Sender}
    (call_checker : checker → Obj → Sender → bool) self s m w r :
  get_handler call_checker self s m w = Return r ↔
  ∃ pcs h, handler_at (cls w) s m (pcs, h) ∧ r = (_join_checkers call_checker pcs, h).
Proof.
  unfold get_handler, handler_at.
  rewrite (dict_get_cls self HANDLERS) by done. cbn [aget HANDLERS].
  destruct (_handlers (cls w) !! s) as [handlers|] eqn:Hs.
  - destruct (handlers !! m) as [[pcs h]|] eqn:Hm.
    + split.
      * intros [= <-]. exists pcs, h. split; [|done]. by exists handlers.
      * intros (pcs' & h' & (handlers' & [= <-] & Hm') & ->). congruence.
    + split; [done|]. intros (pcs' & h' & (handlers' & [= <-] & Hm') & _).
      congruence.
  - split; [done|]. by intros (pcs' & h' & (handlers' & [=] & _) & _).
Qed.

(** X3: a handler registration touches only the keys it names. At a
    state outside statesFrom every handler lookup answers as before, and
    at any state a handler found under another message id is still found,
    unchanged. *)
Theorem register_handler_frame {Obj Sender}
    (call_checker : checker → Obj → Sender → bool) (self other : WorkflowBase)
    (m : option message_id) (states_from : option (list state))
    (permission_checker : option checker_arg) (handler : callable)
    (s' : state) (m' : message_id) (w : World) :
  let w' := (decorate (register_handler self m states_from permission_checker)
               handler w).2 in
  (s' ∉ default (valid_states self) states_from →
   get_handler call_checker other s' m' w' = get_handler call_checker other s' m' w ∧
   is_valid_message other s' m' w' = is_valid_message other s' m' w ∧
   get_available_messages other s' w' = get_available_messages other s' w) ∧
  (m' ≠ default (__name__ handler) m →
   ∀ r, get_handler call_checker other s' m' w = Return r →
        get_handler call_checker other s' m' w' = Return r).
Proof.
  cbv zeta. rewrite register_handler_run. cbn [snd].
  set (w' := fold_left _ _ w).
  assert (Hvalid : same_valid_states w w').
  { apply fold_left_preserves; [|done]. intros w1 s. apply handler_step_frame. }
  split.
  - intros Hnotin.
    pose proof (handler_steps_other_state (default (__name__ handler) m)
                  (normalize_checkers self permission_checker) handler
                  _ w s' Hnotin) as Hsame.
    fold w' in Hsame.
    unfold get_handler, is_valid_message, get_available_messages.
    rewrite (same_valid_states_query _ _ other s' Hvalid).
    rewrite !(dict_get_cls other HANDLERS) by done. cbn [aget HANDLERS].
    by rewrite Hsame.
  - intros Hne r (pcs & h & Hat & ->)%get_handler_handler_at.
    apply get_handler_handler_at. exists pcs, h. split; [|done].
    by apply handler_steps_other_message.
Qed.

Lemma register_handler_frame_witness :
  let w' := (decorate (register_handler Sample.base (Some "stop") (Some ["init"])
                         None) Sample.notify Sample.with_start).2 in
  get_handler Sample.call_checker Sample.base "archived" "stop" w'
    = get_handler Sample.call_checker Sample.base "archived" "stop" Sample.with_start ∧
  get_handler Sample.call_checker Sample.base "init" "start" w'
    = Return (_join_checkers Sample.call_checker ["allow_to_all"], Sample.start).
Proof.
  cbv zeta.
  destruct (register_handler_frame Sample.call_checker Sample.base Sample.base
              (Some "stop") (Some ["init"]) None Sample.notify "archived" "stop"
              Sample.with_start) as (Hstate & _).
  destruct (register_handler_frame Sample.call_checker Sample.base Sample.base
              (Some "stop") (Some ["init"]) None Sample.notify "init" "start"
              Sample.with_start) as (_ & Hmessage).
  split.
  - apply Hstate. cbn. intros [[=]|[]%elem_of_nil]%elem_of_cons.
  - apply Hmessage; [discriminate|]. by vm_compute.
Defined.

Lemma elem_of_get_nonfinal_states self s w :
  s ∈ get_nonfinal_states self w ↔ is_Some (_handlers (cls w) !! s).
Proof.
  unfold get_nonfinal_states, dict_keys.
  rewrite (bound_not_message_specs self HANDLERS) by done.
  apply elem_of_keys.
Qed.

(** X4: get_nonfinal_states lists, each once, exactly the states at
    which get_handler does not raise IllegalState. *)
Theorem get_nonfinal_states_handled {Obj Sender}
    (call_checker : checker → Obj → Sender → bool) (self : WorkflowBase)
    (w : World) :
  NoDup (get_nonfinal_states self w) ∧
  ∀ s, s ∈ get_nonfinal_states self w ↔
       ∀ m, get_handler call_checker self s m w ≠ Raise (IllegalStateError s).
Proof.
  split.
  - unfold get_nonfinal_states, dict_keys.
    rewrite (bound_not_message_specs self HANDLERS) by done.
    apply NoDup_fst_map_to_list.
  - intros s. rewrite elem_of_get_nonfinal_states. unfold get_handler.
    rewrite (dict_get_cls self HANDLERS) by done. cbn [aget HANDLERS].
    destruct (_handlers (cls w) !! s) as [handlers|].
    + split; [|by eexists]. intros _ m.
      by destruct (handlers !! m) as [[pcs h]|].
    + split; [by intros [??]|]. intros Hno. by destruct (Hno "").
Qed.

(** X5: at a valid state for which no handler was ever registered,
    get_available_messages is empty and is_valid_message is false for
    every message id, yet get_handler raises IllegalState, not
    UnhandledMessage. *)
Theorem valid_state_without_handlers {Obj Sender}
    (call_checker : checker → Obj → Sender → bool) (self : WorkflowBase)
    (s : state) (w : World) :
  is_valid_state self s w = true →
  s ∉ get_nonfinal_states self w →
  get_available_messages self s w = Return [] ∧
  ∀ m, is_valid_message self s m w = Return false ∧
       get_handler call_checker self s m w = Raise (IllegalStateError s).
Proof.
  intros Hvalid Hnone. rewrite elem_of_get_nonfinal_states in Hnone.
  unfold get_available_messages, is_valid_message, get_handler.
  rewrite !(dict_get_cls self HANDLERS) by done. cbn [aget HANDLERS].
  rewrite Hvalid.
  destruct (_handlers (cls w) !! s) as [handlers|]; [|done].
  destruct Hnone. by eexists.
Qed.

Lemma valid_state_without_handlers_witness :
  get_available_messages Sample.base "archived" Sample.with_start = Return [] ∧
  ∀ m, is_valid_message Sample.base "archived" m Sample.with_start = Return false ∧
       get_handler Sample.call_checker Sample.base "archived" m Sample.with_start
         = Raise (IllegalStateError "archived").
Proof.
  apply (valid_state_without_handlers Sample.call_checker Sample.base "archived"
           Sample.with_start).
  - by vm_compute.
  - vm_compute. intros [[=]|[]%elem_of_nil]%elem_of_cons.
Defined.

(** X6: get_available_messages enumerates the handler table of the
    state: every listed pair is a handled message id with the checker
    list get_handler combines for it, every message id get_handler
    resolves is listed, and no message id is listed twice. *)
Theorem get_available_messages_handlers {Obj Sender}
    (call_checker : checker → Obj → Sender → bool) (self : WorkflowBase)
    (s : state) (w : World) (l : list (list checker * message_id)) :
  get_available_messages self s w = Return l →
  NoDup l.*2 ∧
  (∀ permission_checkers m,
     (permission_checkers, m) ∈ l →
     ∃ handler,
       get_handler call_checker self s m w
         = Return (_join_checkers call_checker permission_checkers, handler)) ∧
  (∀ m r, get_handler call_checker self s m w = Return r → m ∈ l.*2).
Proof.
  unfold get_available_messages, get_handler.
  rewrite !(dict_get_cls self HANDLERS) by done. cbn [aget HANDLERS].
  destruct (_handlers (cls w) !! s) as [handlers|].
  - intros [= <-].
    assert (Hsnd :
      ((λ '(m, (pcs, _)), (pcs, m)) <$> map_to_list handlers).*2
        = (map_to_list handlers).*1).
    { rewrite <- list_fmap_compose. apply list_fmap_ext.
      by intros _ [m [pcs h]] _. }
    rewrite Hsnd. split; [apply NoDup_fst_map_to_list|]. split.
    + intros pcs m ([m0 [pcs0 h]] & [= -> ->] & Hin%elem_of_map_to_list)%list_elem_of_fmap.
      exists h. by rewrite Hin.
    + intros m r. destruct (handlers !! m) as [[pcs h]|] eqn:Hm; [|done].
      intros _. apply list_elem_of_fmap. exists (m, (pcs, h)).
      split; [done|]. by apply elem_of_map_to_list.
  - destruct (negb (is_valid_state self s w)); [done|]. intros [= <-].
    split; [constructor|]. split; [|done].
    by intros pcs m Hin%elem_of_nil.
Qed.

Lemma get_available_messages_handlers_witness :
  ∃ handler,
    get_handler Sample.call_checker Sample.base "init" "start" Sample.with_start
      = Return (_join_checkers Sample.call_checker ["allow_to_all"], handler).
Proof.
  destruct (get_available_messages_handlers Sample.call_checker Sample.base "init"
              Sample.with_start [(["allow_to_all"], "start")])
    as (_ & Hlisted & _); [by vm_compute|].
  apply Hlisted. apply elem_of_cons. by left.
Defined.

(** ** Nothing is ever removed *)

Lemma is_valid_message_true other s m w :
  is_valid_message other s m w = Return true ↔
  ∃ handlers, _handlers (cls w) !! s = Some handlers ∧ is_Some (handlers !! m).
Proof.
  unfold is_valid_message.
  rewrite (dict_get_cls other HANDLERS) by done. cbn [aget HANDLERS].
  destruct (_handlers (cls w) !! s) as [handlers|].
  - split.
    + intros [= Htrue]. exists handlers. split; [done|].
      by apply bool_decide_eq_true in Htrue.
    + intros (handlers' & [= <-] & Hm). by rewrite bool_decide_eq_true_2.
  - split; [by destruct (negb _)|]. by intros (? & [=] & _).
Qed.

Lemma handler_steps_keep_keys m pcs h states w s' m' :
  (∃ handlers, _handlers (cls w) !! s' = Some handlers ∧ is_Some (handlers !! m')) →
  ∃ handlers,
    _handlers (cls (fold_left (handler_step m pcs h) states w)) !! s' = Some handlers ∧
    is_Some (handlers !! m').
Proof.
  apply (fold_left_preserves
           (λ w1, ∃ handlers, _handlers (cls w1) !! s' = Some handlers ∧
                              is_Some (handlers !! m'))).
  intros w1 s (handlers & Hs' & Hm').
  destruct (decide (s = s')) as [->|Hs].
  - exists (<[m := (pcs, h)]> handlers). rewrite handler_step_handlers.
    rewrite lookup_insert_eq, Hs'. split; [done|].
    destruct (decide (m = m')) as [->|Hm].
    + rewrite lookup_insert_eq. by eexists.
    + by rewrite lookup_insert_ne.
  - exists handlers. rewrite handler_step_handlers.
    by rewrite lookup_insert_ne.
Qed.

Lemma get_action_Some other from_state to_state m w :
  (∃ a, get_action other from_state to_state m w = Return (Some a)) ↔
  is_Some (_actions (cls w) !! (from_state, to_state, m)) ∨
  is_Some (_actions_any_startpoint (cls w) !! (to_state, m)) ∨
  is_Some (_actions_any_destination (cls w) !! (from_state, m)).
Proof.
  unfold get_action.
  rewrite (dict_get_cls other ACTIONS), (dict_get_cls other ACTIONS_ANY_STARTPOINT),
    (dict_get_cls other ACTIONS_ANY_DESTINATION) by done.
  cbn [aget ACTIONS ACTIONS_ANY_STARTPOINT ACTIONS_ANY_DESTINATION].
  destruct (_actions (cls w) !! _) as [a|]; cbn [is_callable].
  { split; [intros _; left|]; by eexists. }
  destruct (_actions_any_startpoint (cls w) !! _) as [a|]; cbn [is_callable].
  { split; [intros _; right; left|]; by eexists. }
  destruct (_actions_any_destination (cls w) !! _) as [a|]; cbn [is_callable].
  { split; [intros _; right; right|]; by eexists. }
  split; [by intros [a [=]]|]. by intros [[? [=]]|[[? [=]]|[? [=]]]].
Qed.

Lemma is_Some_insert_keep {K} `{Countable K} {V} (d : gmap K V) (k k' : K) (v : V) :
  is_Some (d !! k') → is_Some (<[k := v]> d !! k').
Proof.
  intros Hk'. destruct (decide (k = k')) as [->|Hne].
  - rewrite lookup_insert_eq. by eexists.
  - by rewrite lookup_insert_ne.
Qed.

Lemma action_writes_keep_keys m action states_from states_to w k1 k2 k3 :
  let w' := action_writes m action states_from states_to w in
  (is_Some (_actions (cls w) !! k1) → is_Some (_actions (cls w') !! k1)) ∧
  (is_Some (_actions_any_startpoint (cls w) !! k2) →
   is_Some (_actions_any_startpoint (cls w') !! k2)) ∧
  (is_Some (_actions_any_destination (cls w) !! k3) →
   is_Some (_actions_any_destination (cls w') !! k3)).
Proof.
  cbv zeta.
  set (P := λ w', (is_Some (_actions (cls w) !! k1) → is_Some (_actions (cls w') !! k1)) ∧
                  (is_Some (_actions_any_startpoint (cls w) !! k2) →
                   is_Some (_actions_any_startpoint (cls w') !! k2)) ∧
                  (is_Some (_actions_any_destination (cls w) !! k3) →
                   is_Some (_actions_any_destination (cls w') !! k3))).
  assert (HP : P w) by (by repeat split).
  assert (Hexact : ∀ state_to w' state_from,
            P w' → P (exact_step m action state_to w' state_from)).
  { intros state_to w' state_from (H1 & H2 & H3). unfold P. cbn.
    split; [|by split]. intros Hk. by apply is_Some_insert_keep, H1. }
  assert (Hdest : ∀ w' state_from,
            P w' → P (any_destination_step m action w' state_from)).
  { intros w' state_from (H1 & H2 & H3). unfold P. cbn.
    split; [done|]. split; [done|]. intros Hk. by apply is_Some_insert_keep, H3. }
  assert (Hstart : ∀ w' state_to,
            P w' → P (any_startpoint_step m action w' state_to)).
  { intros w' state_to (H1 & H2 & H3). unfold P. cbn.
    split; [done|]. split; [|done]. intros Hk. by apply is_Some_insert_keep, H2. }
  change (P (action_writes m action states_from states_to w)).
  destruct states_from as [froms|], states_to as [tos|]; cbn [action_writes];
    [| | |done].
  - apply fold_left_preserves; [|done]. intros w1 state_to Hw1.
    apply fold_left_preserves; [|done]. intros w2 state_from Hw2.
    by apply Hexact.
  - by apply fold_left_preserves.
  - assert (Hfold : P (fold_left (any_startpoint_step m action) tos w))
      by by apply fold_left_preserves.
    destruct Hfold as (H1 & H2 & H3). by repeat split.
Qed.

Lemma get_message_spec_Return other m w spec :
  get_message_spec other m w = Return spec ↔ dict_get other MESSAGE_SPECS m w = Some spec.
Proof.
  unfold get_message_spec.
  destruct (dict_get other MESSAGE_SPECS m w); split; congruence.
Qed.

Lemma register_message_keeps_specs self other message_spec w m spec :
  dict_get other MESSAGE_SPECS m w = Some spec →
  dict_get other MESSAGE_SPECS m (register_message self message_spec w).2 = Some spec.
Proof.
  rewrite register_message_run, dict_contains_get.
  case_bool_decide as Hpresent; [done|]. cbn [snd].
  rewrite <- eq_None_not_Some in Hpresent.
  unfold dict_get, dict_setitem, bound in *. cbn [container_name container_fabric
    MESSAGE_SPECS aget aset] in *.
  destruct (decide (m = spec_id message_spec)) as [->|Hne].
  - destruct (inherit_behaviour self), (inherit_behaviour other);
      cbn in *; intros Hm;
      repeat match goal with
             | H : context [match ?x with _ => _ end] |- _ =>
                 destruct x eqn:?; try congruence
             end;
      rewrite ?lookup_insert_eq; congruence.
  - destruct (inherit_behaviour self), (inherit_behaviour other);
      cbn in *; intros Hm; by rewrite ?lookup_insert_ne.
Qed.

Lemma exec_ret_snd {A B} (m : Py A) (b : B) (w : World) :
  ((exec m; ret b)%py w).2 = (m w).2.
Proof. unfold bind, ret. by destruct (m w) as [[a|e] w']. Qed.

(** X7: a registration never removes anything. A message id that
    is_valid_message accepts at a state is still accepted after any further
    registration, a transition for which get_action finds an action still
    has one (possibly another), and a message id for which
    get_message_spec returns a spec keeps exactly that spec. *)
Theorem registration_never_removes new (self other : WorkflowBase)
    (r : registration) (w : World) :
  let w' := (register new self r w).2 in
  (∀ s m, is_valid_message other s m w = Return true →
          is_valid_message other s m w' = Return true) ∧
  (∀ from_state to_state m a,
     get_action other from_state to_state m w = Return (Some a) →
     ∃ a', get_action other from_state to_state m w' = Return (Some a')) ∧
  (∀ m spec, get_message_spec other m w = Return spec →
             get_message_spec other m w' = Return spec).
Proof.
  cbv zeta.
  destruct (registration_writes_frame new self r w)
    as (Hvalid & Hhandlers & _ & Hactions & Hspecs).
  destruct (register new self r w) as [o w'] eqn:Hrun. cbn [snd].
  pose proof Hrun as [(e & _ & ->)|[_ Hw']]%register_run;
    [by repeat split; eauto|].
  split; [|split].
  - intros s m Hm.
    destruct (decide (kind_of r = handler_kind)) as [Hkind|Hkind].
    + destruct r; try discriminate Hkind. subst w'.
      apply is_valid_message_true. cbn [registration_writes].
      apply handler_steps_keep_keys.
      exact (proj1 (is_valid_message_true other s m w) Hm).
    + subst w'.
      destruct (same_handlers_query (λ (_ : checker) (_ _ : unit), true)
                  w _ other s m (Hhandlers Hkind) Hvalid) as (_ & -> & _).
      done.
  - intros from_state to_state m a Ha.
    destruct (decide (kind_of r = action_kind)) as [Hkind|Hkind].
    + destruct r; try discriminate Hkind. subst w'.
      apply get_action_Some. cbn [registration_writes].
      assert (Hbefore : ∃ a, get_action other from_state to_state m w = Return (Some a))
        by by eexists.
      apply get_action_Some in Hbefore.
      edestruct action_writes_keep_keys as (H1 & H2 & H3).
      destruct Hbefore as [?|[?|?]]; [left; by apply H1
                                     |right; left; by apply H2
                                     |right; right; by apply H3].
    + subst w'. exists a.
      by destruct (same_actions_query w _ other from_state to_state m
                     (Hactions Hkind)) as [-> _].
  - intros m spec Hm.
    destruct (decide (kind_of r = message_kind)) as [Hkind|Hkind].
    + destruct r as [| message_spec | |]; try discriminate Hkind.
      cbn [register] in Hrun.
      assert (w' = (register_message self message_spec w).2) as ->.
      { by rewrite <- (exec_ret_snd _ ()), Hrun. }
      apply get_message_spec_Return, register_message_keeps_specs.
      by apply get_message_spec_Return.
    + subst w'. by rewrite (same_message_specs_query w _ other m (Hspecs Hkind)).
Qed.

Lemma registration_never_removes_witness :
  let r := Register_handler (Some "start") (Some ["init"; "archived"]) None
             Sample.notify in
  let w' := (register Sample.new_resource Sample.derived r Sample.with_start).2 in
  is_valid_message Sample.base "init" "start" w' = Return true.
Proof.
  cbv zeta.
  apply (registration_never_removes Sample.new_resource Sample.derived Sample.base
           (Register_handler (Some "start") (Some ["init"; "archived"]) None
              Sample.notify) Sample.with_start).
  by vm_compute.
Defined.

(** ** Invariants of a load phase *)

Lemma run_registrations_invariant new (P : World → Prop)
    (rs : list (WorkflowBase * registration)) (w : World) :
  (∀ self r w, P w → P (register new self r w).2) →
  P w → P (run_registrations new rs w).
Proof.
  intros Hstep. unfold run_registrations.
  apply (fold_left_preserves P). intros w1 [self r]. apply Hstep.
Qed.

Lemma register_snd_cases new self r w :
  (register new self r w).2 = w ∨
  (register new self r w).2 = registration_writes new self r w.
Proof.
  destruct (register new self r w) as [o w'] eqn:Hrun. cbn [snd].
  apply register_run in Hrun as [(e & _ & ->)|[_ ->]]; auto.
Qed.

Lemma checkers_indexed_handler_step m pcs h w s :
  checkers_indexed w → checkers_indexed (handler_step m pcs h w s).
Proof.
  intros Hinv s' m' pcs' h' p (handlers & Hs' & Hm') Hp.
  rewrite handler_step_handlers in Hs'. rewrite handler_step_checkers.
  destruct (decide (s = s')) as [->|Hs].
  - rewrite lookup_insert_eq in Hs'. injection Hs' as <-.
    rewrite lookup_insert_eq.
    change (p ∈ default ∅ (_message_checkers_by_state (cls w) !! s')
                ∪ list_to_set pcs).
    apply elem_of_union.
    destruct (decide (m = m')) as [->|Hm].
    + rewrite lookup_insert_eq in Hm'. injection Hm' as <- <-.
      right. by apply elem_of_list_to_set.
    + rewrite lookup_insert_ne in Hm' by done. left.
      destruct (_handlers (cls w) !! s') as [old|] eqn:Hold; cbn in Hm'.
      * apply (Hinv s' m' pcs' h' p); [|done]. by exists old.
      * by rewrite lookup_empty in Hm'.
  - rewrite lookup_insert_ne in Hs' by done. rewrite lookup_insert_ne by done.
    apply (Hinv s' m' pcs' h' p); [|done]. by exists handlers.
Qed.

Lemma checkers_indexed_same w w' :
  same_handlers w w' → checkers_indexed w → checkers_indexed w'.
Proof.
  intros [Hh Hc] Hinv s m pcs h p Hat Hp.
  unfold handler_at in Hat. rewrite Hh in Hat. rewrite Hc. by eapply Hinv.
Qed.

Lemma checkers_indexed_register new self r w :
  checkers_indexed w → checkers_indexed (register new self r w).2.
Proof.
  intros Hinv. destruct (register_snd_cases new self r w) as [->| ->]; [done|].
  destruct (decide (kind_of r = handler_kind)) as [Hkind|Hkind].
  - destruct r; try discriminate Hkind. cbn [registration_writes].
    apply (fold_left_preserves checkers_indexed); [|done].
    intros w1 s. apply checkers_indexed_handler_step.
  - eapply checkers_indexed_same; [|done].
    by apply registration_writes_frame.
Qed.

(** X8: the checker index is complete. After a load phase that starts
    from a freshly constructed definition, every checker that guards a
    message available at a state is among the checkers
    get_checkers_by_state returns for that state. *)
Theorem handler_checkers_are_indexed new (base other : WorkflowBase)
    (rs : list (WorkflowBase * registration)) (w0 : World) (s : state)
    (l : list (list checker * message_id)) (permission_checkers : list checker)
    (m : message_id) (p : checker) :
  inherit_behaviour base = false →
  let w := run_registrations new rs (__init__ base w0) in
  get_available_messages other s w = Return l →
  (permission_checkers, m) ∈ l →
  p ∈ permission_checkers →
  ∃ cs, get_checkers_by_state other s w = Return cs ∧ p ∈ cs.
Proof.
  intros Hbase w Hl Hin Hp.
  assert (Hinv : checkers_indexed w).
  { apply run_registrations_invariant; [apply checkers_indexed_register|].
    unfold __init__. rewrite Hbase. cbn [negb].
    intros s' m' pcs' h' p' (handlers & Hs' & _).
    change ((∅ : gmap state (gmap message_id (list checker * callable))) !! s'
              = Some handlers) in Hs'.
    by rewrite lookup_empty in Hs'. }
  eexists. split; [reflexivity|]. apply elem_of_union. left.
  unfold get_message_checkers_by_state.
  rewrite (dict_get_cls other MESSAGE_CHECKERS_BY_STATE) by done.
  cbn [aget MESSAGE_CHECKERS_BY_STATE].
  unfold get_available_messages in Hl.
  rewrite (dict_get_cls other HANDLERS) in Hl by done. cbn [aget HANDLERS] in Hl.
  destruct (_handlers (cls w) !! s) as [handlers|] eqn:Hs.
  - injection Hl as <-.
    apply list_elem_of_fmap in Hin
      as ([m0 [pcs0 h]] & [= -> ->] & Hentry%elem_of_map_to_list).
    apply (Hinv s m0 pcs0 h p); [|done]. by exists handlers.
  - destruct (negb (is_valid_state other s w)); [done|]. injection Hl as <-.
    by apply elem_of_nil in Hin.
Qed.

Lemma handler_checkers_are_indexed_witness :
  let rs := [ (Sample.base,
               Register_handler (Some "start") None
                 (Some (iterable ["is_admin"; "is_owner"])) Sample.start);
              (Sample.derived,
               Register_handler (Some "start") (Some ["init"])
                 (Some (single "is_guest")) Sample.notify) ] in
  let w := run_registrations Sample.new_resource rs
             (__init__ Sample.base Sample.empty_world) in
  ∃ cs, get_checkers_by_state Sample.base "init" w = Return cs ∧ "is_guest" ∈ cs.
Proof.
  cbv zeta.
  apply (handler_checkers_are_indexed Sample.new_resource Sample.base Sample.base
           _ Sample.empty_world "init" [(["is_guest"], "start")] ["is_guest"]
           "start" "is_guest" eq_refl).
  - by vm_compute.
  - apply elem_of_cons. by left.
  - apply elem_of_cons. by left.
Defined.

(** ** Resources: registration and lookup *)

Lemma resource_step_by_state rid resource pcs w s :
  _resources_by_state (cls (resource_step rid resource pcs w s))
    = <[s := <[rid := resource]> (default ∅ (_resources_by_state (cls w) !! s))]>
        (_resources_by_state (cls w)).
Proof. reflexivity. Qed.

Lemma resource_step_checkers rid resource pcs w s :
  _resource_checkers_by_state (cls (resource_step rid resource pcs w s))
    = <[s := default ∅ (_resource_checkers_by_state (cls w) !! s) ∪ list_to_set pcs]>
        (_resource_checkers_by_state (cls w)).
Proof. reflexivity. Qed.

Lemma resource_step_resources rid resource pcs w s :
  _resources (cls (resource_step rid resource pcs w s)) = _resources (cls w).
Proof. reflexivity. Qed.

Lemma get_resource_Some other s rid w resource :
  get_resource other s rid w = Return (Some resource) ↔
  ∃ resources, _resources_by_state (cls w) !! s = Some resources ∧
               resources !! rid = Some resource.
Proof.
  unfold get_resource.
  rewrite (dict_get_cls other RESOURCES_BY_STATE) by done.
  cbn [aget RESOURCES_BY_STATE].
  destruct (_resources_by_state (cls w) !! s) as [resources|].
  - split.
    + intros [= Hrid]. by exists resources.
    + intros (resources' & [= <-] & Hrid). by rewrite Hrid.
  - split; [by destruct (negb _)|]. by intros (? & [=] & _).
Qed.

Lemma resource_steps_establish rid resource pcs states w s :
  s ∈ states →
  let w' := fold_left (resource_step rid resource pcs) states w in
  (∃ resources, _resources_by_state (cls w') !! s = Some resources ∧
                resources !! rid = Some resource) ∧
  ∀ p, p ∈ pcs → p ∈ default ∅ (_resource_checkers_by_state (cls w') !! s).
Proof.
  intros Hin. cbv zeta. split.
  - apply (fold_left_establishes
             (λ w1, ∃ resources, _resources_by_state (cls w1) !! s = Some resources ∧
                                 resources !! rid = Some resource) _ _ s);
      [done| |].
    + intros w1. eexists. rewrite resource_step_by_state, lookup_insert_eq.
      split; [done|]. apply lookup_insert_eq.
    + intros w1 s1 (resources & Hs & Hrid).
      destruct (decide (s1 = s)) as [->|Hne].
      * eexists. rewrite resource_step_by_state, lookup_insert_eq, Hs.
        split; [done|]. apply lookup_insert_eq.
      * exists resources. by rewrite resource_step_by_state, lookup_insert_ne.
  - intros p Hp.
    apply (fold_left_establishes
             (λ w1, p ∈ default ∅ (_resource_checkers_by_state (cls w1) !! s)) _ _ s);
      [done| |].
    + intros w1. rewrite resource_step_checkers, lookup_insert_eq.
      change (p ∈ default ∅ (_resource_checkers_by_state (cls w1) !! s)
                  ∪ list_to_set pcs).
      apply elem_of_union. right. by apply elem_of_list_to_set.
    + intros w1 s1 Hw1. rewrite resource_step_checkers.
      destruct (decide (s1 = s)) as [->|Hne].
      * rewrite lookup_insert_eq.
        change (p ∈ default ∅ (_resource_checkers_by_state (cls w1) !! s)
                    ∪ list_to_set pcs).
        apply elem_of_union. by left.
      * by rewrite lookup_insert_ne.
Qed.

Section resource_registration.
Variable WorkflowResource_new :
  callable → resource_id → option string → list checker → option string →
  outcome WorkflowResource.

Lemma register_resource_success self rid descr available_in_states
    permission_checker slug handler resource w :
  WorkflowResource_new handler rid descr
    (normalize_checkers self permission_checker) slug = Return resource →
  dict_get self RESOURCES rid w = None →
  resource_states self available_in_states w ≠ [] →
  decorate (register_resource WorkflowResource_new self rid descr
              available_in_states permission_checker slug) handler w
  = (Return handler,
     fold_left (resource_step rid resource
                  (normalize_checkers self permission_checker))
       (resource_states self available_in_states w)
       (cls_setitem RESOURCES rid resource w)).
Proof.
  intros Hnew Hfresh Hstates. rewrite register_resource_run. cbv zeta.
  fold (resource_states self available_in_states w).
  rewrite bool_decide_eq_false_2 by done.
  rewrite dict_contains_get, Hfresh.
  rewrite bool_decide_eq_false_2 by (by intros [??]).
  rewrite Hnew. apply resource_writes_run.
Qed.

(** X9: a resource registration that goes through makes the resource
    available at every state it was registered for: get_resource returns
    it, get_available_resources lists it, and each of its checkers is
    among the checkers get_checkers_by_state returns for that state. *)
Theorem get_resource_registered (self other : WorkflowBase) (rid : resource_id)
    (descr : option string) (available_in_states : option (list state))
    (permission_checker : option checker_arg) (slug : option string)
    (handler : callable) (resource : WorkflowResource) (s : state) (w : World) :
  WorkflowResource_new handler rid descr
    (normalize_checkers self permission_checker) slug = Return resource →
  dict_get self RESOURCES rid w = None →
  s ∈ resource_states self available_in_states w →
  let w' := (decorate (register_resource WorkflowResource_new self rid descr
                         available_in_states permission_checker slug)
               handler w).2 in
  get_resource other s rid w' = Return (Some resource) ∧
  (∃ l, get_available_resources other s w' = Return l ∧ resource ∈ l) ∧
  (∀ p, p ∈ normalize_checkers self permission_checker →
        ∃ cs, get_checkers_by_state other s w' = Return cs ∧ p ∈ cs).
Proof.
  intros Hnew Hfresh Hs. cbv zeta.
  rewrite (register_resource_success _ _ _ _ _ _ _ resource) by
    (try done; by intros Hnil; rewrite Hnil in Hs; apply elem_of_nil in Hs).
  cbn [snd].
  destruct (resource_steps_establish rid resource
              (normalize_checkers self permission_checker)
              (resource_states self available_in_states w)
              (cls_setitem RESOURCES rid resource w) s Hs)
    as ((resources & Hstate & Hrid) & Hcheckers).
  split; [|split].
  - apply get_resource_Some. by exists resources.
  - unfold get_available_resources.
    rewrite (dict_get_cls other RESOURCES_BY_STATE) by done.
    cbn [aget RESOURCES_BY_STATE]. rewrite Hstate. eexists. split; [done|].
    apply list_elem_of_fmap. exists (rid, resource). split; [done|].
    by apply elem_of_map_to_list.
  - intros p Hp. eexists. split; [reflexivity|]. apply elem_of_union. right.
    unfold get_resource_checkers_by_state.
    rewrite (dict_get_cls other RESOURCE_CHECKERS_BY_STATE) by done.
    by apply Hcheckers.
Qed.
End resource_registration.

Lemma get_resource_registered_witness :
  let w' := (decorate (register_resource Sample.new_resource Sample.derived
                         (Some "history") (Some "Change history")
                         (Some ["init"; "archived"])
                         (Some (iterable ["is_admin"; "is_owner"])) None)
               Sample.audit Sample.with_start).2 in
  get_resource Sample.base "archived" (Some "history") w'
    = Return (Some (WorkflowResource_init Sample.audit (Some "history")
                      ["is_admin"; "is_owner"] (Some "Change history"))).
Proof.
  cbv zeta.
  apply (get_resource_registered Sample.new_resource Sample.derived Sample.base
           (Some "history") (Some "Change history") (Some ["init"; "archived"])
           (Some (iterable ["is_admin"; "is_owner"])) None Sample.audit
           (WorkflowResource_init Sample.audit (Some "history")
              ["is_admin"; "is_owner"] (Some "Change history"))
           "archived" Sample.with_start).
  - reflexivity.
  - by vm_compute.
  - apply elem_of_cons. right. apply elem_of_cons. by left.
Defined.

Section resource_stability.
Variable WorkflowResource_new :
  callable → resource_id → option string → list checker → option string →
  outcome WorkflowResource.

Lemma register_resource_snd_cases self rid descr available_in_states
    permission_checker slug handler w :
  let r := Register_resource rid descr available_in_states permission_checker
             slug handler in
  (register WorkflowResource_new self r w).2 = w ∨
  ∃ resource,
    _resources (cls w) !! rid = None ∧
    (register WorkflowResource_new self r w).2
      = fold_left (resource_step rid resource
                     (normalize_checkers self permission_checker))
          (resource_states self available_in_states w)
          (cls_setitem RESOURCES rid resource w).
Proof.
  cbv zeta. cbn [register]. rewrite exec_ret_snd, register_resource_run.
  cbv zeta. fold (resource_states self available_in_states w).
  case_bool_decide; [by left|].
  rewrite dict_contains_get, (dict_get_cls self RESOURCES) by done.
  cbn [aget RESOURCES].
  destruct (_resources (cls w) !! rid) as [old|] eqn:Hrid.
  { rewrite bool_decide_eq_true_2 by by eexists. by left. }
  rewrite bool_decide_eq_false_2 by (by intros [??]).
  destruct (WorkflowResource_new handler rid descr _ slug) as [resource|e];
    [|by left].
  right. exists resource. split; [done|]. by rewrite resource_writes_run.
Qed.

Lemma resources_indexed_register self r w :
  resources_indexed w →
  resources_indexed (register WorkflowResource_new self r w).2.
Proof.
  intros Hinv.
  destruct (decide (kind_of r = resource_kind)) as [Hkind|Hkind].
  - destruct r as [rid descr available_in_states permission_checker slug handler
                  | | |]; try discriminate Hkind.
    destruct (register_resource_snd_cases self rid descr available_in_states
                permission_checker slug handler w)
      as [->|(resource & Hfresh & ->)]; [done|].
    apply (fold_left_preserves
             (λ w1, resources_indexed w1 ∧ _resources (cls w1) !! rid = Some resource)).
    + intros w1 s [Hinv1 Hrid]. split; [|by rewrite resource_step_resources].
      intros s' resources rid' resource' Hs' Hrid'.
      rewrite resource_step_resources. rewrite resource_step_by_state in Hs'.
      destruct (decide (s = s')) as [->|Hs].
      * rewrite lookup_insert_eq in Hs'. injection Hs' as <-.
        destruct (decide (rid = rid')) as [->|Hne].
        -- rewrite lookup_insert_eq in Hrid'. congruence.
        -- rewrite lookup_insert_ne in Hrid' by done.
           destruct (_resources_by_state (cls w1) !! s') as [old|] eqn:Hold;
             cbn in Hrid'; [by eapply Hinv1|by rewrite lookup_empty in Hrid'].
      * rewrite lookup_insert_ne in Hs' by done. by eapply Hinv1.
    + split; [|apply lookup_insert_eq].
      intros s' resources rid' resource' Hs' Hrid'. cbn.
      specialize (Hinv s' resources rid' resource' Hs' Hrid').
      rewrite lookup_insert_ne; [done|]. intros <-. congruence.
  - destruct (register_snd_cases WorkflowResource_new self r w) as [->| ->];
      [done|].
    destruct (registration_writes_frame WorkflowResource_new self r w)
      as (_ & _ & Hresources & _).
    destruct (Hresources Hkind) as (Hr & Hb & _).
    intros s' resources rid' resource'. rewrite Hr, Hb. apply Hinv.
Qed.

Lemma resource_kept_register self r s0 rid0 resource0 w :
  resource_kept s0 rid0 resource0 w →
  resource_kept s0 rid0 resource0 (register WorkflowResource_new self r w).2.
Proof.
  intros [Hinv (resources & Hs0 & Hrid0)].
  split; [by apply resources_indexed_register|].
  destruct (decide (kind_of r = resource_kind)) as [Hkind|Hkind].
  - destruct r as [rid descr available_in_states permission_checker slug handler
                  | | |]; try discriminate Hkind.
    destruct (register_resource_snd_cases self rid descr available_in_states
                permission_checker slug handler w)
      as [->|(resource & Hfresh & ->)]; [by exists resources|].
    assert (Hne : rid ≠ rid0).
    { intros ->. specialize (Hinv s0 resources rid0 resource0 Hs0 Hrid0).
      congruence. }
    apply (fold_left_preserves
             (λ w1, ∃ resources, _resources_by_state (cls w1) !! s0 = Some resources ∧
                                 resources !! rid0 = Some resource0)).
    + intros w1 s (resources1 & Hs1 & Hrid1).
      destruct (decide (s = s0)) as [->|Hs].
      * eexists. rewrite resource_step_by_state, lookup_insert_eq, Hs1.
        split; [done|]. by rewrite lookup_insert_ne.
      * exists resources1. by rewrite resource_step_by_state, lookup_insert_ne.
    + by exists resources.
  - destruct (register_snd_cases WorkflowResource_new self r w) as [->| ->];
      [by exists resources|].
    destruct (registration_writes_frame WorkflowResource_new self r w)
      as (_ & _ & Hresources & _).
    destruct (Hresources Hkind) as (_ & -> & _). by exists resources.
Qed.

(** X10: a registered resource is never replaced. After a load phase
    that starts from a freshly constructed definition, a resource that
    get_resource returns for a state and id is returned unchanged after
    any further registrations, through whichever definition they are
    made. *)
Theorem registered_resource_is_kept (base other : WorkflowBase)
    (rs rs' : list (WorkflowBase * registration)) (w0 : World) (s : state)
    (rid : resource_id) (resource : WorkflowResource) :
  inherit_behaviour base = false →
  let w := run_registrations WorkflowResource_new rs (__init__ base w0) in
  get_resource other s rid w = Return (Some resource) →
  get_resource other s rid (run_registrations WorkflowResource_new rs' w)
    = Return (Some resource).
Proof.
  intros Hbase w Hget.
  assert (Hinv : resources_indexed w).
  { apply run_registrations_invariant; [intros; by apply resources_indexed_register|].
    unfold __init__. rewrite Hbase. cbn [negb].
    intros s' resources rid' resource' Hs'.
    change ((∅ : gmap state (gmap resource_id WorkflowResource)) !! s'
              = Some resources) in Hs'.
    by rewrite lookup_empty in Hs'. }
  apply get_resource_Some.
  apply (run_registrations_invariant WorkflowResource_new
           (resource_kept s rid resource)).
  - intros self r w1. apply resource_kept_register.
  - split; [done|]. by apply (get_resource_Some other).
Qed.
End resource_stability.

Lemma registered_resource_is_kept_witness :
  let rs := [ (Sample.base,
               Register_resource (Some "history") None None None None Sample.audit) ] in
  let rs' := [ (Sample.derived,
                Register_resource (Some "history") (Some "Other") (Some ["init"])
                  (Some (single "is_admin")) None Sample.log);
               (Sample.base,
                Register_resource (Some "report") None (Some ["init"]) None None
                  Sample.log) ] in
  get_resource Sample.base "init" (Some "history")
    (run_registrations Sample.new_resource rs'
       (run_registrations Sample.new_resource rs
          (__init__ Sample.base Sample.empty_world)))
    = Return (Some (WorkflowResource_init Sample.audit (Some "history")
                      ["allow_to_all"] None)).
Proof.
  cbv zeta.
  apply (registered_resource_is_kept Sample.new_resource Sample.base Sample.base
           _ _ Sample.empty_world "init" (Some "history") _ eq_refl).
  by vm_compute.
Defined.

(** ** Actions: registration and lookup *)

Lemma get_action_cls other from_state to_state m w :
  get_action other from_state to_state m w =
    Return (match _actions (cls w) !! (from_state, to_state, m) with
            | Some a => Some a
            | None =>
                match _actions_any_startpoint (cls w) !! (to_state, m) with
                | Some a => Some a
                | None => _actions_any_destination (cls w) !! (from_state, m)
                end
            end).
Proof.
  unfold get_action.
  rewrite (dict_get_cls other ACTIONS), (dict_get_cls other ACTIONS_ANY_STARTPOINT),
    (dict_get_cls other ACTIONS_ANY_DESTINATION) by done.
  cbn [aget ACTIONS ACTIONS_ANY_STARTPOINT ACTIONS_ANY_DESTINATION].
  destruct (_actions (cls w) !! _); [done|]; cbn [is_callable].
  destruct (_actions_any_startpoint (cls w) !! _); [done|]; cbn [is_callable].
  by destruct (_actions_any_destination (cls w) !! _).
Qed.

Lemma lookup_insert_same_value {K} `{Countable K} {V} (d : gmap K V) (k k' : K) (v : V) :
  d !! k' = Some v → <[k := v]> d !! k' = Some v.
Proof.
  intros Hk'. destruct (decide (k = k')) as [->|Hne].
  - apply lookup_insert_eq.
  - by rewrite lookup_insert_ne.
Qed.

Lemma exact_steps_establish m action states_from states_to w from_state to_state :
  from_state ∈ states_from → to_state ∈ states_to →
  _actions (cls (fold_left (λ w state_to,
                              fold_left (exact_step m action state_to) states_from w)
                   states_to w))
    !! (from_state, to_state, m) = Some action.
Proof.
  intros Hfrom Hto.
  set (Q := λ w1 : World, _actions (cls w1) !! (from_state, to_state, m) = Some action).
  assert (Hkeep : ∀ t w1 f, Q w1 → Q (exact_step m action t w1 f)).
  { intros t w1 f Hw1. by apply lookup_insert_same_value. }
  apply (fold_left_establishes Q _ _ to_state); [done| |].
  - intros w1. apply (fold_left_establishes Q _ _ from_state); [done| |].
    + intros w2. apply lookup_insert_eq.
    + intros w2 f. apply Hkeep.
  - intros w1 t Hw1. apply (fold_left_preserves Q); [|done].
    intros w2 f. apply Hkeep.
Qed.

Lemma any_destination_steps m action states_from w :
  let w' := fold_left (any_destination_step m action) states_from w in
  _actions (cls w') = _actions (cls w) ∧
  _actions_any_startpoint (cls w') = _actions_any_startpoint (cls w) ∧
  ∀ from_state, from_state ∈ states_from →
                _actions_any_destination (cls w') !! (from_state, m) = Some action.
Proof.
  cbv zeta. split; [|split].
  - by apply (fold_left_preserves (λ w1, _actions (cls w1) = _actions (cls w))).
  - by apply (fold_left_preserves
                (λ w1, _actions_any_startpoint (cls w1)
                       = _actions_any_startpoint (cls w))).
  - intros from_state Hin.
    apply (fold_left_establishes
             (λ w1, _actions_any_destination (cls w1) !! (from_state, m) = Some action)
             _ _ from_state); [done| |].
    + intros w1. apply lookup_insert_eq.
    + intros w1 f Hw1. by apply lookup_insert_same_value.
Qed.

Lemma any_startpoint_steps m action states_to w :
  let w' := fold_left (any_startpoint_step m action) states_to w in
  _actions (cls w') = _actions (cls w) ∧
  _actions_any_destination (cls w') = _actions_any_destination (cls w) ∧
  _actions_for_possible (cls w') = _actions_for_possible (cls w) ∧
  (∀ to_state, to_state ∈ states_to →
               _actions_any_startpoint (cls w') !! (to_state, m) = Some action) ∧
  (states_to = [] → _actions_any_startpoint (cls w') = _actions_any_startpoint (cls w)).
Proof.
  cbv zeta. split; [|split; [|split; [|split]]].
  - by apply (fold_left_preserves (λ w1, _actions (cls w1) = _actions (cls w))).
  - by apply (fold_left_preserves
                (λ w1, _actions_any_destination (cls w1)
                       = _actions_any_destination (cls w))).
  - by apply (fold_left_preserves
                (λ w1, _actions_for_possible (cls w1) = _actions_for_possible (cls w))).
  - intros to_state Hin.
    apply (fold_left_establishes
             (λ w1, _actions_any_startpoint (cls w1) !! (to_state, m) = Some action)
             _ _ to_state); [done| |].
    + intros w1. apply lookup_insert_eq.
    + intros w1 t Hw1. by apply lookup_insert_same_value.
  - by intros ->.
Qed.

(** X11: register_action makes the action findable. Registered with both
    state lists, the action is what get_action returns for every pair
    (from, to) of the lists. Registered with statesTo omitted, it is what
    get_action returns from every listed source state, to any destination,
    unless the exact or the any-startpoint tier already answers.
    Registered with statesFrom omitted, it is what get_action returns into
    every listed destination, from any source, unless the exact tier
    already answers. *)
Theorem get_action_registered (self other : WorkflowBase) (m : option message_id)
    (states_from states_to : option (list state)) (action : callable)
    (from_state to_state : state) (w : World) :
  let w' := (decorate (register_action self m states_from states_to) action w).2 in
  let message := default (__name__ action) m in
  match states_from, states_to with
  | Some froms, Some tos =>
      from_state ∈ froms → to_state ∈ tos →
      get_action other from_state to_state message w' = Return (Some action)
  | Some froms, None =>
      from_state ∈ froms →
      get_action other from_state to_state message w'
        = Return (Some (default action
                          (first_hit
                             [ dict_get other ACTIONS (from_state, to_state, message) w;
                               dict_get other ACTIONS_ANY_STARTPOINT
                                 (to_state, message) w ])))
  | None, Some tos =>
      to_state ∈ tos →
      get_action other from_state to_state message w'
        = Return (Some (default action
                          (dict_get other ACTIONS (from_state, to_state, message) w)))
  | None, None => w' = w
  end.
Proof.
  cbv zeta. rewrite register_action_run.
  destruct states_from as [froms|], states_to as [tos|]; cbn [snd action_writes];
    [| | |done].
  - intros Hfrom Hto. rewrite get_action_cls.
    by rewrite (exact_steps_establish _ _ _ _ _ _ _ Hfrom Hto).
  - intros Hfrom. rewrite get_action_cls.
    destruct (any_destination_steps (default (__name__ action) m) action froms w)
      as (-> & -> & Hdest).
    rewrite (Hdest _ Hfrom).
    rewrite (dict_get_cls other ACTIONS), (dict_get_cls other ACTIONS_ANY_STARTPOINT)
      by done.
    cbn [aget ACTIONS ACTIONS_ANY_STARTPOINT first_hit].
    destruct (_actions (cls w) !! _); [done|].
    by destruct (_actions_any_startpoint (cls w) !! _).
  - intros Hto. rewrite get_action_cls.
    destruct (any_startpoint_steps (default (__name__ action) m) action tos w)
      as (Hexact & _ & _ & Hstart & _).
    cbn [cls cls_setdefault_update aset ACTIONS_FOR_POSSIBLE
           set_actions_for_possible _actions _actions_any_startpoint].
    rewrite Hexact, (Hstart _ Hto).
    rewrite (dict_get_cls other ACTIONS) by done. cbn [aget ACTIONS].
    by destruct (_actions (cls w) !! _).
Qed.

Lemma get_action_registered_witness :
  let w' := (decorate (register_action Sample.base None (Some ["init"; "normal"])
                         None) Sample.log Sample.with_actions).2 in
  get_action Sample.base "normal" "minimized" "log" w' = Return (Some Sample.log).
Proof.
  cbv zeta.
  apply (get_action_registered Sample.base Sample.base None
           (Some ["init"; "normal"]) None Sample.log "normal" "minimized"
           Sample.with_actions).
  apply elem_of_cons. right. apply elem_of_cons. by left.
Defined.

(** ** Actions: the possible-actions index *)

Lemma append_step_possible {K} `{Countable K} (a : attribute (gmap K callable))
    (k : K) (action : callable) (key key' : option state * message_id) (w : World) :
  aget a (cls (cls_setitem a k action w)) = <[k := action]> (aget a (cls w)) →
  _actions_for_possible (cls (cls_setitem a k action w)) = _actions_for_possible (cls w) →
  possible_list
    (cls_setdefault_update ACTIONS_FOR_POSSIBLE key []
       (λ tmp, (tmp ++ [action])%list) (cls_setitem a k action w)) key'
  = if decide (key = key') then (possible_list w key' ++ [action])%list
    else possible_list w key'.
Proof.
  intros _ Hsame. unfold possible_list.
  cbn [cls cls_setdefault_update aget aset ACTIONS_FOR_POSSIBLE
         set_actions_for_possible _actions_for_possible].
  rewrite Hsame. case_decide as Hkey.
  - subst key'. by rewrite lookup_insert_eq.
  - by rewrite lookup_insert_ne.
Qed.

Lemma exact_step_possible m action state_to w state_from key :
  possible_list (exact_step m action state_to w state_from) key
  = if decide ((Some state_from, m) = key) then (possible_list w key ++ [action])%list
    else possible_list w key.
Proof. unfold exact_step. by apply append_step_possible. Qed.

Lemma any_destination_step_possible m action w state_from key :
  possible_list (any_destination_step m action w state_from) key
  = if decide ((Some state_from, m) = key) then (possible_list w key ++ [action])%list
    else possible_list w key.
Proof. unfold any_destination_step. by apply append_step_possible. Qed.

Lemma append_steps_possible (step : World → state → World) m action states_from
    from_state w :
  (∀ w state_from key,
     possible_list (step w state_from) key
     = if decide ((Some state_from, m) = key) then (possible_list w key ++ [action])%list
       else possible_list w key) →
  possible_list (fold_left step states_from w) (Some from_state, m)
  = (possible_list w (Some from_state, m)
     ++ replicate (length (filter (λ x, x = from_state) states_from)) action)%list.
Proof.
  intros Hstep. revert w.
  induction states_from as [|x states_from IH]; intros w.
  - cbn. by rewrite app_nil_r.
  - cbn [fold_left]. rewrite IH, Hstep, filter_cons.
    destruct (decide (x = from_state)) as [->|Hne].
    + rewrite decide_True by done. cbn [length replicate].
      by rewrite <- app_assoc.
    + rewrite decide_False by congruence. done.
Qed.

Lemma append_steps_wildcard (step : World → state → World) m action states_from
    m' w :
  (∀ w state_from key,
     possible_list (step w state_from) key
     = if decide ((Some state_from, m) = key) then (possible_list w key ++ [action])%list
       else possible_list w key) →
  possible_list (fold_left step states_from w) (None, m') = possible_list w (None, m').
Proof.
  intros Hstep.
  apply (fold_left_preserves
           (λ w1, possible_list w1 (None, m') = possible_list w (None, m')));
    [|done].
  intros w1 x Hw1. by rewrite Hstep, decide_False.
Qed.

Lemma get_possible_actions_cls other from_state m w :
  get_possible_actions other from_state m w =
    Return (match possible_list w (Some from_state, m) with
            | a :: l => a :: l
            | [] => possible_list w (None, m)
            end).
Proof.
  unfold get_possible_actions, possible_list.
  rewrite !(dict_get_cls other ACTIONS_FOR_POSSIBLE) by done.
  cbn [aget ACTIONS_FOR_POSSIBLE].
  destruct (_actions_for_possible (cls w) !! (Some from_state, m)) as [[|a l]|];
    try done;
    by destruct (_actions_for_possible (cls w) !! (None, m)) as [[|b l']|].
Qed.

(** X12: what an action registration with statesFrom given adds to the
    enumeration. The action is appended to the list kept for (from,
    message) once for every occurrence of the state in statesFrom and, when
    statesTo is given too, once more for every state of statesTo: an
    action registered for n destination states is listed n times by
    get_possible_actions. The wildcard list is left as it was. *)
Theorem possible_actions_after_registration (self other : WorkflowBase)
    (m : option message_id) (states_from : list state)
    (states_to : option (list state)) (action : callable)
    (from_state : state) (w : World) :
  let w' := (decorate (register_action self m (Some states_from) states_to)
               action w).2 in
  let message := default (__name__ action) m in
  let n := length (filter (λ x, x = from_state) states_from)
           * from_option length 1 states_to in
  possible_list w' (Some from_state, message)
    = (possible_list w (Some from_state, message) ++ replicate n action)%list ∧
  possible_list w' (None, message) = possible_list w (None, message) ∧
  (0 < n →
   get_possible_actions other from_state message w'
     = Return (possible_list w (Some from_state, message)
               ++ replicate n action)%list).
Proof.
  cbv zeta. rewrite register_action_run. cbn [snd].
  set (message := default (__name__ action) m).
  set (c := length (filter (λ x, x = from_state) states_from)).
  assert (Hlists :
    possible_list (action_writes message action (Some states_from) states_to w)
      (Some from_state, message)
    = (possible_list w (Some from_state, message)
       ++ replicate (c * from_option length 1 states_to) action)%list ∧
    possible_list (action_writes message action (Some states_from) states_to w)
      (None, message)
    = possible_list w (None, message)).
  { destruct states_to as [tos|]; cbn [action_writes from_option].
    - split.
      + clear. revert w. induction tos as [|t tos IH]; intros w.
        * cbn. by rewrite Nat.mul_0_r, app_nil_r.
        * cbn [fold_left length]. rewrite IH.
          rewrite (append_steps_possible _ message action)
            by apply exact_step_possible.
          fold c. rewrite <- app_assoc, <- replicate_add. do 2 f_equal. lia.
      + apply (fold_left_preserves
                 (λ w1, possible_list w1 (None, message)
                        = possible_list w (None, message))); [|done].
        intros w1 t Hw1.
        by rewrite (append_steps_wildcard _ message action)
          by apply exact_step_possible.
    - split.
      + rewrite Nat.mul_1_r.
        by apply append_steps_possible, any_destination_step_possible.
      + by apply (append_steps_wildcard _ message action),
          any_destination_step_possible. }
  destruct Hlists as [Hspecific Hwildcard].
  split; [done|]. split; [done|].
  intros Hn. rewrite get_possible_actions_cls, Hspecific.
  destruct (c * from_option length 1 states_to) as [|n]; [lia|].
  destruct (possible_list w (Some from_state, message)); done.
Qed.

Lemma possible_actions_after_registration_witness :
  let w' := (decorate (register_action Sample.base (Some "edit") (Some ["init"])
                         (Some ["normal"; "minimized"; "maximized"]))
               Sample.audit Sample.with_actions).2 in
  get_possible_actions Sample.base "init" "edit" w'
    = Return [Sample.notify; Sample.log; Sample.audit; Sample.audit; Sample.audit].
Proof.
  cbv zeta.
  apply (possible_actions_after_registration Sample.base Sample.base (Some "edit")
           ["init"] (Some ["normal"; "minimized"; "maximized"]) Sample.audit
           "init" Sample.with_actions).
  vm_compute. lia.
Defined.

(** X13: an action registration with statesFrom omitted appends the
    action to the wildcard list exactly once, however many destination
    states are given, and leaves the from-specific lists alone; every
    source state without a list of its own then enumerates it. With an
    empty statesTo this still happens although get_action answers as
    before for every transition. *)
Theorem wildcard_possible_action (self other : WorkflowBase)
    (m : option message_id) (states_to : list state) (action : callable)
    (w : World) :
  let w' := (decorate (register_action self m None (Some states_to)) action w).2 in
  let message := default (__name__ action) m in
  possible_list w' (None, message)
    = (possible_list w (None, message) ++ [action])%list ∧
  (∀ from_state,
     possible_list w' (Some from_state, message)
       = possible_list w (Some from_state, message)) ∧
  (∀ from_state,
     possible_list w (Some from_state, message) = [] →
     get_possible_actions other from_state message w'
       = Return (possible_list w (None, message) ++ [action])%list) ∧
  (states_to = [] →
   ∀ from_state to_state m',
     get_action other from_state to_state m' w'
       = get_action other from_state to_state m' w).
Proof.
  cbv zeta. rewrite register_action_run. cbn [snd action_writes].
  set (message := default (__name__ action) m).
  destruct (any_startpoint_steps message action states_to w)
    as (Hexact & Hdest & Hpossible & _ & Hempty).
  set (w1 := fold_left (any_startpoint_step message action) states_to w) in *.
  assert (Hwild :
    possible_list (cls_setdefault_update ACTIONS_FOR_POSSIBLE (None, message) []
                     (λ tmp, (tmp ++ [action])%list) w1) (None, message)
    = (possible_list w (None, message) ++ [action])%list).
  { unfold possible_list. cbn. by rewrite lookup_insert_eq, Hpossible. }
  assert (Hspecific : ∀ from_state,
    possible_list (cls_setdefault_update ACTIONS_FOR_POSSIBLE (None, message) []
                     (λ tmp, (tmp ++ [action])%list) w1) (Some from_state, message)
    = possible_list w (Some from_state, message)).
  { intros from_state. unfold possible_list. cbn.
    by rewrite lookup_insert_ne, Hpossible. }
  split; [done|]. split; [done|]. split.
  - intros from_state Hnone.
    by rewrite get_possible_actions_cls, Hspecific, Hnone, Hwild.
  - intros Hnil from_state to_state m'. rewrite !get_action_cls. cbn.
    by rewrite Hexact, Hdest, (Hempty Hnil).
Qed.

Lemma wildcard_possible_action_witness :
  let w' := (decorate (register_action Sample.base (Some "resize") None (Some []))
               Sample.log Sample.with_actions).2 in
  get_possible_actions Sample.base "init" "resize" w' = Return [Sample.log] ∧
  get_action Sample.base "init" "normal" "resize" w' = Return None.
Proof.
  cbv zeta.
  destruct (wildcard_possible_action Sample.base Sample.base (Some "resize") []
              Sample.log Sample.with_actions) as (_ & _ & Hlisted & Hsilent).
  split.
  - apply Hlisted. by vm_compute.
  - rewrite (Hsilent eq_refl). by vm_compute.
Defined.

(** ** Message specs *)

Lemma get_message_spec_Raise other m w e :
  get_message_spec other m w = Raise e ↔
  dict_get other MESSAGE_SPECS m w = None ∧ e = MessageSpecNotRegisteredError m.
Proof.
  unfold get_message_spec. destruct (dict_get other MESSAGE_SPECS m w).
  - split; [done|]. by intros [[=] _].
  - split; [by intros [= <-]|]. by intros [_ ->].
Qed.

(** X14: register_message and get_message_spec round trip. For an id
    that get_message_spec reports as not registered, register_message
    returns the spec, get_message_spec then returns it, and the answer for
    every other id is as before, through every definition. *)
Theorem get_message_spec_registered (self other : WorkflowBase)
    (message_spec : MessageSpec) (w : World) :
  get_message_spec self (spec_id message_spec) w
    = Raise (MessageSpecNotRegisteredError (spec_id message_spec)) →
  ∃ w',
    register_message self message_spec w = (Return message_spec, w') ∧
    get_message_spec self (spec_id message_spec) w' = Return message_spec ∧
    ∀ m, m ≠ spec_id message_spec →
         get_message_spec other m w' = get_message_spec other m w.
Proof.
  intros [Hnone _]%get_message_spec_Raise.
  eexists. rewrite register_message_run, dict_contains_get, Hnone.
  rewrite bool_decide_eq_false_2 by (by intros [??]).
  split; [reflexivity|].
  unfold get_message_spec, dict_get, dict_setitem, bound.
  cbn [container_name container_fabric MESSAGE_SPECS aget aset].
  split.
  - destruct (inherit_behaviour self); cbn; by rewrite lookup_insert_eq.
  - intros m Hne.
    destruct (inherit_behaviour self), (inherit_behaviour other); cbn;
      by rewrite ?lookup_insert_ne.
Qed.

Lemma get_message_spec_registered_witness :
  ∃ w',
    register_message Sample.derived Sample.minimize Sample.with_start
      = (Return Sample.minimize, w') ∧
    get_message_spec Sample.derived "minimize" w' = Return Sample.minimize ∧
    ∀ m, m ≠ "minimize" →
         get_message_spec Sample.base m w' = get_message_spec Sample.base m Sample.with_start.
Proof.
  apply (get_message_spec_registered Sample.derived Sample.base Sample.minimize
           Sample.with_start).
  by vm_compute.
Defined.

(** X15: the order of registration decides whether a parent and a derived
    definition can hold different specs under one id. Registered first on
    the derived definition and then on the parent, both registrations go
    through and each definition resolves its own spec; registered first on
    the parent, the registration on the derived definition raises. *)
Theorem spec_registration_order (parent child : WorkflowBase)
    (spec_parent spec_child : MessageSpec) (w : World) :
  inherit_behaviour parent = false →
  inherit_behaviour child = true →
  spec_id spec_parent = spec_id spec_child →
  get_message_spec child (spec_id spec_child) w
    = Raise (MessageSpecNotRegisteredError (spec_id spec_child)) →
  (∃ w1 w2,
     register_message child spec_child w = (Return spec_child, w1) ∧
     register_message parent spec_parent w1 = (Return spec_parent, w2) ∧
     get_message_spec child (spec_id spec_child) w2 = Return spec_child ∧
     get_message_spec parent (spec_id spec_child) w2 = Return spec_parent) ∧
  (∃ w1 msg,
     register_message parent spec_parent w = (Return spec_parent, w1) ∧
     register_message child spec_child w1 = (Raise (ValueError msg), w1) ∧
     get_message_spec child (spec_id spec_child) w1 = Return spec_parent).
Proof.
  intros Hparent Hchild Hid [Hnone _]%get_message_spec_Raise.
  unfold dict_get in Hnone. rewrite (bound_message_specs child Hchild) in Hnone.
  cbn [aget MESSAGE_SPECS] in Hnone.
  destruct (_message_specs (basic w) !! spec_id spec_child) eqn:Hbasic; [done|].
  assert (Hfalse : bool_decide (is_Some (@None MessageSpec)) = false)
    by (apply bool_decide_eq_false_2; by intros [??]).
  split.
  - set (w1 := {| cls := cls w;
                  basic := set_message_specs
                             (<[spec_id spec_child := spec_child]>
                                (_message_specs (basic w))) (basic w) |}).
    set (w2 := {| cls := set_message_specs
                           (<[spec_id spec_child := spec_parent]>
                              (_message_specs (cls w1))) (cls w1);
                  basic := basic w1 |}).
    exists w1, w2.
    assert (Hfirst : register_message child spec_child w = (Return spec_child, w1)).
    { rewrite register_message_run, dict_contains_get. unfold dict_get, dict_setitem.
      rewrite (bound_message_specs child Hchild). cbn [aget MESSAGE_SPECS].
      by rewrite Hbasic, Hnone, Hfalse. }
    assert (Hsecond : register_message parent spec_parent w1 = (Return spec_parent, w2)).
    { rewrite register_message_run, dict_contains_get. unfold dict_get, dict_setitem.
      rewrite (bound_base parent _ Hparent). cbn [aget MESSAGE_SPECS cls w1].
      by rewrite Hid, Hnone, Hfalse. }
    split; [done|]. split; [done|].
    unfold get_message_spec, dict_get.
    rewrite (bound_message_specs child Hchild), (bound_base parent _ Hparent).
    cbn. by rewrite !lookup_insert_eq.
  - set (w1 := {| cls := set_message_specs
                           (<[spec_id spec_child := spec_parent]>
                              (_message_specs (cls w))) (cls w);
                  basic := basic w |}).
    exists w1. eexists.
    assert (Hfirst : register_message parent spec_parent w = (Return spec_parent, w1)).
    { rewrite register_message_run, dict_contains_get. unfold dict_get, dict_setitem.
      rewrite (bound_base parent _ Hparent). cbn [aget MESSAGE_SPECS].
      by rewrite Hid, Hnone, Hfalse. }
    split; [done|].
    assert (Hseen : dict_get child MESSAGE_SPECS (spec_id spec_child) w1
                    = Some spec_parent).
    { unfold dict_get. rewrite (bound_message_specs child Hchild). cbn.
      by rewrite Hbasic, lookup_insert_eq. }
    split.
    + rewrite register_message_run, dict_contains_get, Hseen.
      by rewrite bool_decide_eq_true_2 by by eexists.
    + unfold get_message_spec. by rewrite Hseen.
Qed.

Lemma spec_registration_order_witness :
  let other := {| spec_id := "minimize"; verb := Some "Iconify" |} in
  ∃ w2,
    register_message Sample.base other Sample.with_minimize = (Return other, w2) ∧
    get_message_spec Sample.derived "minimize" w2 = Return Sample.minimize ∧
    get_message_spec Sample.base "minimize" w2 = Return other.
Proof.
  cbv zeta.
  destruct (spec_registration_order Sample.base Sample.derived
              {| spec_id := "minimize"; verb := Some "Iconify" |} Sample.minimize
              Sample.loaded eq_refl eq_refl eq_refl)
    as ((w1 & w2 & Hfirst & Hsecond & Hchild & Hparent) & _); [by vm_compute|].
  exists w2. unfold Sample.with_minimize. rewrite Hfirst. by repeat split.
Defined.

(** ** Construction *)

(** X16: the valid-state set at construction. A definition constructed
    without inherit_behaviour accepts exactly its declared valid states and
    its extra valid states. A definition constructed with
    inherit_behaviour accepts exactly the states valid for the class
    before, together with its own extra valid states; its declared
    valid_states play no part. Constructing it changes nothing for the
    parent. *)
Theorem constructed_valid_states (base derived : WorkflowBase) (s : state)
    (w : World) :
  inherit_behaviour base = false →
  inherit_behaviour derived = true →
  (is_valid_state base s (__init__ base w) = true ↔
   s ∈ valid_states base ∨ s ∈ extra_valid_states base) ∧
  (is_valid_state derived s (__init__ derived w) = true ↔
   is_valid_state base s w = true ∨ s ∈ extra_valid_states derived) ∧
  is_valid_state base s (__init__ derived w) = is_valid_state base s w ∧
  cls (__init__ derived w) = cls w.
Proof.
  intros Hbase Hderived.
  unfold is_valid_state, self_valid_states, __init__. rewrite Hbase, Hderived.
  cbn [negb init_containers init_inherited_containers cls basic
         set_valid_states _valid_states].
  rewrite !bool_decide_eq_true.
  split; [|split; [|done]].
  - by rewrite elem_of_union, !elem_of_list_to_set.
  - by rewrite elem_of_union, elem_of_list_to_set.
Qed.

Lemma constructed_valid_states_witness :
  let derived := {| valid_states := ["init"; "draft"];
                    extra_valid_states := ["closed"];
                    default_permission_checker := "allow_to_all";
                    inherit_behaviour := true |} in
  let w := __init__ derived (__init__ Sample.base Sample.empty_world) in
  is_valid_state derived "closed" w = true ∧
  is_valid_state derived "archived" w = true ∧
  is_valid_state derived "draft" w = false.
Proof.
  cbv zeta.
  set (derived := {| valid_states := ["init"; "draft"];
                     extra_valid_states := ["closed"];
                     default_permission_checker := "allow_to_all";
                     inherit_behaviour := true |}).
  destruct (constructed_valid_states Sample.base derived "closed"
              (__init__ Sample.base Sample.empty_world) eq_refl eq_refl)
    as (_ & Hclosed & _).
  destruct (constructed_valid_states Sample.base derived "archived"
              (__init__ Sample.base Sample.empty_world) eq_refl eq_refl)
    as (_ & Harchived & _).
  destruct (constructed_valid_states Sample.base derived "draft"
              (__init__ Sample.base Sample.empty_world) eq_refl eq_refl)
    as (_ & Hdraft & _).
  split; [|split].
  - apply Hclosed. right. apply elem_of_cons. by left.
  - apply Harchived. left. by vm_compute.
  - apply not_true_is_false. intros [Hparent|Hextra]%Hdraft.
    + by vm_compute in Hparent.
    + apply elem_of_cons in Hextra as [[=]|[]%elem_of_nil].
Defined.

(** X17: constructing a definition without inherit_behaviour empties
    every table of the class: whatever was registered before, afterwards
    no state has a handler, an action or a resource, and no message spec
    is registered. *)
Theorem construction_resets_tables {Obj Sender}
    (call_checker : checker → Obj → Sender → bool) (base : WorkflowBase)
    (w : World) :
  inherit_behaviour base = false →
  let w' := __init__ base w in
  get_nonfinal_states base w' = [] ∧
  (∀ s m, get_handler call_checker base s m w' = Raise (IllegalStateError s)) ∧
  (∀ from_state to_state m,
     get_action base from_state to_state m w' = Return None ∧
     get_possible_actions base from_state m w' = Return []) ∧
  (∀ s rid, is_valid_state base s w' = true → get_resource base s rid w' = Return None) ∧
  (∀ m, get_message_spec base m w' = Raise (MessageSpecNotRegisteredError m)) ∧
  (∀ s, get_checkers_by_state base s w' = Return ∅).
Proof.
  intros Hbase. cbv zeta.
  assert (Hcls : cls (__init__ base w)
                 = set_valid_states
                     (list_to_set (valid_states base)
                      ∪ list_to_set (extra_valid_states base)) fresh_containers).
  { unfold __init__. by rewrite Hbase. }
  split; [|split; [|split; [|split; [|split]]]].
  - unfold get_nonfinal_states, dict_keys.
    rewrite (bound_base base _ Hbase), Hcls. cbn [aget HANDLERS].
    unfold keys. cbn. by rewrite map_to_list_empty.
  - intros s m. unfold get_handler.
    rewrite (dict_get_cls base HANDLERS), Hcls by done. cbn.
    by rewrite lookup_empty.
  - intros from_state to_state m.
    rewrite get_action_cls, get_possible_actions_cls. unfold possible_list.
    rewrite Hcls. cbn. by rewrite !lookup_empty.
  - intros s rid Hvalid. unfold get_resource.
    rewrite (dict_get_cls base RESOURCES_BY_STATE), Hvalid by done.
    rewrite Hcls. cbn. by rewrite lookup_empty.
  - intros m. unfold get_message_spec, dict_get.
    rewrite (bound_base base _ Hbase), Hcls. cbn. by rewrite lookup_empty.
  - intros s. unfold get_checkers_by_state, get_message_checkers_by_state,
      get_resource_checkers_by_state.
    rewrite (dict_get_cls base MESSAGE_CHECKERS_BY_STATE),
      (dict_get_cls base RESOURCE_CHECKERS_BY_STATE) by done.
    rewrite Hcls. cbn. rewrite !lookup_empty. cbn. by f_equal.
Qed.

Lemma construction_resets_tables_witness :
  get_handler Sample.call_checker Sample.base "init" "start"
    (__init__ Sample.base Sample.with_start)
    = Raise (IllegalStateError "init").
Proof.
  apply (construction_resets_tables Sample.call_checker Sample.base
           Sample.with_start eq_refl).
Defined.

(** ** The permission argument of a handler *)

(** X18: how the permission_checker argument of register_handler decides
    who may send the message. Omitted, the handler is guarded by the
    default permission checker alone; given as a single checker, by that
    checker; given as an empty collection, by a predicate that rejects
    every object and sender. *)
Theorem handler_predicate_by_argument {Obj Sender}
    (call_checker : checker → Obj → Sender → bool) (self : WorkflowBase)
    (m : option message_id) (states_from : option (list state))
    (permission_checker : option checker_arg) (handler : callable)
    (s : state) (w : World) :
  s ∈ default (valid_states self) states_from →
  let w' := (decorate (register_handler self m states_from permission_checker)
               handler w).2 in
  ∃ predicate,
    get_handler call_checker self s (default (__name__ handler) m) w'
      = Return (predicate, handler) ∧
    ∀ obj sender,
      match permission_checker with
      | None =>
          predicate obj sender
            = call_checker (default_permission_checker self) obj sender
      | Some (single c) => predicate obj sender = call_checker c obj sender
      | Some (iterable []) => predicate obj sender = false
      | Some (iterable (_ :: _)) => True
      end.
Proof.
  intros Hs. cbv zeta. rewrite register_handler_run. cbn [snd].
  set (message := default (__name__ handler) m).
  set (C := normalize_checkers self permission_checker).
  exists (_join_checkers call_checker C). split.
  - apply get_handler_handler_at. exists C, handler. split; [|done].
    apply (fold_left_establishes
             (λ w1, handler_at (cls w1) s message (C, handler)) _ _ s); [done| |].
    + intros w1. eexists. rewrite handler_step_handlers, lookup_insert_eq.
      split; [done|]. apply lookup_insert_eq.
    + intros w1 s1 (handlers & Hstate & Hentry).
      destruct (decide (s1 = s)) as [->|Hne].
      * eexists. rewrite handler_step_handlers, lookup_insert_eq, Hstate.
        split; [done|]. apply lookup_insert_eq.
      * exists handlers. by rewrite handler_step_handlers, lookup_insert_ne.
  - intros obj sender. unfold C, _join_checkers.
    destruct permission_checker as [[c|[|c cs]]|]; cbn; try done;
      by rewrite orb_false_r.
Qed.

Lemma handler_predicate_by_argument_witness :
  let w' := (decorate (register_handler Sample.base (Some "stop") (Some ["init"])
                         (Some (iterable []))) Sample.notify Sample.loaded).2 in
  ∃ predicate,
    get_handler Sample.call_checker Sample.base "init" "stop" w'
      = Return (predicate, Sample.notify) ∧
    ∀ obj sender, predicate obj sender = false.
Proof.
  cbv zeta.
  apply (handler_predicate_by_argument Sample.call_checker Sample.base
           (Some "stop") (Some ["init"]) (Some (iterable [])) Sample.notify
           "init" Sample.loaded).
  apply elem_of_cons. by left.
Defined.

(** ** The version index of a revision *)

Section revision_index.
Import Revision.

Lemma dict_of_fold_elem {K} `{Countable K} {V} (pairs : list (K * V))
    (d : gmap K V) (k : K) (v : V) :
  fold_left (λ d kv, <[kv.1 := kv.2]> d) pairs d !! k = Some v →
  (k, v) ∈ pairs ∨ d !! k = Some v.
Proof.
  revert d. induction pairs as [|[k0 v0] pairs IH]; intros d; [by right|].
  cbn [fold_left fst snd]. intros [Hin|Hd]%IH.
  - left. by apply elem_of_cons; right.
  - destruct (decide (k0 = k)) as [->|Hne].
    + rewrite lookup_insert_eq in Hd. injection Hd as ->.
      left. by apply elem_of_cons; left.
    + rewrite lookup_insert_ne in Hd by done. by right.
Qed.

Lemma dict_of_fold_notin {K} `{Countable K} {V} (pairs : list (K * V))
    (d : gmap K V) (k : K) :
  k ∉ pairs.*1 →
  fold_left (λ d kv, <[kv.1 := kv.2]> d) pairs d !! k = d !! k.
Proof.
  revert d. induction pairs as [|[k0 v0] pairs IH]; intros d Hnotin; [done|].
  cbn [fold_left fst snd]. cbn in Hnotin. apply not_elem_of_cons in Hnotin as [Hne Hnotin].
  rewrite IH by done. by rewrite lookup_insert_ne.
Qed.

Lemma dict_of_fold_is_Some {K} `{Countable K} {V} (pairs : list (K * V))
    (d : gmap K V) (k : K) :
  k ∈ pairs.*1 ∨ is_Some (d !! k) →
  is_Some (fold_left (λ d kv, <[kv.1 := kv.2]> d) pairs d !! k).
Proof.
  revert d. induction pairs as [|[k0 v0] pairs IH]; intros d.
  - by intros [Hin%elem_of_nil|Hd].
  - cbn [fold_left fst snd]. cbn. intros [Hin|Hd]; apply IH.
    + apply elem_of_cons in Hin as [->|Hin]; [right|by left].
      rewrite lookup_insert_eq. by eexists.
    + right. destruct (decide (k0 = k)) as [->|Hne].
      * rewrite lookup_insert_eq. by eexists.
      * by rewrite lookup_insert_ne.
Qed.

Lemma dict_of_unique {K} `{Countable K} {V} (pairs : list (K * V)) (k : K) (v : V) :
  NoDup pairs.*1 → (k, v) ∈ pairs → dict_of pairs !! k = Some v.
Proof.
  unfold dict_of. generalize (∅ : gmap K V).
  induction pairs as [|[k0 v0] pairs IH]; intros d Hnodup Hin;
    [by apply elem_of_nil in Hin|].
  cbn in Hnodup. apply NoDup_cons in Hnodup as [Hnotin Hnodup].
  cbn [fold_left fst snd]. apply elem_of_cons in Hin as [[= -> ->]|Hin].
  - rewrite dict_of_fold_notin by done. apply lookup_insert_eq.
  - by apply IH.
Qed.

Lemma groupby_elem {A K} `{EqDecision K} (key : A → K) (l : list A) k group :
  (k, group) ∈ groupby key l → ∀ x, x ∈ group → key x = k ∧ x ∈ l.
Proof.
  revert k group. induction l as [|a l IH]; intros k group Hin;
    [by apply elem_of_nil in Hin|].
  cbn [groupby] in Hin.
  destruct (groupby key l) as [|[k0 g0] rest] eqn:Hg.
  - apply list_elem_of_singleton in Hin as [= -> ->].
    intros x ->%list_elem_of_singleton. split; [done|]. by apply elem_of_cons; left.
  - destruct (decide (key a = k0)) as [Hk|Hk].
    + apply elem_of_cons in Hin as [[= -> ->]|Hin].
      * intros x [->|Hx]%elem_of_cons.
        -- split; [done|]. by apply elem_of_cons; left.
        -- destruct (IH k0 g0 ltac:(by apply elem_of_cons; left) x Hx).
           split; [done|]. by apply elem_of_cons; right.
      * intros x Hx.
        destruct (IH k group ltac:(by apply elem_of_cons; right) x Hx).
        split; [done|]. by apply elem_of_cons; right.
    + apply elem_of_cons in Hin as [[= -> ->]|Hin].
      * intros x ->%list_elem_of_singleton. split; [done|].
        by apply elem_of_cons; left.
      * intros x Hx. destruct (IH k group Hin x Hx).
        split; [done|]. by apply elem_of_cons; right.
Qed.

Lemma groupby_cover {A K} `{EqDecision K} (key : A → K) (l : list A) x :
  x ∈ l → ∃ group, (key x, group) ∈ groupby key l ∧ x ∈ group.
Proof.
  induction l as [|a l IH]; intros Hin; [by apply elem_of_nil in Hin|].
  cbn [groupby]. apply elem_of_cons in Hin as [->|Hin].
  - destruct (groupby key l) as [|[k0 g0] rest].
    + exists [a]. split; by apply elem_of_cons; left.
    + destruct (decide (key a = k0)) as [<-|Hk].
      * exists (a :: g0). split; by apply elem_of_cons; left.
      * exists [a]. split; by apply elem_of_cons; left.
  - destruct (IH Hin) as (group & Hgroup & Hx).
    destruct (groupby key l) as [|[k0 g0] rest]; [by apply elem_of_nil in Hgroup|].
    destruct (decide (key a = k0)) as [Hk|Hk].
    + apply elem_of_cons in Hgroup as [[= <- <-]|Hgroup].
      * exists (a :: group). split; [by apply elem_of_cons; left|].
        by apply elem_of_cons; right.
      * exists group. split; [by apply elem_of_cons; right|done].
    + exists group. split; [by apply elem_of_cons; right|done].
Qed.
End revision_index.

Section revision_lookup.
Import Revision.

Lemma groupby_key_witness {A K} `{EqDecision K} (key : A → K) (l : list A) k :
  k ∈ (groupby key l).*1 → ∃ y, y ∈ l ∧ key y = k.
Proof.
  intros ([k' group] & -> & Hin)%list_elem_of_fmap.
  revert k' group Hin. induction l as [|a l IH]; intros k group Hin;
    [by apply elem_of_nil in Hin|].
  cbn [groupby] in Hin.
  destruct (groupby key l) as [|[k0 g0] rest] eqn:Hg.
  - apply list_elem_of_singleton in Hin as [= -> ->].
    exists a. split; [by apply elem_of_cons; left|done].
  - assert (Hold : ∀ k1 g1, (k1, g1) ∈ (k0, g0) :: rest → ∃ y, y ∈ a :: l ∧ key y = k1).
    { intros k1 g1 H1. destruct (IH k1 g1 H1) as (y & Hy & Hk).
      exists y. split; [by apply elem_of_cons; right|done]. }
    destruct (decide (key a = k0)) as [Hk|Hk].
    + apply elem_of_cons in Hin as [[= -> ->]|Hin].
      * exists a. split; [by apply elem_of_cons; left|done].
      * apply (Hold k group). by apply elem_of_cons; right.
    + apply elem_of_cons in Hin as [[= -> ->]|Hin].
      * exists a. split; [by apply elem_of_cons; left|done].
      * by apply (Hold k group).
Qed.

Lemma groupby_head_key {A K} `{EqDecision K} (key : A → K) (z : A) (l : list A)
    k0 g0 rest :
  groupby key (z :: l) = (k0, g0) :: rest → k0 = key z.
Proof.
  cbn [groupby]. destruct (groupby key l) as [|[k1 g1] rest1].
  - by intros [= <- _ _].
  - destruct (decide (key z = k1)) as [Hk|Hk]; by intros [= <- _ _].
Qed.

Lemma grouped_tail {K} (key : Version → K) (a : Version) (l : list Version) :
  grouped key (a :: l) → grouped key l.
Proof.
  intros Hgrouped l1 x l2 y l3 -> Hxy. by apply (Hgrouped (a :: l1) x l2 y l3).
Qed.

Lemma groupby_keys_NoDup {K} `{EqDecision K} (key : Version → K)
    (l : list Version) :
  grouped key l → NoDup (groupby key l).*1.
Proof.
  induction l as [|a l IH]; intros Hgrouped; [constructor|].
  specialize (IH (grouped_tail _ _ _ Hgrouped)).
  cbn [groupby]. destruct (groupby key l) as [|[k0 g0] rest] eqn:Hg.
  - cbn. apply NoDup_singleton.
  - destruct (decide (key a = k0)) as [Hk|Hk]; [done|].
    cbn [fmap list_fmap fst]. apply NoDup_cons. split; [|done].
    intros Hin.
    assert (Hwitness : ∃ y, y ∈ l ∧ key y = key a).
    { apply groupby_key_witness. by rewrite Hg. }
    destruct Hwitness as (y & Hy & Hkey).
    destruct l as [|z l']; [by apply elem_of_nil in Hy|].
    apply groupby_head_key in Hg as ->.
    apply list_elem_of_split in Hy as (la & lb & Hsplit).
    destruct la as [|z' la].
    + cbn in Hsplit. injection Hsplit as -> ->. done.
    + cbn in Hsplit. injection Hsplit as <- ->.
      apply Hk. symmetry.
      apply (Hgrouped [] a (z :: la) y lb); [done|done|].
      by apply elem_of_cons; left.
Qed.
End revision_lookup.

Section revision_properties.
Import Revision.

Lemma _index_lookup (versions : list Version) (name : string)
    (inner : gmap Z Version) :
  _index versions !! name = Some inner →
  ∃ group,
    (name, group) ∈ groupby (λ v, dotted_model_name (content_type v)) versions ∧
    inner = dict_of ((λ o, (object_id_int o, o)) <$> group).
Proof.
  unfold _index, dict_of at 1.
  intros [Hin|Hempty]%dict_of_fold_elem; [|by rewrite lookup_empty in Hempty].
  apply list_elem_of_fmap in Hin as ([k group] & [= -> ->] & Hin).
  by exists group.
Qed.

Lemma inner_dict_elem (group : list Version) (object_id : Z) (v : Version) :
  dict_of ((λ o, (object_id_int o, o)) <$> group) !! object_id = Some v →
  v ∈ group ∧ object_id_int v = object_id.
Proof.
  unfold dict_of.
  intros [Hin|Hempty]%dict_of_fold_elem; [|by rewrite lookup_empty in Hempty].
  by apply list_elem_of_fmap in Hin as (o & [= -> ->] & Hin).
Qed.

(** X19: the version index only returns versions of the revision that
    match the request. A version returned by get_version_for_object is one
    of the revision's versions, has the requested object id and belongs to
    a model with the requested dotted name; every version returned by
    get_versions_for_content_type is one of the revision's versions of
    such a model. *)
Theorem version_index_sound (versions : list Version) (ct : ContentType) :
  (∀ object_id v,
     get_version_for_object versions ct object_id = Some v →
     v ∈ versions ∧
     object_id_int v = object_id ∧
     dotted_model_name (content_type v) = dotted_model_name ct) ∧
  (∀ v,
     v ∈ get_versions_for_content_type versions ct →
     v ∈ versions ∧
     dotted_model_name (content_type v) = dotted_model_name ct).
Proof.
  assert (Hinner : ∀ object_id v,
    default ∅ (_index versions !! dotted_model_name ct) !! object_id = Some v →
    v ∈ versions ∧ object_id_int v = object_id ∧
    dotted_model_name (content_type v) = dotted_model_name ct).
  { intros object_id v.
    destruct (_index versions !! dotted_model_name ct) as [inner|] eqn:Hname;
      [|cbn; by rewrite lookup_empty].
    apply _index_lookup in Hname as (group & Hgroup & ->). cbn [from_option id].
    intros [Hv Hid]%inner_dict_elem.
    destruct (groupby_elem _ _ _ _ Hgroup v Hv) as [Hkey Hin]. done. }
  split.
  - intros object_id v. apply Hinner.
  - intros v ([object_id v'] & -> & Hin%elem_of_map_to_list)%list_elem_of_fmap.
    by destruct (Hinner object_id v' Hin) as (? & _ & ?).
Qed.

Lemma version_index_sound_witness :
  let ct := {| app_label := "shop"; model := "order" |} in
  let versions := [ {| pk := 1; content_type := ct; object_id_int := 7 |};
                    {| pk := 2; content_type := ct; object_id_int := 8 |} ] in
  {| pk := 2; content_type := ct; object_id_int := 8 |} ∈ versions.
Proof.
  cbv zeta.
  apply (version_index_sound
           [ {| pk := 1; content_type := {| app_label := "shop"; model := "order" |};
                object_id_int := 7 |};
             {| pk := 2; content_type := {| app_label := "shop"; model := "order" |};
                object_id_int := 8 |} ]
           {| app_label := "shop"; model := "order" |}) with (object_id := 8%Z).
  by vm_compute.
Defined.

(** X20: the version index finds every version of the revision. When
    the versions of one model follow one another in the list, as in the
    result of the query ordered by content type, and no two versions share
    model and object id, get_version_for_object returns each version of the
    revision for its own content type and object id. *)
Theorem version_index_complete (versions : list Version) (v : Version) :
  grouped (λ v, dotted_model_name (content_type v)) versions →
  (∀ v1 v2, v1 ∈ versions → v2 ∈ versions →
            dotted_model_name (content_type v1) = dotted_model_name (content_type v2) →
            object_id_int v1 = object_id_int v2 → v1 = v2) →
  v ∈ versions →
  get_version_for_object versions (content_type v) (object_id_int v) = Some v.
Proof.
  intros Hgrouped Hunique Hv.
  destruct (groupby_cover (λ v, dotted_model_name (content_type v)) versions v Hv)
    as (group & Hgroup & Hin).
  unfold get_version_for_object, _index.
  rewrite (dict_of_unique _ (dotted_model_name (content_type v))
             (dict_of ((λ o, (object_id_int o, o)) <$> group))).
  - cbn [from_option id].
    assert (Hsome : is_Some (dict_of ((λ o, (object_id_int o, o)) <$> group)
                               !! object_id_int v)).
    { apply dict_of_fold_is_Some. left. rewrite <- list_fmap_compose.
      apply list_elem_of_fmap. by exists v. }
    destruct Hsome as [v' Hv']. rewrite Hv'. f_equal.
    apply inner_dict_elem in Hv' as [Hv'in Hid].
    destruct (groupby_elem _ _ _ _ Hgroup v' Hv'in) as [Hkey Hv'versions].
    by apply Hunique.
  - rewrite <- list_fmap_compose.
    erewrite list_fmap_ext; [by apply groupby_keys_NoDup|].
    by intros _ [k g] _.
  - apply list_elem_of_fmap. by exists (dotted_model_name (content_type v), group).
Qed.

Lemma version_index_complete_witness :
  let order := {| app_label := "shop"; model := "order" |} in
  let item := {| app_label := "shop"; model := "item" |} in
  let versions := [ {| pk := 1; content_type := item; object_id_int := 7 |};
                    {| pk := 2; content_type := order; object_id_int := 7 |};
                    {| pk := 3; content_type := order; object_id_int := 8 |} ] in
  get_version_for_object versions order 7
    = Some {| pk := 2; content_type := order; object_id_int := 7 |}.
Proof.
  cbv zeta.
  set (order := {| app_label := "shop"; model := "order" |}).
  set (item := {| app_label := "shop"; model := "item" |}).
  set (v1 := {| pk := 1; content_type := item; object_id_int := 7 |}).
  set (v2 := {| pk := 2; content_type := order; object_id_int := 7 |}).
  set (v3 := {| pk := 3; content_type := order; object_id_int := 8 |}).
  apply (version_index_complete [v1; v2; v3] v2).
  - intros l1 x l2 y l3 Hsplit Hkey z Hz.
    destruct l1 as [|? [|? [|? l1]]]; cbn in Hsplit;
      (destruct l2 as [|? [|? l2]]; cbn in Hsplit;
       [by apply elem_of_nil in Hz| |];
       try (destruct l2; discriminate Hsplit);
       try discriminate Hsplit).
    all: try (destruct l1; discriminate Hsplit).
    injection Hsplit as <- <- <- <-. by vm_compute in Hkey.
  - intros a b Ha Hb Hname Hid.
    repeat (apply elem_of_cons in Ha as [->|Ha]);
      repeat (apply elem_of_cons in Hb as [->|Hb]);
      try (by apply elem_of_nil in Ha); try (by apply elem_of_nil in Hb);
      try done; by vm_compute in Hname, Hid.
  - apply elem_of_cons. right. apply elem_of_cons. by left.
Defined.
End revision_properties.

(** ** is_valid_message against get_handler *)

(** X21: is_valid_message predicts get_handler. It returns true exactly
    when get_handler returns a handler, and whenever get_handler raises
    UnhandledMessage it returns false and the message id is not among the
    ids the error carries. *)
Theorem is_valid_message_predicts_get_handler {Obj Sender}
    (call_checker : checker → Obj → Sender → bool) (self : WorkflowBase)
    (s : state) (m : message_id) (w : World) :
  (is_valid_message self s m w = Return true ↔
   ∃ r, get_handler call_checker self s m w = Return r) ∧
  (∀ m' handled,
     get_handler call_checker self s m w = Raise (UnhandledMessageError m' handled) →
     is_valid_message self s m w = Return false ∧ m' = m ∧ m ∉ handled).
Proof.
  unfold is_valid_message, get_handler.
  rewrite !(dict_get_cls self HANDLERS) by done. cbn [aget HANDLERS].
  destruct (_handlers (cls w) !! s) as [handlers|].
  - destruct (handlers !! m) as [[pcs h]|] eqn:Hm.
    + split; [|done]. rewrite bool_decide_eq_true_2 by by eexists.
      split; [by eexists|done].
    + rewrite bool_decide_eq_false_2 by (by intros [??]). split.
      * split; [done|]. by intros [r [=]].
      * intros m' handled [= <- <-]. split; [done|]. split; [done|].
        rewrite elem_of_keys, Hm. by intros [??].
  - split; [|done]. split; [by destruct (negb _)|]. by intros [r [=]].
Qed.

Lemma is_valid_message_predicts_get_handler_witness :
  is_valid_message Sample.base "init" "stop" Sample.with_start = Return false.
Proof.
  destruct (is_valid_message_predicts_get_handler Sample.call_checker Sample.base
              "init" "stop" Sample.with_start) as [_ Hunhandled].
  apply (Hunhandled "stop" ["start"]). by vm_compute.
Defined.
